(** * Razorpay payment API: a shallow embedding of the FastAPI service

    The development follows the source tree:

    - [Py]       the fragment of Python the handlers rely on: exceptions,
                 JSON-like values, [==], truthiness, insertion-ordered
                 dictionaries, binary64 arithmetic ([int(x * 100)], [x / 100]);
    - [Security] [app/utils/security.py];
    - [Service]  [app/services/razorpay_service.py], over an abstract vendor
                 SDK client;
    - [Routes]   [app/routes/payments.py], the handlers over the in-memory
                 [payments_db].

    Handlers are written in a small state/exception/writer monad: the state is
    [payments_db], an exception leaves the mutations made so far in place (as
    in Python), and the writer records the calls made to the outside world in
    program order. *)

From Stdlib Require Import ZArith NArith List String Ascii Bool Lia.
From Stdlib Require Import Strings.Byte.
From Stdlib Require Import Floats.SpecFloat.
Import ListNotations.

Open Scope Z_scope.
Open Scope string_scope.
Open Scope list_scope.

Set Warnings "-register-all".

(* ================================================================== *)
(** * Python values and exceptions *)
(* ================================================================== *)

Module Py.

(** Exceptions that can reach the handlers.  The [detail] of an
    [HTTPException] built by [f"...: {str(e)}"] is kept structured (prefix and
    cause) instead of being rendered to text. *)
Inductive exn :=
| HTTPException (status_code : Z) (detail : detail_t)
| SignatureVerificationError
| UnicodeDecodeError
| JSONDecodeError
| AttributeError
| TypeError
| ValueError
| OverflowError
| SdkError (msg : string)
with detail_t :=
| Detail (msg : string)
| DetailOf (prefix : string) (cause : exn).

Inductive res (A : Type) :=
| Ok (a : A)
| Raise (e : exn).
Arguments Ok {A} a.
Arguments Raise {A} e.

(** ** Insertion-ordered dictionaries with [str] keys *)

Definition dict (V : Type) := list (string * V).

Fixpoint dict_get {V} (d : dict V) (k : string) : option V :=
  match d with
  | [] => None
  | (k', v) :: rest => if String.eqb k' k then Some v else dict_get rest k
  end.

(** [d[k] = v]: an existing key keeps its position, a new key goes last. *)
Fixpoint dict_set {V} (d : dict V) (k : string) (v : V) : dict V :=
  match d with
  | [] => [(k, v)]
  | (k', v') :: rest =>
      if String.eqb k' k then (k', v) :: rest else (k', v') :: dict_set rest k v
  end.

(** [d.update(other)] *)
Definition dict_update {V} (d : dict V) (other : dict V) : dict V :=
  fold_left (fun acc kv => dict_set acc (fst kv) (snd kv)) other d.

Definition dict_keys {V} (d : dict V) : list string := map fst d.
Definition dict_values {V} (d : dict V) : list V := map snd d.

(** ** binary64 *)

Definition float := spec_float.
Definition prec : Z := 53.
Definition emax : Z := 1024.

Definition float_mul : float -> float -> float := SFmul prec emax.
Definition float_div : float -> float -> float := SFdiv prec emax.

(** An integer as an unrounded mantissa with exponent 0. *)
Definition raw_of_int (z : Z) : spec_float :=
  match z with
  | Z0 => S754_zero false
  | Zpos p => S754_finite false p 0
  | Zneg p => S754_finite true p 0
  end.

(** The [float] of a small integer literal of the source. *)
Definition float_lit (z : Z) : float := binary_normalize prec emax z 0 false.

(** [int(x)] on a float: truncation toward zero. *)
Definition int_of_float (f : float) : res Z :=
  match f with
  | S754_zero _ => Ok 0
  | S754_infinity _ => Raise OverflowError
  | S754_nan => Raise ValueError
  | S754_finite s m e =>
      Ok (cond_Zopp s
            match e with
            | Zneg p => Z.shiftr (Zpos m) (Zpos p)
            | _ => Z.shiftl (Zpos m) e
            end)
  end.

(** [a / b] on two ints with [b <> 0]: the correctly rounded quotient,
    [OverflowError] when it is too large for a float. *)
Definition int_truediv (a b : Z) : res float :=
  match SFdiv prec emax (raw_of_int a) (raw_of_int b) with
  | S754_infinity _ => Raise OverflowError
  | f => Ok f
  end.

(** [bool(x)] for a float. *)
Definition float_truthy (f : float) : bool :=
  match f with
  | S754_zero _ => false
  | _ => true
  end.

(** Does the float denote exactly the integer [z]? *)
Definition float_eq_int (f : float) (z : Z) : bool :=
  match f with
  | S754_zero _ => Z.eqb z 0
  | S754_finite s m e =>
      match e with
      | Zneg p =>
          Z.eqb (Z.land (Zpos m) (Z.ones (Zpos p))) 0
          && Z.eqb (cond_Zopp s (Z.shiftr (Zpos m) (Zpos p))) z
      | _ => Z.eqb (cond_Zopp s (Z.shiftl (Zpos m) e)) z
      end
  | _ => false
  end.

(** ** JSON-like values *)

Inductive pyval :=
| PNone
| PBool (b : bool)
| PInt (z : Z)
| PFloat (f : float)
| PStr (s : string)
| PList (l : list pyval)
| PDict (d : list (string * pyval)).

(** Numbers compare by value across [bool], [int] and [float]. *)
Inductive number :=
| NInt (z : Z)
| NFloat (f : float).

Definition as_number (v : pyval) : option number :=
  match v with
  | PBool b => Some (NInt (Z.b2z b))
  | PInt z => Some (NInt z)
  | PFloat f => Some (NFloat f)
  | _ => None
  end.

Definition number_eq (a b : number) : bool :=
  match a, b with
  | NInt x, NInt y => Z.eqb x y
  | NInt x, NFloat g => float_eq_int g x
  | NFloat f, NInt y => float_eq_int f y
  | NFloat f, NFloat g => SFeqb f g
  end.

(** [a == b].  Lists compare pointwise and dictionaries key by key; objects
    carry no identity in this model. *)
Fixpoint py_eq (a b : pyval) {struct a} : bool :=
  match a with
  | PNone => match b with PNone => true | _ => false end
  | PBool x =>
      match as_number b with
      | Some n => number_eq (NInt (Z.b2z x)) n
      | None => false
      end
  | PInt x =>
      match as_number b with
      | Some n => number_eq (NInt x) n
      | None => false
      end
  | PFloat x =>
      match as_number b with
      | Some n => number_eq (NFloat x) n
      | None => false
      end
  | PStr x => match b with PStr y => String.eqb x y | _ => false end
  | PList l1 =>
      match b with
      | PList l2 =>
          (fix go (xs ys : list pyval) {struct xs} : bool :=
             match xs, ys with
             | [], [] => true
             | x :: xs', y :: ys' => py_eq x y && go xs' ys'
             | _, _ => false
             end) l1 l2
      | _ => false
      end
  | PDict d1 =>
      match b with
      | PDict d2 =>
          Nat.eqb (List.length d1) (List.length d2)
          && (fix go (xs : list (string * pyval)) {struct xs} : bool :=
                match xs with
                | [] => true
                | (k, v) :: xs' =>
                    match dict_get d2 k with
                    | Some w => py_eq v w
                    | None => false
                    end && go xs'
                end) d1
      | _ => false
      end
  end.

(** [o.get(k, default)]; only dictionaries have a [get] method. *)
Definition py_get (o : pyval) (k : string) (default : pyval) : res pyval :=
  match o with
  | PDict d => Ok (match dict_get d k with Some v => v | None => default end)
  | _ => Raise AttributeError
  end.

(** [v / 100] for a JSON value [v]. *)
Definition py_truediv_100 (v : pyval) : res float :=
  match v with
  | PBool b => int_truediv (Z.b2z b) 100
  | PInt z => int_truediv z 100
  | PFloat f => Ok (float_div f (float_lit 100))
  | _ => Raise TypeError
  end.

Definition opt_str (o : option string) : pyval :=
  match o with
  | Some s => PStr s
  | None => PNone
  end.

(** Truthiness of an [Optional[str]] and of a dictionary. *)
Definition str_truthy (o : option string) : bool :=
  match o with
  | Some s => negb (String.eqb s EmptyString)
  | None => false
  end.

Definition dict_truthy {V} (d : dict V) : bool :=
  match d with
  | [] => false
  | _ => true
  end.

End Py.
Import Py.

(* ================================================================== *)
(** * The handler monad *)
(* ================================================================== *)

(** A stored payment record and the in-memory store [payments_db], keyed by
    order identifier, in insertion order. *)
Definition record := dict pyval.
Definition payments_db := dict record.

(** [str] obtained by decoding bytes: a sequence of code points. *)
Definition text := list N.

Inductive log_line :=
| Processed (event : pyval)
| ErrorProcessing (e : exn).

(** Calls that leave the handler, in the order they are made. *)
Inductive effect :=
| SdkOrderCreate (data : dict pyval)
| SdkVerifyPaymentSignature (order_id payment_id signature : string)
| SdkVerifyWebhookSignature (body : text) (signature secret : string)
| SdkPaymentFetch (payment_id : string)
| SdkPaymentRefund (payment_id : string) (data : dict pyval)
| RequestBody
| RequestJson
| AddTask (event payload : pyval)
| Print (line : log_line).

Definition M (A : Type) : Type :=
  payments_db -> res A * payments_db * list effect.

Definition ret {A} (a : A) : M A := fun db => (Ok a, db, []).

Definition raise {A} (e : exn) : M A := fun db => (Raise e, db, []).

Definition bind {A B} (m : M A) (k : A -> M B) : M B :=
  fun db =>
    match m db with
    | (Ok a, db1, t1) =>
        match k a db1 with
        | (r, db2, t2) => (r, db2, t1 ++ t2)
        end
    | (Raise e, db1, t1) => (Raise e, db1, t1)
    end.

(** [try: m except Exception as e: h e] *)
Definition try_except {A} (m : M A) (h : exn -> M A) : M A :=
  fun db =>
    match m db with
    | (Ok a, db1, t1) => (Ok a, db1, t1)
    | (Raise e, db1, t1) =>
        match h e db1 with
        | (r, db2, t2) => (r, db2, t1 ++ t2)
        end
    end.

Definition get_db : M payments_db := fun db => (Ok db, db, []).
Definition put_db (db' : payments_db) : M unit := fun _ => (Ok tt, db', []).

(** An outside call with its outcome. *)
Definition call {A} (e : effect) (r : res A) : M A := fun db => (r, db, [e]).

Definition lift {A} (r : res A) : M A := fun db => (r, db, []).

Definition print (l : log_line) : M unit := call (Print l) (Ok tt).

Declare Scope monad_scope.
Delimit Scope monad_scope with monad.
Notation "x <- c ;; k" := (bind c (fun x => k))
  (at level 61, c at next level, right associativity) : monad_scope.
Notation "c ;;; k" := (bind c (fun _ => k))
  (at level 61, right associativity) : monad_scope.

Definition bind_res {A B} (r : res A) (k : A -> res B) : res B :=
  match r with
  | Ok a => k a
  | Raise e => Raise e
  end.

Definition response_of {A} (x : res A * payments_db * list effect) : res A :=
  fst (fst x).
Definition db_of {A} (x : res A * payments_db * list effect) : payments_db :=
  snd (fst x).
Definition effects_of {A} (x : res A * payments_db * list effect) : list effect :=
  snd x.

(** [data.get(k)] on a stored record. *)
Definition record_get (r : record) (k : string) : pyval :=
  match dict_get r k with
  | Some v => v
  | None => PNone
  end.

(** The scan
    [for key, data in payments_db.items(): if p(data): <update data>; break].
    The update expression is evaluated before the record is touched, so an
    exception in it leaves the store as it was. *)
Fixpoint scan_update (p : record -> bool) (upd : record -> res record)
         (db : payments_db) : res payments_db :=
  match db with
  | [] => Ok []
  | (k, r) :: rest =>
      if p r then
        match upd r with
        | Ok r' => Ok ((k, r') :: rest)
        | Raise e => Raise e
        end
      else
        match scan_update p upd rest with
        | Ok rest' => Ok ((k, r) :: rest')
        | Raise e => Raise e
        end
  end.

Definition for_first_match (p : record -> bool) (upd : record -> res record)
  : M unit :=
  fun db =>
    match scan_update p upd db with
    | Ok db' => (Ok tt, db', [])
    | Raise e => (Raise e, db, [])
    end.

(* ================================================================== *)
(** * Encodings *)
(* ================================================================== *)

Module Codec.

Definition is_cont (x : N) : bool := ((0x80 <=? x) && (x <=? 0xBF))%N.

(** [bytes.decode('utf-8')] (strict): [None] stands for [UnicodeDecodeError].
    Overlong forms, surrogates and code points above U+10FFFF are refused. *)
Fixpoint utf8_decode (bs : list byte) : option text :=
  match bs with
  | [] => Some []
  | b0 :: r0 =>
      let x0 := Byte.to_N b0 in
      if (x0 <? 0x80)%N then
        option_map (cons x0) (utf8_decode r0)
      else if ((0xC2 <=? x0) && (x0 <=? 0xDF))%N then
        match r0 with
        | b1 :: r1 =>
            let x1 := Byte.to_N b1 in
            if is_cont x1 then
              option_map (cons ((x0 - 0xC0) * 64 + (x1 - 0x80))%N)
                         (utf8_decode r1)
            else None
        | _ => None
        end
      else if ((0xE0 <=? x0) && (x0 <=? 0xEF))%N then
        match r0 with
        | b1 :: b2 :: r2 =>
            let x1 := Byte.to_N b1 in
            let x2 := Byte.to_N b2 in
            let lo := (if x0 =? 0xE0 then 0xA0 else 0x80)%N in
            let hi := (if x0 =? 0xED then 0x9F else 0xBF)%N in
            if ((lo <=? x1) && (x1 <=? hi))%N && is_cont x2 then
              option_map
                (cons ((x0 - 0xE0) * 4096 + (x1 - 0x80) * 64 + (x2 - 0x80))%N)
                (utf8_decode r2)
            else None
        | _ => None
        end
      else if ((0xF0 <=? x0) && (x0 <=? 0xF4))%N then
        match r0 with
        | b1 :: b2 :: b3 :: r3 =>
            let x1 := Byte.to_N b1 in
            let x2 := Byte.to_N b2 in
            let x3 := Byte.to_N b3 in
            let lo := (if x0 =? 0xF0 then 0x90 else 0x80)%N in
            let hi := (if x0 =? 0xF4 then 0x8F else 0xBF)%N in
            if ((lo <=? x1) && (x1 <=? hi))%N && is_cont x2 && is_cont x3 then
              option_map
                (cons ((x0 - 0xF0) * 262144 + (x1 - 0x80) * 4096
                       + (x2 - 0x80) * 64 + (x3 - 0x80))%N)
                (utf8_decode r3)
            else None
        | _ => None
        end
      else None
  end.

Definition byte_of_N (n : N) : byte :=
  match Byte.of_N n with
  | Some b => b
  | None => x00
  end.

(** [str.encode('utf-8')] for a string whose characters are the code points
    0..255 (an HTTP header value, a configured secret). *)
Fixpoint utf8_encode (s : string) : list byte :=
  match s with
  | EmptyString => []
  | String c rest =>
      let x := N_of_ascii c in
      if (x <? 0x80)%N then byte_of_N x :: utf8_encode rest
      else byte_of_N (0xC0 + x / 64)%N :: byte_of_N (0x80 + x mod 64)%N
             :: utf8_encode rest
  end.

Fixpoint is_ascii_str (s : string) : bool :=
  match s with
  | EmptyString => true
  | String c rest => (N_of_ascii c <? 0x80)%N && is_ascii_str rest
  end.

End Codec.

(* ================================================================== *)
(** * app/utils/security.py *)
(* ================================================================== *)

Module Security.

Section WithHmac.

(** [hmac.new(key, msg, hashlib.sha256).hexdigest()] of the Python standard
    library. *)
Variable hmac_sha256_hexdigest : list byte -> list byte -> string.

(** [hmac.compare_digest] on two [str]: both must be ASCII, otherwise
    [TypeError]. *)
Definition compare_digest (a b : string) : res bool :=
  if Codec.is_ascii_str a && Codec.is_ascii_str b
  then Ok (String.eqb a b)
  else Raise TypeError.

Definition verify_webhook_signature
           (payload : list byte) (signature secret : string) : res bool :=
  let expected_signature :=
    hmac_sha256_hexdigest (Codec.utf8_encode secret) payload in
  compare_digest expected_signature signature.

End WithHmac.

End Security.

(* ================================================================== *)
(** * The vendor SDK, configuration and the request object *)
(* ================================================================== *)

(** The order entity returned by [client.order.create]; the handlers read
    only its ["id"], the processor-assigned identifier. *)
Record OrderEntity := {
  order_entity_id : string
}.

(** The refund entity returned by [client.payment.refund]: ["id"],
    ["amount"] (minor units), ["status"], the optional ["speed"] and
    ["created_at"]. *)
Record RefundEntity := {
  refund_entity_id : string;
  refund_entity_amount : Z;
  refund_entity_status : string;
  refund_entity_speed : option string;
  refund_entity_created_at : Z
}.

(** [razorpay.Client]: each method is given by its outcome on its arguments.
    The two [utility] verifiers return normally on a valid signature and raise
    [SignatureVerificationError] on a mismatch. *)
Record Client := {
  order_create : dict pyval -> res OrderEntity;
  utility_verify_payment_signature : string -> string -> string -> res unit;
  utility_verify_webhook_signature : text -> string -> string -> res unit;
  payment_fetch : string -> res pyval;
  payment_refund : string -> dict pyval -> res RefundEntity
}.

(** [app/config.py] *)
Record Settings := {
  razorpay_key_id : string;
  razorpay_key_secret : string;
  webhook_secret : string
}.

Record Env := {
  client : Client;
  settings : Settings;
  (** [json.loads] behind [request.json()] *)
  json_loads : list byte -> res pyval
}.

(** The part of the incoming webhook request the handler reads. *)
Record Request := {
  x_razorpay_signature : option string;
  request_body : list byte
}.

(** [app/schemas/payment.py] *)
Record PaymentCreate := {
  pc_amount : float;
  pc_currency : string;
  pc_customer_name : option string;
  pc_customer_email : option string;
  pc_customer_phone : option string;
  pc_description : option string
}.

Record OrderCreateResponse := {
  ocr_order_id : string;
  ocr_amount : float;
  ocr_currency : string;
  ocr_key_id : string;
  ocr_customer_name : option string;
  ocr_customer_email : option string
}.

Record RefundCreate := {
  rc_payment_id : string;
  rc_amount : option float;
  rc_notes : option (dict pyval)
}.

Record RefundResponse := {
  rr_refund_id : string;
  rr_payment_id : string;
  rr_amount : float;
  rr_status : string;
  rr_speed : string;
  rr_created_at : Z
}.

(* ================================================================== *)
(** * app/services/razorpay_service.py *)
(* ================================================================== *)

Module Service.

Section WithEnv.

Variable env : Env.

Local Open Scope monad_scope.

(** [int(amount * 100)] *)
Definition to_paise (amount : float) : res Z :=
  int_of_float (float_mul amount (float_lit 100)).

Definition create_order (amount : float) (currency : string)
           (receipt : option string) (notes : option (dict pyval))
  : M OrderEntity :=
  paise <- lift (to_paise amount) ;;
  let data := [("amount", PInt paise);
               ("currency", PStr currency);
               ("payment_capture", PInt 1)] in
  let data := if str_truthy receipt
              then dict_set data "receipt" (opt_str receipt) else data in
  let data := match notes with
              | Some d => if dict_truthy d
                          then dict_set data "notes" (PDict d) else data
              | None => data
              end in
  call (SdkOrderCreate data) (order_create (client env) data).

Definition verify_payment_signature (order_id payment_id signature : string)
  : M bool :=
  fun db =>
    match call (SdkVerifyPaymentSignature order_id payment_id signature)
               (utility_verify_payment_signature (client env)
                  order_id payment_id signature) db with
    | (Ok _, db1, t) => (Ok true, db1, t)
    | (Raise SignatureVerificationError, db1, t) => (Ok false, db1, t)
    | (Raise e, db1, t) => (Raise e, db1, t)
    end.

Definition verify_webhook_signature (body : list byte) (signature : string)
  : M bool :=
  fun db =>
    match (match Codec.utf8_decode body with
           | Some decoded =>
               call (SdkVerifyWebhookSignature decoded signature
                       (webhook_secret (settings env)))
                    (utility_verify_webhook_signature (client env)
                       decoded signature (webhook_secret (settings env)))
           | None => raise UnicodeDecodeError
           end) db with
    | (Ok _, db1, t) => (Ok true, db1, t)
    | (Raise SignatureVerificationError, db1, t) => (Ok false, db1, t)
    | (Raise e, db1, t) => (Raise e, db1, t)
    end.

Definition fetch_payment (payment_id : string) : M pyval :=
  call (SdkPaymentFetch payment_id) (payment_fetch (client env) payment_id).

Definition create_refund (payment_id : string) (amount : option float)
           (notes : option (dict pyval)) : M RefundEntity :=
  let data : dict pyval := [] in
  data <- match amount with
          | Some a =>
              if float_truthy a then
                paise <- lift (to_paise a) ;;
                ret (dict_set data "amount" (PInt paise))
              else ret data
          | None => ret data
          end ;;
  let data := match notes with
              | Some d => if dict_truthy d
                          then dict_set data "notes" (PDict d) else data
              | None => data
              end in
  call (SdkPaymentRefund payment_id data)
       (payment_refund (client env) payment_id data).

End WithEnv.

End Service.

(* ================================================================== *)
(** * app/routes/payments.py *)
(* ================================================================== *)

Module Routes.

Section WithEnv.

Variable env : Env.

Local Open Scope monad_scope.

Definition HTTP_400_BAD_REQUEST : Z := 400.
Definition HTTP_404_NOT_FOUND : Z := 404.

Definition create_order (payment_data : PaymentCreate)
  : M OrderCreateResponse :=
  try_except
    (order <- Service.create_order env
                (pc_amount payment_data)
                (pc_currency payment_data)
                None
                (Some [("customer_name", opt_str (pc_customer_name payment_data));
                       ("customer_email", opt_str (pc_customer_email payment_data));
                       ("customer_phone", opt_str (pc_customer_phone payment_data));
                       ("description", opt_str (pc_description payment_data))]) ;;
     let payment_record : record :=
       [("order_id", PStr (order_entity_id order));
        ("amount", PFloat (pc_amount payment_data));
        ("currency", PStr (pc_currency payment_data));
        ("status", PStr "created");
        ("customer_name", opt_str (pc_customer_name payment_data));
        ("customer_email", opt_str (pc_customer_email payment_data));
        ("customer_phone", opt_str (pc_customer_phone payment_data));
        ("description", opt_str (pc_description payment_data))] in
     db <- get_db ;;
     put_db (dict_set db (order_entity_id order) payment_record) ;;;
     ret {| ocr_order_id := order_entity_id order;
            ocr_amount := pc_amount payment_data;
            ocr_currency := pc_currency payment_data;
            ocr_key_id := razorpay_key_id (settings env);
            ocr_customer_name := pc_customer_name payment_data;
            ocr_customer_email := pc_customer_email payment_data |})
    (fun e =>
       raise (HTTPException HTTP_400_BAD_REQUEST
                (DetailOf "Failed to create order: " e))).

Definition verify_payment (order_id payment_id signature : string)
  : M pyval :=
  try_except
    (is_valid <- Service.verify_payment_signature env
                   order_id payment_id signature ;;
     (if negb is_valid
      then raise (HTTPException HTTP_400_BAD_REQUEST
                    (Detail "Invalid payment signature"))
      else ret tt) ;;;
     db <- get_db ;;
     match dict_get db order_id with
     | Some data =>
         put_db (dict_set db order_id
                   (dict_update data
                      [("status", PStr "paid");
                       ("razorpay_payment_id", PStr payment_id);
                       ("razorpay_order_id", PStr order_id);
                       ("razorpay_signature", PStr signature)]))
     | None => ret tt
     end ;;;
     payment_details <- Service.fetch_payment env payment_id ;;
     ret (PDict [("status", PStr "success");
                 ("payment_id", PStr payment_id);
                 ("order_id", PStr order_id);
                 ("payment_details", payment_details)]))
    (fun e =>
       raise (HTTPException HTTP_400_BAD_REQUEST
                (DetailOf "Payment verification failed: " e))).

Definition razorpay_webhook (request : Request) : M pyval :=
  try_except
    (let signature := x_razorpay_signature request in
     (if negb (str_truthy signature)
      then raise (HTTPException HTTP_400_BAD_REQUEST
                    (Detail "Missing signature"))
      else ret tt) ;;;
     let signature := match signature with Some s => s | None => EmptyString end in
     body <- call RequestBody (Ok (request_body request)) ;;
     ok <- Service.verify_webhook_signature env body signature ;;
     (if negb ok
      then raise (HTTPException HTTP_400_BAD_REQUEST
                    (Detail "Invalid webhook signature"))
      else ret tt) ;;;
     payload <- call RequestJson (json_loads env (request_body request)) ;;
     event <- lift (py_get payload "event" PNone) ;;
     call (AddTask event payload) (Ok tt) ;;;
     ret (PDict [("status", PStr "Webhook processed successfully")]))
    (fun e =>
       raise (HTTPException HTTP_400_BAD_REQUEST
                (DetailOf "Webhook processing failed: " e))).

(** [payload.get("payload", {}).get(kind, {}).get("entity", {})] *)
Definition entity_of (payload : pyval) (kind : string) : res pyval :=
  bind_res (py_get payload "payload" (PDict [])) (fun p =>
  bind_res (py_get p kind (PDict [])) (fun k =>
  py_get k "entity" (PDict []))).

Definition process_webhook_event (event payload : pyval) : M unit :=
  try_except
    ((if py_eq event (PStr "payment.captured") then
        payment_entity <- lift (entity_of payload "payment") ;;
        payment_id <- lift (py_get payment_entity "id" PNone) ;;
        order_id <- lift (py_get payment_entity "order_id" PNone) ;;
        for_first_match
          (fun payment_data => py_eq (record_get payment_data "order_id") order_id)
          (fun payment_data =>
             bind_res (py_get payment_entity "method" PNone) (fun method =>
             Ok (dict_update payment_data
                   [("status", PStr "paid");
                    ("razorpay_payment_id", payment_id);
                    ("method", method)])))
      else if py_eq event (PStr "payment.failed") then
        payment_entity <- lift (entity_of payload "payment") ;;
        order_id <- lift (py_get payment_entity "order_id" PNone) ;;
        for_first_match
          (fun payment_data => py_eq (record_get payment_data "order_id") order_id)
          (fun payment_data => Ok (dict_set payment_data "status" (PStr "failed")))
      else if py_eq event (PStr "refund.created") then
        refund_entity <- lift (entity_of payload "refund") ;;
        payment_id <- lift (py_get refund_entity "payment_id" PNone) ;;
        for_first_match
          (fun payment_data =>
             py_eq (record_get payment_data "razorpay_payment_id") payment_id)
          (fun payment_data =>
             bind_res (py_get refund_entity "id" PNone) (fun refund_id =>
             bind_res (py_get refund_entity "amount" (PInt 0)) (fun amount =>
             bind_res (py_truediv_100 amount) (fun refund_amount =>
             Ok (dict_update payment_data
                   [("refund_id", refund_id);
                    ("refund_amount", PFloat refund_amount);
                    ("refund_status", PStr "created")])))))
      else ret tt) ;;;
     print (Processed event))
    (fun e => print (ErrorProcessing e)).

Definition create_refund (refund_data : RefundCreate) : M RefundResponse :=
  try_except
    (refund <- Service.create_refund env
                 (rc_payment_id refund_data)
                 (rc_amount refund_data)
                 (rc_notes refund_data) ;;
     for_first_match
       (fun payment_data =>
          py_eq (record_get payment_data "razorpay_payment_id")
                (PStr (rc_payment_id refund_data)))
       (fun payment_data =>
          bind_res (int_truediv (refund_entity_amount refund) 100)
            (fun refund_amount =>
          Ok (dict_update payment_data
                [("refund_id", PStr (refund_entity_id refund));
                 ("refund_amount", PFloat refund_amount);
                 ("refund_status", PStr (refund_entity_status refund));
                 ("status", PStr "refunded")]))) ;;;
     amount <- lift (int_truediv (refund_entity_amount refund) 100) ;;
     ret {| rr_refund_id := refund_entity_id refund;
            rr_payment_id := rc_payment_id refund_data;
            rr_amount := amount;
            rr_status := refund_entity_status refund;
            rr_speed := match refund_entity_speed refund with
                        | Some s => s
                        | None => "normal"
                        end;
            rr_created_at := refund_entity_created_at refund |})
    (fun e =>
       raise (HTTPException HTTP_400_BAD_REQUEST
                (DetailOf "Refund failed: " e))).

Definition get_payment (payment_id : string) : M record :=
  db <- get_db ;;
  let payment_data :=
    find (fun data =>
            py_eq (record_get data "razorpay_payment_id") (PStr payment_id))
         (dict_values db) in
  match payment_data with
  | Some data =>
      if negb (dict_truthy data)
      then raise (HTTPException HTTP_404_NOT_FOUND (Detail "Payment not found"))
      else ret data
  | None =>
      raise (HTTPException HTTP_404_NOT_FOUND (Detail "Payment not found"))
  end.

Definition list_payments : M (list record) :=
  db <- get_db ;;
  ret (dict_values db).

(** One webhook delivery as the server runs it: the handler, then, when it
    answered normally, the background tasks it registered. *)
Fixpoint run_tasks (ts : list effect) : M unit :=
  match ts with
  | [] => ret tt
  | AddTask event payload :: rest =>
      process_webhook_event event payload ;;; run_tasks rest
  | _ :: rest => run_tasks rest
  end.

Definition serve_webhook (request : Request) : M pyval :=
  fun db =>
    match razorpay_webhook request db with
    | (Ok response, db1, t1) =>
        match run_tasks t1 db1 with
        | (_, db2, t2) => (Ok response, db2, t1 ++ t2)
        end
    | (Raise e, db1, t1) => (Raise e, db1, t1)
    end.

End WithEnv.

End Routes.


(* ================================================================== *)
(** * Notions used in the statements *)
(* ================================================================== *)

(** The store after the scan: unchanged when the update expression raised. *)
Definition scan_db (p : record -> bool) (upd : record -> res record)
           (db : payments_db) : payments_db :=
  match scan_update p upd db with
  | Ok db' => db'
  | Raise _ => db
  end.

(** The updated record is still selected and updating it again changes
    nothing. *)
Definition stable (p : record -> bool) (upd : record -> res record) : Prop :=
  forall r r', p r = true -> upd r = Ok r' -> p r' = true /\ upd r' = Ok r'.

(** The fields written by a successful [verify_payment]. *)
Definition verified_fields (order_id payment_id signature : string)
  : dict pyval :=
  [("status", PStr "paid");
   ("razorpay_payment_id", PStr payment_id);
   ("razorpay_order_id", PStr order_id);
   ("razorpay_signature", PStr signature)].

(** The acknowledgement returned by the webhook endpoint. *)
Definition webhook_ack : pyval :=
  PDict [("status", PStr "Webhook processed successfully")].

(** The order identifier a [payment.*] event names:
    [payload.get("payload", {}).get("payment", {}).get("entity", {}).get("order_id")]. *)
Definition event_order_id (payload : pyval) : res pyval :=
  bind_res (Routes.entity_of payload "payment")
           (fun ent => py_get ent "order_id" PNone).

(** The event type is none of the three the dispatcher knows. *)
Definition unknown_event (event : pyval) : bool :=
  negb (py_eq event (PStr "payment.captured"))
  && negb (py_eq event (PStr "payment.failed"))
  && negb (py_eq event (PStr "refund.created")).

(** No stored record carries the order identifier [oid]. *)
Definition no_order_matches (db : payments_db) (oid : pyval) : Prop :=
  forall k r, In (k, r) db -> py_eq (record_get r "order_id") oid = false.

(** ** Histories of requests *)

(** The requests the service answers.  The outside world (SDK answers, parsed
    bodies) may differ from one request to the next, so a history pairs each
    request with the environment it ran in. *)
Inductive op :=
| CreateOrder (payment_data : PaymentCreate)
| VerifyPayment (order_id payment_id signature : string)
| Webhook (request : Request)
| Refund (refund_data : RefundCreate)
| GetPayment (payment_id : string)
| ListPayments.

Definition step (env : Env) (o : op) (db : payments_db) : payments_db :=
  match o with
  | CreateOrder payment_data => db_of (Routes.create_order env payment_data db)
  | VerifyPayment order_id payment_id signature =>
      db_of (Routes.verify_payment env order_id payment_id signature db)
  | Webhook request => db_of (Routes.serve_webhook env request db)
  | Refund refund_data => db_of (Routes.create_refund env refund_data db)
  | GetPayment payment_id => db_of (Routes.get_payment payment_id db)
  | ListPayments => db_of (Routes.list_payments db)
  end.

Fixpoint run (history : list (Env * op)) (db : payments_db) : payments_db :=
  match history with
  | [] => db
  | (env, o) :: rest => run rest (step env o db)
  end.

(** The event is a [payment.captured] naming the order [k]. *)
Definition captures (k : string) (event payload : pyval) : bool :=
  py_eq event (PStr "payment.captured")
  && match event_order_id payload with
     | Ok oid => py_eq (PStr k) oid
     | Raise _ => false
     end.

Definition is_ok {A} (r : res A) : bool :=
  match r with
  | Ok _ => true
  | Raise _ => false
  end.

(** The request is a synchronous verification of order [k] whose signature
    the SDK accepts, or a webhook from which the handler registers a
    [payment.captured] task naming order [k]. *)
Definition verifies_or_captures (k : string) (s : Env * op) : bool :=
  match s with
  | (env, VerifyPayment order_id payment_id signature) =>
      String.eqb order_id k
      && is_ok (utility_verify_payment_signature (client env)
                  order_id payment_id signature)
  | (env, Webhook request) =>
      existsb (fun e => match e with
                        | AddTask event payload => captures k event payload
                        | _ => false
                        end)
              (effects_of (Routes.razorpay_webhook env request []))
  | _ => false
  end.

(** Every record filed under [k] still looks as [create_order] left it as far
    as identifiers go: it names order [k] and has no ["razorpay_payment_id"]. *)
Definition unpaid (k : string) (db : payments_db) : Prop :=
  forall r, In (k, r) db ->
            record_get r "order_id" = PStr k /\
            dict_get r "razorpay_payment_id" = None.

(** The fields written by [create_refund] for the refund the SDK returned. *)
Definition refund_fields (refund : RefundEntity) (refund_amount : float)
  : dict pyval :=
  [("refund_id", PStr (refund_entity_id refund));
   ("refund_amount", PFloat refund_amount);
   ("refund_status", PStr (refund_entity_status refund));
   ("status", PStr "refunded")].

(** The record is the one a refund of [payment_id] is booked on. *)
Definition carries_payment (payment_id : string) (r : record) : bool :=
  py_eq (record_get r "razorpay_payment_id") (PStr payment_id).

(** ** Concrete requests and environments *)

Module Demo.

Definition settings0 : Settings :=
  {| razorpay_key_id := "rzp_test_key";
     razorpay_key_secret := "merchant_secret";
     webhook_secret := "webhook_secret" |}.

(** An SDK that issues order ["order_1"], accepts exactly the signature
    ["good"], and answers fetch and refund as given. *)
Definition client0 (fetched : pyval) (refund : res RefundEntity) : Client :=
  {| order_create := fun _ => Ok {| order_entity_id := "order_1" |};
     utility_verify_payment_signature := fun _ _ s =>
       if String.eqb s "good" then Ok tt
       else Raise SignatureVerificationError;
     utility_verify_webhook_signature := fun _ s _ =>
       if String.eqb s "good" then Ok tt
       else Raise SignatureVerificationError;
     payment_fetch := fun _ => Ok fetched;
     payment_refund := fun _ _ => refund |}.

Definition env0 (fetched : pyval) (refund : res RefundEntity)
           (parsed : pyval) : Env :=
  {| client := client0 fetched refund;
     settings := settings0;
     json_loads := fun _ => Ok parsed |}.

Definition payment_entity (order_id status : string) : pyval :=
  PDict [("id", PStr "pay_1");
         ("order_id", PStr order_id);
         ("status", PStr status);
         ("method", PStr "card");
         ("amount", PInt 10000)].

(** The parsed body of a [payment.*] webhook about [order_id]. *)
Definition payment_event (event order_id : string) : pyval :=
  PDict [("event", PStr event);
         ("payload",
          PDict [("payment",
                  PDict [("entity", payment_entity order_id "captured")])])].

Definition refund_rejected : res RefundEntity :=
  Raise (SdkError "The total refund amount is greater than the refund payment amount").

Definition refund_of (paise : Z) : res RefundEntity :=
  Ok {| refund_entity_id := "rfnd_1";
        refund_entity_amount := paise;
        refund_entity_status := "processed";
        refund_entity_speed := None;
        refund_entity_created_at := 1700000000 |}.

(** The plain environment: fetch reports a captured payment, refunds are
    refused, webhooks carry nothing of interest. *)
Definition env : Env :=
  env0 (payment_entity "order_1" "captured") refund_rejected (PDict []).

(** The same, with webhook bodies parsing to [parsed]. *)
Definition env_parsing (parsed : pyval) : Env :=
  env0 (payment_entity "order_1" "captured") refund_rejected parsed.

(** An order request in INR. *)
Definition order_request (amount : float) : PaymentCreate :=
  {| pc_amount := amount;
     pc_currency := "INR";
     pc_customer_name := Some "Test User";
     pc_customer_email := Some "test@example.com";
     pc_customer_phone := None;
     pc_description := Some "Test payment" |}.

(** The ledger after creating an order for 100.00 INR. *)
Definition db_created : payments_db :=
  db_of (Routes.create_order env (order_request (float_lit 100)) []).

(** ... after the processor then reported the payment failed. *)
Definition db_failed : payments_db :=
  db_of (Routes.process_webhook_event
           (PStr "payment.failed") (payment_event "payment.failed" "order_1")
           db_created).

(** ... after the order was instead confirmed with payment ["pay_1"]. *)
Definition db_paid : payments_db :=
  db_of (Routes.verify_payment env "order_1" "pay_1" "good" db_created).

(** A webhook request with a two-byte body. *)
Definition webhook_request (signature : string) : Request :=
  {| x_razorpay_signature := Some signature;
     request_body := [x7b; x7d] |}.

(** The binary64 nearest to 0.29. *)
Definition f_0_29 : float := S754_finite false 5224175567749775 (-54).

(** The one-character signature U+00E9. *)
Definition non_ascii_signature : string :=
  String (Ascii.ascii_of_N 233) EmptyString.

(** A refund request for 500.00 against payment ["pay_1"]. *)
Definition refund_request : RefundCreate :=
  {| rc_payment_id := "pay_1";
     rc_amount := Some (float_lit 500);
     rc_notes := None |}.

(** A processor that grants that refund in full. *)
Definition env_granting : Env :=
  env0 (payment_entity "order_1" "captured") (refund_of 50000) (PDict []).

(** An order is created, looked up, reported failed by a verified webhook,
    and a forged confirmation is attempted; it is never verified or
    captured. *)
Definition history_never_paid : list (Env * op) :=
  [(env, CreateOrder (order_request (float_lit 100)));
   (env, GetPayment "pay_1");
   (env_parsing (payment_event "payment.failed" "order_1"),
    Webhook (webhook_request "good"));
   (env, VerifyPayment "order_1" "pay_1" "forged");
   (env, ListPayments)].

(** An order request whose amount is not a number. *)
Definition order_request_nan : PaymentCreate := order_request S754_nan.

(** A processor that is down. *)
Definition env_down : Env :=
  {| client :=
       {| order_create := fun _ => Raise (SdkError "connection refused");
          utility_verify_payment_signature := fun _ _ s =>
            if String.eqb s "good" then Ok tt
            else Raise SignatureVerificationError;
          utility_verify_webhook_signature := fun _ s _ =>
            if String.eqb s "good" then Ok tt
            else Raise SignatureVerificationError;
          payment_fetch := fun _ => Raise (SdkError "connection refused");
          payment_refund := fun _ _ => Raise (SdkError "connection refused") |};
     settings := settings0;
     json_loads := fun _ => Raise JSONDecodeError |}.

(** The parsed body of a [refund.created] webhook with the given refund
    entity. *)
Definition refund_event (entity : dict pyval) : pyval :=
  PDict [("event", PStr "refund.created");
         ("payload",
          PDict [("refund", PDict [("entity", PDict entity)])])].

(** A refund request for [amount] against payment ["pay_1"]. *)
Definition refund_request_of (amount : option float) : RefundCreate :=
  {| rc_payment_id := "pay_1"; rc_amount := amount; rc_notes := None |}.

(** A webhook request without the signature header. *)
Definition webhook_request_unsigned : Request :=
  {| x_razorpay_signature := None; request_body := [x7b; x7d] |}.

(** The parsed body of a webhook that is a JSON array. *)
Definition env_parsing_array : Env :=
  env_parsing (PList [PStr "payment.captured"]).

(** The parsed body of a [payment.captured] webhook whose payload is not an
    object. *)
Definition malformed_event : pyval :=
  PDict [("event", PStr "payment.captured"); ("payload", PNone)].

(** A stand-in digest function with a fixed hexadecimal output. *)
Definition constant_digest : list byte -> list byte -> string :=
  fun _ _ => "9f86d081884c7d65".

End Demo.

Ltac unfold_monad :=
  unfold try_except, bind, lift, ret, raise, print, call, for_first_match,
    get_db, put_db, response_of, db_of, effects_of in *.

Ltac run_handler :=
  unfold_monad;
  repeat (progress (cbn beta iota;
                    repeat match goal with
                           | H : _ = Ok _ |- _ => rewrite H
                           | H : _ = Raise _ |- _ => rewrite H
                           end)).

Ltac keys_nodup :=
  repeat (constructor; [simpl; intuition discriminate|]); constructor.

Ltac key_notin := simpl; intuition discriminate.


(* ================================================================== *)
(** * Notions used in the further properties *)
(* ================================================================== *)

(** The [notes] the create-order route passes to the service. *)
Definition order_notes (payment_data : PaymentCreate) : dict pyval :=
  [("customer_name", opt_str (pc_customer_name payment_data));
   ("customer_email", opt_str (pc_customer_email payment_data));
   ("customer_phone", opt_str (pc_customer_phone payment_data));
   ("description", opt_str (pc_description payment_data))].

(** The order the service sends to the processor for that request. *)
Definition order_data (paise : Z) (payment_data : PaymentCreate) : dict pyval :=
  [("amount", PInt paise);
   ("currency", PStr (pc_currency payment_data));
   ("payment_capture", PInt 1);
   ("notes", PDict (order_notes payment_data))].

(** The record [create_order] files under the order identifier. *)
Definition order_record (order_id : string) (payment_data : PaymentCreate)
  : record :=
  [("order_id", PStr order_id);
   ("amount", PFloat (pc_amount payment_data));
   ("currency", PStr (pc_currency payment_data));
   ("status", PStr "created");
   ("customer_name", opt_str (pc_customer_name payment_data));
   ("customer_email", opt_str (pc_customer_email payment_data));
   ("customer_phone", opt_str (pc_customer_phone payment_data));
   ("description", opt_str (pc_description payment_data))].

(** The body of a successful verify-payment response. *)
Definition verify_response (order_id payment_id : string) (details : pyval)
  : pyval :=
  PDict [("status", PStr "success");
         ("payment_id", PStr payment_id);
         ("order_id", PStr order_id);
         ("payment_details", details)].

(** No stored record carries the payment identifier. *)
Definition fresh_payment (payment_id : string) (db : payments_db) : Prop :=
  forall k r, In (k, r) db -> carries_payment payment_id r = false.

(** The store a verified confirmation leaves behind. *)
Definition confirmed_db (order_id payment_id signature : string)
           (db : payments_db) : payments_db :=
  match dict_get db order_id with
  | Some data =>
      dict_set db order_id
        (dict_update data (verified_fields order_id payment_id signature))
  | None => db
  end.


(** The fields a [payment.captured] event writes. *)
Definition captured_fields (payment_id method : pyval) : dict pyval :=
  [("status", PStr "paid");
   ("razorpay_payment_id", payment_id);
   ("method", method)].

(** The fields a [refund.created] event writes. *)
Definition refund_created_fields (refund_id : pyval) (refund_amount : float)
  : dict pyval :=
  [("refund_id", refund_id);
   ("refund_amount", PFloat refund_amount);
   ("refund_status", PStr "created")].

(** The record names the order [oid]. *)
Definition names_order (oid : pyval) (r : record) : bool :=
  py_eq (record_get r "order_id") oid.

(** The record's payment identifier equals [pid] (also when both are
    [None]). *)
Definition has_payment_id (pid : pyval) (r : record) : bool :=
  py_eq (record_get r "razorpay_payment_id") pid.

(** The [data] the refund service builds before calling the processor:
    [amount] only when given and non-zero, [notes] only when given and
    non-empty. *)
Definition refund_call_data (amount : option float)
           (notes : option (dict pyval)) : res (dict pyval) :=
  bind_res
    match amount with
    | Some a =>
        if float_truthy a
        then bind_res (Service.to_paise a)
                      (fun paise => Ok (dict_set [] "amount" (PInt paise)))
        else Ok []
    | None => Ok []
    end
    (fun data =>
       Ok match notes with
          | Some d => if dict_truthy d
                      then dict_set data "notes" (PDict d) else data
          | None => data
          end).

(** The response of the refund endpoint for the refund the SDK returned. *)
Definition refund_response (refund_data : RefundCreate) (refund : RefundEntity)
           (amount : float) : RefundResponse :=
  {| rr_refund_id := refund_entity_id refund;
     rr_payment_id := rc_payment_id refund_data;
     rr_amount := amount;
     rr_status := refund_entity_status refund;
     rr_speed := match refund_entity_speed refund with
                 | Some s => s
                 | None => "normal"
                 end;
     rr_created_at := refund_entity_created_at refund |}.

(** ** Reachable stores *)

(** The fields a request other than create-order may write. *)
Definition writable : list string :=
  ["status"; "razorpay_payment_id"; "razorpay_order_id"; "razorpay_signature";
   "method"; "refund_id"; "refund_amount"; "refund_status"].

(** The statuses the handlers write after creation. *)
Definition written_status (v : pyval) : Prop :=
  v = PStr "paid" \/ v = PStr "failed" \/ v = PStr "refunded".

(** One record of the store had some writable fields updated. *)
Definition touched (db db' : payments_db) : Prop :=
  exists pre k r post other,
    db = pre ++ (k, r) :: post /\
    db' = pre ++ (k, dict_update r other) :: post /\
    (forall key, In key (dict_keys other) -> In key writable) /\
    (forall v, In ("status", v) other -> written_status v).

(** The store is a dictionary (no key twice) whose records name their own
    key, hold a float amount and one of the four statuses the code writes. *)
Definition well_formed (db : payments_db) : Prop :=
  NoDup (dict_keys db) /\
  forall k r,
    In (k, r) db ->
    dict_get r "order_id" = Some (PStr k) /\
    (exists a, dict_get r "amount" = Some (PFloat a)) /\
    exists v, dict_get r "status" = Some v /\
              (v = PStr "created" \/ written_status v).

(** The value every record holds for [field], by key. *)
Definition column (field : string) (db : payments_db)
  : list (string * option pyval) :=
  map (fun kr => (fst kr, dict_get (snd kr) field)) db.

Ltac writable_keys :=
  cbn; unfold writable; cbn; intuition (subst; auto 10).

Ltac status_written :=
  cbn; unfold written_status;
  intros ? Hst;
  repeat (destruct Hst as [Hst|Hst];
          [inversion Hst; subst; auto; try discriminate|]);
  try contradiction.

(** The code points of a string whose characters are the code points 0..255. *)
Definition code_points (s : string) : text :=
  map N_of_ascii (list_ascii_of_string s).

(** What the service verifier makes of the SDK's outcome. *)
Definition verification_result (r : res unit) : res bool :=
  match r with
  | Ok _ => Ok true
  | Raise SignatureVerificationError => Ok false
  | Raise e => Raise e
  end.

(** ** Exact binary64 products *)

(** [M] shifted left by [t] bits. *)
Definition shifted (M : positive) (t : nat) : positive := Nat.iter t xO M.

(** The number of bits left below the 53-bit precision by [M]. *)
Definition room (M : positive) : nat := Z.to_nat (53 - Zpos (digits2_pos M)).
(* ================================================================== *)
(** * Facts about dictionaries and the record scan *)
(* ================================================================== *)

Section DictFacts.

Context {V : Type}.
Implicit Types (d : dict V) (k : string) (v : V).

Lemma dict_get_set_same d k v : dict_get (dict_set d k v) k = Some v.
Proof.
  induction d as [|[k' v'] d IH]; simpl.
  - now rewrite String.eqb_refl.
  - destruct (String.eqb k' k) eqn:E; simpl; rewrite E; auto.
Qed.

Lemma dict_get_set_other d k k' v :
  k <> k' -> dict_get (dict_set d k v) k' = dict_get d k'.
Proof.
  intros Hne. induction d as [|[k0 v0] d IH]; simpl.
  - destruct (String.eqb k k') eqn:E; auto.
    apply String.eqb_eq in E. contradiction.
  - destruct (String.eqb k0 k) eqn:E; simpl.
    + apply String.eqb_eq in E. subst k0.
      destruct (String.eqb k k') eqn:E'; auto.
      apply String.eqb_eq in E'. contradiction.
    + destruct (String.eqb k0 k'); auto.
Qed.

Lemma dict_set_present d k v : dict_get d k = Some v -> dict_set d k v = d.
Proof.
  induction d as [|[k' v'] d IH]; simpl; [discriminate|].
  destruct (String.eqb k' k) eqn:E; intros H.
  - now inversion H.
  - now rewrite IH.
Qed.

Lemma dict_get_update_notin d k (other : dict V) :
  ~ In k (dict_keys other) ->
  dict_get (dict_update d other) k = dict_get d k.
Proof.
  unfold dict_update. revert d.
  induction other as [|[k0 v0] other IH]; intros d Hn; simpl in *; auto.
  rewrite IH by tauto. apply dict_get_set_other. tauto.
Qed.

Lemma dict_get_update_in d k v (other : dict V) :
  NoDup (dict_keys other) -> In (k, v) other ->
  dict_get (dict_update d other) k = Some v.
Proof.
  revert d.
  induction other as [|[k0 v0] other IH]; intros d Hnd Hin; simpl in *.
  - contradiction.
  - inversion Hnd as [|? ? Hnotin Hnd']; subst.
    destruct Hin as [Heq | Hin].
    + inversion Heq; subst.
      change (dict_get (dict_update (dict_set d k v) other) k = Some v).
      rewrite dict_get_update_notin by assumption.
      apply dict_get_set_same.
    + apply (IH (dict_set d k0 v0)); assumption.
Qed.

Lemma dict_update_present d (other : dict V) :
  (forall k v, In (k, v) other -> dict_get d k = Some v) ->
  dict_update d other = d.
Proof.
  unfold dict_update.
  induction other as [|[k0 v0] other IH]; intros H; simpl; auto.
  rewrite dict_set_present by (apply H; now left).
  apply IH. intros k v Hin. apply H. now right.
Qed.

(** [d.update(other)] twice is [d.update(other)] once. *)
Lemma dict_update_twice d (other : dict V) :
  NoDup (dict_keys other) ->
  dict_update (dict_update d other) other = dict_update d other.
Proof.
  intros Hnd. apply dict_update_present.
  intros k v Hin. now apply dict_get_update_in.
Qed.

Lemma dict_set_twice d k v : dict_set (dict_set d k v) k v = dict_set d k v.
Proof. apply dict_set_present, dict_get_set_same. Qed.

End DictFacts.

Section ScanFacts.

Implicit Types (p : record -> bool) (upd : record -> res record).

Lemma scan_update_stable p upd db db' :
  stable p upd ->
  scan_update p upd db = Ok db' -> scan_update p upd db' = Ok db'.
Proof.
  intros Hst. revert db'.
  induction db as [|[k r] db IH]; intros db' H; simpl in *.
  - now inversion H.
  - destruct (p r) eqn:Hp.
    + destruct (upd r) as [r'|e] eqn:Hu; inversion H; subst; clear H.
      destruct (Hst r r' Hp Hu) as [Hp' Hu']. simpl. now rewrite Hp', Hu'.
    + destruct (scan_update p upd db) as [rest'|e] eqn:Hs; inversion H; subst.
      simpl. rewrite Hp. now rewrite (IH rest' eq_refl).
Qed.

Lemma scan_db_twice p upd db :
  stable p upd -> scan_db p upd (scan_db p upd db) = scan_db p upd db.
Proof.
  intros Hst. unfold scan_db at 2 3.
  destruct (scan_update p upd db) as [db'|e] eqn:H.
  - unfold scan_db. now rewrite (scan_update_stable _ _ _ _ Hst H).
  - unfold scan_db. now rewrite H.
Qed.

Lemma scan_update_no_match p upd db :
  (forall k r, In (k, r) db -> p r = false) -> scan_update p upd db = Ok db.
Proof.
  induction db as [|[k r] db IH]; intros H; simpl; auto.
  rewrite (H k r) by now left.
  rewrite IH; auto. intros k' r' Hin. apply (H k' r'). now right.
Qed.

Lemma scan_update_first_match p upd pre k r post r' :
  (forall k0 r0, In (k0, r0) pre -> p r0 = false) ->
  p r = true -> upd r = Ok r' ->
  scan_update p upd (pre ++ (k, r) :: post) = Ok (pre ++ (k, r') :: post).
Proof.
  intros Hpre Hp Hu.
  induction pre as [|[k0 r0] pre IH]; simpl.
  - now rewrite Hp, Hu.
  - rewrite (Hpre k0 r0) by now left.
    rewrite IH; auto. intros k1 r1 Hin. apply (Hpre k1 r1). now right.
Qed.

End ScanFacts.

(* ================================================================== *)
(** * The ledger effect of a webhook event *)
(* ================================================================== *)

Lemma scan_db_never p upd db :
  (forall r, p r = false) -> scan_db p upd db = db.
Proof.
  intros H. unfold scan_db. rewrite scan_update_no_match; auto.
Qed.

Lemma stable_never upd : stable (fun _ => false) upd.
Proof. intros r r' H. discriminate. Qed.

Lemma record_get_update_notin (r : record) k other :
  ~ In k (dict_keys other) ->
  record_get (dict_update r other) k = record_get r k.
Proof.
  intros H. unfold record_get. now rewrite dict_get_update_notin.
Qed.

Lemma record_get_set_other (r : record) k k' v :
  k <> k' -> record_get (dict_set r k v) k' = record_get r k'.
Proof.
  intros H. unfold record_get. now rewrite dict_get_set_other.
Qed.

Lemma Ok_inj {A} (a b : A) : Ok a = Ok b -> a = b.
Proof. congruence. Qed.

(** Every event acts on the store as one first-match scan with a stable
    update. *)
Lemma process_webhook_event_scan event payload :
  exists p upd,
    stable p upd /\
    forall db, db_of (Routes.process_webhook_event event payload db)
               = scan_db p upd db.
Proof.
  unfold Routes.process_webhook_event.
  destruct (py_eq event (PStr "payment.captured")) eqn:Ecap.
  { destruct (Routes.entity_of payload "payment") as [ent|e] eqn:Eent.
    2:{ exists (fun _ => false), Ok. split; [apply stable_never|].
        intros db. rewrite scan_db_never by auto. run_handler. reflexivity. }
    destruct (py_get ent "id" PNone) as [pid|e] eqn:Epid.
    2:{ exists (fun _ => false), Ok. split; [apply stable_never|].
        intros db. rewrite scan_db_never by auto. run_handler. reflexivity. }
    destruct (py_get ent "order_id" PNone) as [oid|e] eqn:Eoid.
    2:{ exists (fun _ => false), Ok. split; [apply stable_never|].
        intros db. rewrite scan_db_never by auto. run_handler. reflexivity. }
    exists (fun payment_data => py_eq (record_get payment_data "order_id") oid).
    exists (fun payment_data =>
              bind_res (py_get ent "method" PNone) (fun method =>
              Ok (dict_update payment_data
                    [("status", PStr "paid");
                     ("razorpay_payment_id", pid);
                     ("method", method)]))).
    split.
    2:{ intros db. run_handler. unfold scan_db.
        destruct (scan_update _ _ db); reflexivity. }
    intros r r' Hp Hu. cbv beta in *. unfold bind_res in *.
    destruct (py_get ent "method" PNone) as [m|e]; [|discriminate].
    apply Ok_inj in Hu; subst r'. split.
    - rewrite record_get_update_notin by key_notin. exact Hp.
    - f_equal. apply dict_update_twice. keys_nodup. }
  destruct (py_eq event (PStr "payment.failed")) eqn:Efail.
  { destruct (Routes.entity_of payload "payment") as [ent|e] eqn:Eent.
    2:{ exists (fun _ => false), Ok. split; [apply stable_never|].
        intros db. rewrite scan_db_never by auto. run_handler. reflexivity. }
    destruct (py_get ent "order_id" PNone) as [oid|e] eqn:Eoid.
    2:{ exists (fun _ => false), Ok. split; [apply stable_never|].
        intros db. rewrite scan_db_never by auto. run_handler. reflexivity. }
    exists (fun payment_data => py_eq (record_get payment_data "order_id") oid).
    exists (fun payment_data => Ok (dict_set payment_data "status" (PStr "failed"))).
    split.
    2:{ intros db. run_handler. unfold scan_db.
        destruct (scan_update _ _ db); reflexivity. }
    intros r r' Hp Hu. cbv beta in *. apply Ok_inj in Hu; subst r'. split.
    - rewrite record_get_set_other by discriminate. exact Hp.
    - f_equal. apply dict_set_twice. }
  destruct (py_eq event (PStr "refund.created")) eqn:Eref.
  { destruct (Routes.entity_of payload "refund") as [ent|e] eqn:Eent.
    2:{ exists (fun _ => false), Ok. split; [apply stable_never|].
        intros db. rewrite scan_db_never by auto. run_handler. reflexivity. }
    destruct (py_get ent "payment_id" PNone) as [pid|e] eqn:Epid.
    2:{ exists (fun _ => false), Ok. split; [apply stable_never|].
        intros db. rewrite scan_db_never by auto. run_handler. reflexivity. }
    exists (fun payment_data =>
              py_eq (record_get payment_data "razorpay_payment_id") pid).
    exists (fun payment_data =>
              bind_res (py_get ent "id" PNone) (fun refund_id =>
              bind_res (py_get ent "amount" (PInt 0)) (fun amount =>
              bind_res (py_truediv_100 amount) (fun refund_amount =>
              Ok (dict_update payment_data
                    [("refund_id", refund_id);
                     ("refund_amount", PFloat refund_amount);
                     ("refund_status", PStr "created")]))))).
    split.
    2:{ intros db. run_handler. unfold scan_db.
        destruct (scan_update _ _ db); reflexivity. }
    intros r r' Hp Hu. cbv beta in *. unfold bind_res in *.
    destruct (py_get ent "id" PNone) as [rid|e]; [|discriminate].
    destruct (py_get ent "amount" (PInt 0)) as [amt|e]; [|discriminate].
    destruct (py_truediv_100 amt) as [ra|e]; [|discriminate].
    apply Ok_inj in Hu; subst r'. split.
    - rewrite record_get_update_notin by key_notin. exact Hp.
    - f_equal. apply dict_update_twice. keys_nodup. }
  exists (fun _ => false), Ok. split; [apply stable_never|].
  intros db. rewrite scan_db_never by auto. reflexivity.
Qed.

(** The synchronous path touches the store only after a valid signature, and
    then only the record filed under [order_id]. *)
Lemma verify_payment_db env order_id payment_id signature db :
  db_of (Routes.verify_payment env order_id payment_id signature db) =
  match utility_verify_payment_signature (client env)
          order_id payment_id signature with
  | Ok _ =>
      match dict_get db order_id with
      | Some data =>
          dict_set db order_id
            (dict_update data (verified_fields order_id payment_id signature))
      | None => db
      end
  | Raise _ => db
  end.
Proof.
  unfold Routes.verify_payment, Service.verify_payment_signature,
    Service.fetch_payment, verified_fields.
  unfold_monad.
  destruct (utility_verify_payment_signature (client env)
              order_id payment_id signature) as [[]|e]; cbn.
  - destruct (dict_get db order_id) as [data|]; cbn;
      destruct (payment_fetch (client env) payment_id); reflexivity.
  - destruct e; reflexivity.
Qed.

(** C8. Recording or advancing a payment is idempotent: processing the same
    webhook event twice in a row, or confirming the same
    (order, payment, signature) twice in a row, leaves the ledger exactly as
    after the first time. *)
Theorem record_or_advance_payment_idempotent :
  (forall event payload db,
      db_of (Routes.process_webhook_event event payload
               (db_of (Routes.process_webhook_event event payload db)))
      = db_of (Routes.process_webhook_event event payload db))
  /\
  (forall env order_id payment_id signature db,
      db_of (Routes.verify_payment env order_id payment_id signature
               (db_of (Routes.verify_payment env order_id payment_id signature db)))
      = db_of (Routes.verify_payment env order_id payment_id signature db)).
Proof.
  split.
  - intros event payload db.
    destruct (process_webhook_event_scan event payload) as (p & upd & Hst & Hdb).
    rewrite !Hdb. now apply scan_db_twice.
  - intros env order_id payment_id signature db.
    rewrite !verify_payment_db.
    destruct (utility_verify_payment_signature (client env)
                order_id payment_id signature) as [[]|e]; [|reflexivity].
    destruct (dict_get db order_id) as [data|] eqn:Hget.
    + rewrite dict_get_set_same.
      rewrite dict_update_twice by (unfold verified_fields; keys_nodup).
      apply dict_set_twice.
    + now rewrite Hget.
Qed.

(* ================================================================== *)
(** * The webhook endpoint *)
(* ================================================================== *)

(** The handler itself never writes to the store; it either registers exactly
    one task after verifying and parsing, or rejects with status 400 without
    registering any. *)
Lemma razorpay_webhook_outcome env request db :
  (exists s decoded payload event,
      x_razorpay_signature request = Some s /\
      Codec.utf8_decode (request_body request) = Some decoded /\
      utility_verify_webhook_signature (client env) decoded s
        (webhook_secret (settings env)) = Ok tt /\
      json_loads env (request_body request) = Ok payload /\
      py_get payload "event" PNone = Ok event /\
      Routes.razorpay_webhook env request db =
        (Ok webhook_ack, db,
         [RequestBody;
          SdkVerifyWebhookSignature decoded s (webhook_secret (settings env));
          RequestJson;
          AddTask event payload]))
  \/
  (exists d t,
      Routes.razorpay_webhook env request db
        = (Raise (HTTPException 400 d), db, t) /\
      (forall event payload, ~ In (AddTask event payload) t) /\
      (In RequestJson t ->
       exists s decoded,
         x_razorpay_signature request = Some s /\
         Codec.utf8_decode (request_body request) = Some decoded /\
         utility_verify_webhook_signature (client env) decoded s
           (webhook_secret (settings env)) = Ok tt /\
         t = [RequestBody;
              SdkVerifyWebhookSignature decoded s (webhook_secret (settings env));
              RequestJson])).
Proof.
  unfold Routes.razorpay_webhook, Service.verify_webhook_signature,
    Routes.HTTP_400_BAD_REQUEST, webhook_ack.
  unfold_monad.
  destruct (x_razorpay_signature request) as [s|] eqn:Hsig; cbn.
  2:{ right. do 2 eexists. split; [reflexivity|]. cbn. intuition discriminate. }
  destruct (String.eqb s EmptyString) eqn:Hs; cbn.
  { right. do 2 eexists. split; [reflexivity|]. cbn. intuition discriminate. }
  destruct (Codec.utf8_decode (request_body request)) as [decoded|] eqn:Hdec; cbn.
  2:{ right. do 2 eexists. split; [reflexivity|]. cbn.
      intuition discriminate. }
  destruct (utility_verify_webhook_signature (client env) decoded s
              (webhook_secret (settings env))) as [[]|e] eqn:Hver; cbn.
  2:{ right. destruct e; cbn; do 2 eexists;
        (split; [reflexivity|]); cbn; intuition discriminate. }
  destruct (json_loads env (request_body request)) as [payload|e] eqn:Hjson; cbn.
  2:{ right. do 2 eexists. split; [reflexivity|]. cbn.
      split; [intuition discriminate|].
      intros _. exists s, decoded. auto. }
  destruct (py_get payload "event" PNone) as [event|e] eqn:Hev; cbn.
  2:{ right. do 2 eexists. split; [reflexivity|]. cbn.
      split; [intuition discriminate|].
      intros _. exists s, decoded. auto. }
  left. exists s, decoded, payload, event. auto 10.
Qed.

Lemma service_verify_webhook_true env body s db :
  response_of (Service.verify_webhook_signature env body s db) = Ok true <->
  exists decoded,
    Codec.utf8_decode body = Some decoded /\
    utility_verify_webhook_signature (client env) decoded s
      (webhook_secret (settings env)) = Ok tt.
Proof.
  unfold Service.verify_webhook_signature. unfold_monad.
  destruct (Codec.utf8_decode body) as [decoded|]; cbn.
  - destruct (utility_verify_webhook_signature (client env) decoded s
                (webhook_secret (settings env))) as [[]|e] eqn:Hv; cbn.
    + split; [intros _; exists decoded; auto | intros _; reflexivity].
    + split.
      * destruct e; cbn; discriminate.
      * intros (d' & Hd & Hv'). inversion Hd; subst. congruence.
  - split; [discriminate|]. intros (d' & Hd & _). discriminate.
Qed.

Lemma process_webhook_event_unknown event payload db :
  unknown_event event = true ->
  Routes.process_webhook_event event payload db
  = (Ok tt, db, [Print (Processed event)]).
Proof.
  unfold unknown_event. intros H.
  apply andb_prop in H as [H H3]. apply andb_prop in H as [H1 H2].
  apply negb_true_iff in H1, H2, H3.
  unfold Routes.process_webhook_event. rewrite H1, H2, H3. reflexivity.
Qed.

Lemma process_webhook_event_captured_miss payload oid db :
  event_order_id payload = Ok oid ->
  no_order_matches db oid ->
  Routes.process_webhook_event (PStr "payment.captured") payload db
  = (Ok tt, db, [Print (Processed (PStr "payment.captured"))]).
Proof.
  unfold event_order_id, no_order_matches. intros Hoid Hmiss.
  unfold Routes.process_webhook_event.
  change (py_eq (PStr "payment.captured") (PStr "payment.captured")) with true.
  cbv iota.
  destruct (Routes.entity_of payload "payment") as [ent|e] eqn:Hent;
    [|discriminate].
  cbn in Hoid.
  assert (Hid : exists pid, py_get ent "id" PNone = Ok pid).
  { destruct ent; try discriminate. cbn. eauto. }
  destruct Hid as [pid Hid].
  run_handler.
  rewrite scan_update_no_match by exact Hmiss. reflexivity.
Qed.

(** C9. A verified webhook that matches nothing leaves the ledger unchanged:
    when the signature verifies and the body parses, an event of unknown type,
    or a [payment.captured] event whose order identifier matches no stored
    record, is acknowledged, the ledger is exactly as before, and processing
    logs normal completion (no error is raised or logged). *)
Theorem unmatched_webhook_leaves_ledger_unchanged
        env request db s payload event :
  x_razorpay_signature request = Some s ->
  s <> EmptyString ->
  response_of (Service.verify_webhook_signature env (request_body request) s db)
    = Ok true ->
  json_loads env (request_body request) = Ok payload ->
  py_get payload "event" PNone = Ok event ->
  unknown_event event = true
  \/ (event = PStr "payment.captured" /\
      exists oid, event_order_id payload = Ok oid /\ no_order_matches db oid) ->
  response_of (Routes.serve_webhook env request db) = Ok webhook_ack /\
  db_of (Routes.serve_webhook env request db) = db /\
  exists verify_call,
    effects_of (Routes.serve_webhook env request db)
    = [RequestBody; verify_call; RequestJson; AddTask event payload;
       Print (Processed event)].
Proof.
  intros Hsig Hne Hver Hjson Hev Hcase.
  apply service_verify_webhook_true in Hver as (decoded & Hdec & Hok).
  assert (Htask : Routes.process_webhook_event event payload db
                  = (Ok tt, db, [Print (Processed event)])).
  { destruct Hcase as [Hunk | (-> & oid & Hoid & Hmiss)].
    - now apply process_webhook_event_unknown.
    - now apply process_webhook_event_captured_miss with (oid := oid). }
  unfold Routes.serve_webhook.
  destruct (razorpay_webhook_outcome env request db)
    as [(s' & decoded' & payload' & event' & Hs' & Hd' & Hv' & Hj' & He' & Hout)
       |(d & t & Hout & _)].
  - rewrite Hsig in Hs'. inversion Hs'; subst s'.
    rewrite Hdec in Hd'. inversion Hd'; subst decoded'.
    rewrite Hjson in Hj'. inversion Hj'; subst payload'.
    rewrite Hev in He'. inversion He'; subst event'.
    rewrite Hout. cbn -[Routes.process_webhook_event].
    unfold bind. rewrite Htask. cbn. eauto.
  - exfalso. revert Hout.
    unfold Routes.razorpay_webhook, Service.verify_webhook_signature.
    unfold_monad. rewrite Hsig. cbn.
    destruct (String.eqb s EmptyString) eqn:E; [apply String.eqb_eq in E; contradiction|].
    cbn. rewrite Hdec. cbn. rewrite Hok. cbn. rewrite Hjson. cbn.
    rewrite Hev. cbn. discriminate.
Qed.

Lemma unmatched_webhook_witness :
  response_of (Routes.serve_webhook
                 (Demo.env_parsing (Demo.payment_event "payment.captured" "order_9"))
                 (Demo.webhook_request "good") Demo.db_created)
    = Ok webhook_ack /\
  db_of (Routes.serve_webhook
           (Demo.env_parsing (Demo.payment_event "payment.captured" "order_9"))
           (Demo.webhook_request "good") Demo.db_created)
    = Demo.db_created /\
  exists verify_call,
    effects_of (Routes.serve_webhook
                  (Demo.env_parsing (Demo.payment_event "payment.captured" "order_9"))
                  (Demo.webhook_request "good") Demo.db_created)
    = [RequestBody; verify_call; RequestJson;
       AddTask (PStr "payment.captured")
               (Demo.payment_event "payment.captured" "order_9");
       Print (Processed (PStr "payment.captured"))].
Proof.
  apply (unmatched_webhook_leaves_ledger_unchanged
           (Demo.env_parsing (Demo.payment_event "payment.captured" "order_9"))
           (Demo.webhook_request "good") Demo.db_created "good"
           (Demo.payment_event "payment.captured" "order_9")
           (PStr "payment.captured")).
  - reflexivity.
  - discriminate.
  - reflexivity.
  - reflexivity.
  - reflexivity.
  - right. split; [reflexivity|].
    exists (PStr "order_9"). split; [reflexivity|].
    intros k r Hin. vm_compute in Hin.
    destruct Hin as [Hin|[]]. inversion Hin. reflexivity.
Defined.

(** C4. The webhook body is verified before it is parsed, and a webhook that
    fails verification changes nothing: JSON parsing occurs only directly
    after the SDK verified the decoded raw body against the webhook secret and
    accepted it; when verification does not succeed the request is rejected
    with status 400, no task is registered, the body is never parsed, and the
    ledger is the one before the request. *)
Theorem webhook_verified_before_parsing env request db :
  (In RequestJson (effects_of (Routes.serve_webhook env request db)) ->
   exists s decoded rest,
     x_razorpay_signature request = Some s /\
     Codec.utf8_decode (request_body request) = Some decoded /\
     utility_verify_webhook_signature (client env) decoded s
       (webhook_secret (settings env)) = Ok tt /\
     effects_of (Routes.serve_webhook env request db)
     = RequestBody
         :: SdkVerifyWebhookSignature decoded s (webhook_secret (settings env))
         :: RequestJson :: rest)
  /\
  ((forall s, x_razorpay_signature request = Some s ->
              response_of (Service.verify_webhook_signature env
                             (request_body request) s db) <> Ok true) ->
   exists d,
     response_of (Routes.serve_webhook env request db)
       = Raise (HTTPException 400 d) /\
     db_of (Routes.serve_webhook env request db) = db /\
     ~ In RequestJson (effects_of (Routes.serve_webhook env request db)) /\
     forall event payload,
       ~ In (AddTask event payload)
            (effects_of (Routes.serve_webhook env request db))).
Proof.
  unfold Routes.serve_webhook.
  destruct (razorpay_webhook_outcome env request db)
    as [(s & decoded & payload & event & Hs & Hd & Hv & Hj & He & Hout)
       |(d & t & Hout & Hnotask & Hparse)];
    rewrite Hout.
  - split.
    + intros _. exists s, decoded.
      destruct (Routes.run_tasks _ db) as [[r db2] t2].
      cbn. eauto 10.
    + intros Hfail. exfalso. apply (Hfail s Hs).
      apply service_verify_webhook_true. eauto.
  - unfold_monad. cbn. split.
    + intros Hin. destruct (Hparse Hin) as (s & decoded & Hs & Hd & Hv & ->).
      exists s, decoded, []. auto.
    + intros Hfail. exists d. repeat split; auto.
      intros Hin. destruct (Hparse Hin) as (s & decoded & Hs & Hd & Hv & _).
      apply (Hfail s Hs). apply service_verify_webhook_true. eauto.
Qed.

Lemma webhook_verified_before_parsing_witness :
  exists d,
    response_of (Routes.serve_webhook Demo.env (Demo.webhook_request "forged")
                   Demo.db_created)
      = Raise (HTTPException 400 d) /\
    db_of (Routes.serve_webhook Demo.env (Demo.webhook_request "forged")
             Demo.db_created) = Demo.db_created /\
    ~ In RequestJson
         (effects_of (Routes.serve_webhook Demo.env
                        (Demo.webhook_request "forged") Demo.db_created)) /\
    forall event payload,
      ~ In (AddTask event payload)
           (effects_of (Routes.serve_webhook Demo.env
                          (Demo.webhook_request "forged") Demo.db_created)).
Proof.
  apply (proj2 (webhook_verified_before_parsing
                  Demo.env (Demo.webhook_request "forged") Demo.db_created)).
  intros s Hs. inversion Hs; subst s. vm_compute. discriminate.
Defined.

(* ================================================================== *)
(** * The synchronous verification path *)
(* ================================================================== *)

Lemma service_verify_payment_false env order_id payment_id signature db :
  response_of (Service.verify_payment_signature env
                 order_id payment_id signature db) = Ok false <->
  utility_verify_payment_signature (client env) order_id payment_id signature
  = Raise SignatureVerificationError.
Proof.
  unfold Service.verify_payment_signature. unfold_monad.
  destruct (utility_verify_payment_signature (client env)
              order_id payment_id signature) as [[]|e]; cbn.
  - split; discriminate.
  - destruct e; cbn; split; congruence.
Qed.

(** C5. On the synchronous path a signature that fails verification is
    reported to the caller as a 400 error caused by "Invalid payment
    signature", and nothing else happens: the ledger is unchanged and the
    processor is not asked for the payment. *)
Theorem invalid_signature_rejected_without_mutation
        env order_id payment_id signature db :
  response_of (Service.verify_payment_signature env
                 order_id payment_id signature db) = Ok false ->
  Routes.verify_payment env order_id payment_id signature db
  = (Raise (HTTPException 400
              (DetailOf "Payment verification failed: "
                 (HTTPException 400 (Detail "Invalid payment signature")))),
     db,
     [SdkVerifyPaymentSignature order_id payment_id signature]).
Proof.
  intros H. apply service_verify_payment_false in H.
  unfold Routes.verify_payment, Service.verify_payment_signature.
  unfold_monad. rewrite H. reflexivity.
Qed.

Lemma invalid_signature_rejected_witness :
  Routes.verify_payment Demo.env "order_1" "pay_1" "forged" Demo.db_created
  = (Raise (HTTPException 400
              (DetailOf "Payment verification failed: "
                 (HTTPException 400 (Detail "Invalid payment signature")))),
     Demo.db_created,
     [SdkVerifyPaymentSignature "order_1" "pay_1" "forged"]).
Proof.
  apply (invalid_signature_rejected_without_mutation
           Demo.env "order_1" "pay_1" "forged" Demo.db_created).
  reflexivity.
Defined.

(** A successful confirmation: the SDK accepted the signature and the fetch
    answered; the response echoes the fetched payment. *)
Lemma verify_payment_success env order_id payment_id signature db resp :
  response_of (Routes.verify_payment env order_id payment_id signature db)
    = Ok resp ->
  exists details,
    utility_verify_payment_signature (client env)
      order_id payment_id signature = Ok tt /\
    payment_fetch (client env) payment_id = Ok details /\
    resp = PDict [("status", PStr "success");
                  ("payment_id", PStr payment_id);
                  ("order_id", PStr order_id);
                  ("payment_details", details)].
Proof.
  unfold Routes.verify_payment, Service.verify_payment_signature,
    Service.fetch_payment.
  unfold_monad.
  destruct (utility_verify_payment_signature (client env)
              order_id payment_id signature) as [[]|e]; cbn.
  - destruct (dict_get db order_id) as [data|]; cbn;
      destruct (payment_fetch (client env) payment_id) as [details|e]; cbn;
      intros H; inversion H; eauto.
  - destruct e; cbn; discriminate.
Qed.

(** C1 (as stated) fails: the order is in the ledger, the signature is valid
    and the call succeeds, the processor reports the payment as [failed], yet
    the ledger records [paid]. *)
Lemma stored_status_is_not_the_fetched_status :
  exists resp data,
    response_of
      (Routes.verify_payment
         (Demo.env0 (Demo.payment_entity "order_1" "failed")
                    Demo.refund_rejected (PDict []))
         "order_1" "pay_1" "good" Demo.db_created) = Ok resp /\
    bind_res (py_get resp "payment_details" PNone)
             (fun details => py_get details "status" PNone)
      = Ok (PStr "failed") /\
    dict_get
      (db_of
         (Routes.verify_payment
            (Demo.env0 (Demo.payment_entity "order_1" "failed")
                       Demo.refund_rejected (PDict []))
            "order_1" "pay_1" "good" Demo.db_created))
      "order_1" = Some data /\
    record_get data "status" = PStr "paid" /\
    py_eq (record_get data "status") (PStr "failed") = false.
Proof.
  do 2 eexists. repeat split; reflexivity.
Qed.

(** C1 (amended). After a successful verify-payment call for an order present
    in the ledger, the status recorded for that order is [paid] and the record
    carries the confirmed payment identifier, whatever the processor's payment
    record says; the fetched record is only returned to the caller. *)
Theorem verified_order_is_recorded_paid
        env order_id payment_id signature db data resp :
  dict_get db order_id = Some data ->
  response_of (Routes.verify_payment env order_id payment_id signature db)
    = Ok resp ->
  exists data' details,
    dict_get (db_of (Routes.verify_payment env order_id payment_id signature db))
             order_id = Some data' /\
    record_get data' "status" = PStr "paid" /\
    record_get data' "razorpay_payment_id" = PStr payment_id /\
    payment_fetch (client env) payment_id = Ok details /\
    py_get resp "payment_details" PNone = Ok details.
Proof.
  intros Hin Hok.
  destruct (verify_payment_success _ _ _ _ _ _ Hok) as (details & Hv & Hf & ->).
  rewrite verify_payment_db, Hv, Hin.
  exists (dict_update data (verified_fields order_id payment_id signature)),
         details.
  rewrite dict_get_set_same.
  repeat split; auto.
  - unfold record_get.
    rewrite (dict_get_update_in data "status" (PStr "paid")); auto.
    + unfold verified_fields; keys_nodup.
    + unfold verified_fields; simpl; auto.
  - unfold record_get.
    rewrite (dict_get_update_in data "razorpay_payment_id" (PStr payment_id));
      auto.
    + unfold verified_fields; keys_nodup.
    + unfold verified_fields; simpl; auto.
Qed.

Lemma verified_order_is_recorded_paid_witness :
  exists data' details,
    dict_get
      (db_of (Routes.verify_payment
                (Demo.env0 (Demo.payment_entity "order_1" "failed")
                           Demo.refund_rejected (PDict []))
                "order_1" "pay_1" "good" Demo.db_created))
      "order_1" = Some data' /\
    record_get data' "status" = PStr "paid" /\
    record_get data' "razorpay_payment_id" = PStr "pay_1" /\
    payment_fetch
      (client (Demo.env0 (Demo.payment_entity "order_1" "failed")
                         Demo.refund_rejected (PDict [])))
      "pay_1" = Ok details /\
    py_get
      (PDict [("status", PStr "success");
              ("payment_id", PStr "pay_1");
              ("order_id", PStr "order_1");
              ("payment_details", Demo.payment_entity "order_1" "failed")])
      "payment_details" PNone = Ok details.
Proof.
  eapply (verified_order_is_recorded_paid
            (Demo.env0 (Demo.payment_entity "order_1" "failed")
                       Demo.refund_rejected (PDict []))
            "order_1" "pay_1" "good" Demo.db_created).
  - reflexivity.
  - reflexivity.
Defined.

(* ================================================================== *)
(** * Status transitions *)
(* ================================================================== *)

(** C2 (as stated) fails: the stored payment is [failed]; the
    [payment.captured] event for the same order is processed without any
    error and the stored status becomes [paid]. *)
Lemma captured_after_failed_is_not_rejected :
  exists before after,
    dict_get Demo.db_failed "order_1" = Some before /\
    record_get before "status" = PStr "failed" /\
    response_of
      (Routes.process_webhook_event (PStr "payment.captured")
         (Demo.payment_event "payment.captured" "order_1") Demo.db_failed)
      = Ok tt /\
    effects_of
      (Routes.process_webhook_event (PStr "payment.captured")
         (Demo.payment_event "payment.captured" "order_1") Demo.db_failed)
      = [Print (Processed (PStr "payment.captured"))] /\
    dict_get
      (db_of
         (Routes.process_webhook_event (PStr "payment.captured")
            (Demo.payment_event "payment.captured" "order_1") Demo.db_failed))
      "order_1" = Some after /\
    record_get after "status" = PStr "paid".
Proof.
  do 2 eexists. repeat split; reflexivity.
Qed.

Lemma py_get_total_on_dicts ent k default v :
  py_get ent k default = Ok v ->
  forall k' default', exists v', py_get ent k' default' = Ok v'.
Proof.
  intros H k' default'. destruct ent; cbn in *; try discriminate. eauto.
Qed.

(** C2 (amended). A [payment.captured] (resp. [payment.failed]) event sets the
    status of the first stored record naming its order to [paid] (resp.
    [failed]) whatever the previous status was; the rest of the ledger is
    untouched, no transition is refused and processing logs normal
    completion. *)
Theorem payment_event_overwrites_status payload oid pre k r post :
  event_order_id payload = Ok oid ->
  no_order_matches pre oid ->
  py_eq (record_get r "order_id") oid = true ->
  (exists r',
      Routes.process_webhook_event (PStr "payment.captured") payload
        (pre ++ (k, r) :: post)
      = (Ok tt, pre ++ (k, r') :: post,
         [Print (Processed (PStr "payment.captured"))]) /\
      record_get r' "status" = PStr "paid")
  /\
  (exists r',
      Routes.process_webhook_event (PStr "payment.failed") payload
        (pre ++ (k, r) :: post)
      = (Ok tt, pre ++ (k, r') :: post,
         [Print (Processed (PStr "payment.failed"))]) /\
      record_get r' "status" = PStr "failed").
Proof.
  unfold event_order_id, no_order_matches. intros Hoid Hpre Hr.
  destruct (Routes.entity_of payload "payment") as [ent|e] eqn:Hent;
    [|discriminate].
  cbn in Hoid.
  destruct (py_get_total_on_dicts _ _ _ _ Hoid "id" PNone) as [pid Hpid].
  destruct (py_get_total_on_dicts _ _ _ _ Hoid "method" PNone) as [m Hm].
  split.
  - exists (dict_update r [("status", PStr "paid");
                           ("razorpay_payment_id", pid);
                           ("method", m)]).
    split.
    + unfold Routes.process_webhook_event.
      change (py_eq (PStr "payment.captured") (PStr "payment.captured"))
        with true.
      cbv iota. run_handler.
      rewrite (scan_update_first_match _ _ pre k r post
                 (dict_update r [("status", PStr "paid");
                                 ("razorpay_payment_id", pid);
                                 ("method", m)]));
        [reflexivity | exact Hpre | exact Hr | reflexivity].
    + unfold record_get.
      rewrite (dict_get_update_in r "status" (PStr "paid")); auto.
      * keys_nodup.
      * simpl; auto.
  - exists (dict_set r "status" (PStr "failed")).
    split.
    + unfold Routes.process_webhook_event.
      change (py_eq (PStr "payment.failed") (PStr "payment.captured"))
        with false.
      change (py_eq (PStr "payment.failed") (PStr "payment.failed"))
        with true.
      cbv iota. run_handler.
      rewrite (scan_update_first_match _ _ pre k r post
                 (dict_set r "status" (PStr "failed")));
        [reflexivity | exact Hpre | exact Hr | reflexivity].
    + unfold record_get. now rewrite dict_get_set_same.
Qed.

Lemma payment_event_overwrites_status_witness :
  (exists r',
      Routes.process_webhook_event (PStr "payment.captured")
        (Demo.payment_event "payment.captured" "order_1")
        ([] ++ ("order_1", [("order_id", PStr "order_1");
                            ("status", PStr "failed")]) :: [])
      = (Ok tt, [] ++ ("order_1", r') :: [],
         [Print (Processed (PStr "payment.captured"))]) /\
      record_get r' "status" = PStr "paid")
  /\
  (exists r',
      Routes.process_webhook_event (PStr "payment.failed")
        (Demo.payment_event "payment.captured" "order_1")
        ([] ++ ("order_1", [("order_id", PStr "order_1");
                            ("status", PStr "failed")]) :: [])
      = (Ok tt, [] ++ ("order_1", r') :: [],
         [Print (Processed (PStr "payment.failed"))]) /\
      record_get r' "status" = PStr "failed").
Proof.
  apply (payment_event_overwrites_status
           (Demo.payment_event "payment.captured" "order_1")
           (PStr "order_1") [] "order_1"
           [("order_id", PStr "order_1"); ("status", PStr "failed")] []).
  - reflexivity.
  - intros k r [].
  - reflexivity.
Defined.

(* ================================================================== *)
(** * Refunds *)
(* ================================================================== *)

(** C3 (as stated) fails: the payment is for 100.00 and nothing was refunded;
    a refund of 500.00 is requested.  The request is not rejected locally: the
    Gateway Client is called with 50000 minor units, both when the processor
    refuses and when it grants the refund, and in the latter case the ledger
    records a refunded amount of 500.00 against the payment of 100.00. *)
Lemma excessive_refund_reaches_the_gateway :
  effects_of (Routes.create_refund Demo.env Demo.refund_request Demo.db_paid)
    = [SdkPaymentRefund "pay_1" [("amount", PInt 50000)]] /\
  effects_of (Routes.create_refund Demo.env_granting Demo.refund_request
                Demo.db_paid)
    = [SdkPaymentRefund "pay_1" [("amount", PInt 50000)]] /\
  exists resp data,
    response_of (Routes.create_refund Demo.env_granting Demo.refund_request
                   Demo.db_paid) = Ok resp /\
    dict_get (db_of (Routes.create_refund Demo.env_granting
                       Demo.refund_request Demo.db_paid)) "order_1"
      = Some data /\
    record_get data "amount" = PFloat (float_lit 100) /\
    record_get data "refund_amount" = PFloat (float_lit 500) /\
    SFltb (float_lit 100) (float_lit 500) = true.
Proof.
  split; [reflexivity|]. split; [reflexivity|].
  do 2 eexists. repeat split; reflexivity.
Qed.

(** C3 (amended). The ledger makes no balance check of its own.  A refund
    request whose amount converts to minor units is forwarded to the Gateway
    Client before the ledger is read or written, whatever the payment's amount
    and earlier refunds.  If the gateway raises, the request fails with status
    400 and the ledger is unchanged; if it returns a refund, the first record
    carrying the payment identifier gets the returned amount divided by 100 as
    its refund amount and the status [refunded]. *)
Theorem refund_is_forwarded_to_the_gateway env refund_data db a paise :
  rc_amount refund_data = Some a ->
  float_truthy a = true ->
  Service.to_paise a = Ok paise ->
  exists data,
    dict_get data "amount" = Some (PInt paise) /\
    effects_of (Routes.create_refund env refund_data db)
      = [SdkPaymentRefund (rc_payment_id refund_data) data] /\
    (forall e,
        payment_refund (client env) (rc_payment_id refund_data) data = Raise e ->
        Routes.create_refund env refund_data db
        = (Raise (HTTPException 400 (DetailOf "Refund failed: " e)), db,
           [SdkPaymentRefund (rc_payment_id refund_data) data])) /\
    (forall refund refund_amount pre k r post,
        payment_refund (client env) (rc_payment_id refund_data) data
          = Ok refund ->
        int_truediv (refund_entity_amount refund) 100 = Ok refund_amount ->
        db = pre ++ (k, r) :: post ->
        (forall k0 r0, In (k0, r0) pre ->
                       carries_payment (rc_payment_id refund_data) r0 = false) ->
        carries_payment (rc_payment_id refund_data) r = true ->
        db_of (Routes.create_refund env refund_data db)
        = pre ++ (k, dict_update r (refund_fields refund refund_amount)) :: post).
Proof.
  intros Ha Ht Hp.
  assert (Hdata : exists data,
             dict_get data "amount" = Some (PInt paise) /\
             data = match rc_notes refund_data with
                    | Some d => if dict_truthy d
                                then dict_set (dict_set [] "amount" (PInt paise))
                                              "notes" (PDict d)
                                else dict_set [] "amount" (PInt paise)
                    | None => dict_set [] "amount" (PInt paise)
                    end).
  { destruct (rc_notes refund_data) as [d|]; [destruct (dict_truthy d)|];
      eexists; (split; [|reflexivity]); reflexivity. }
  destruct Hdata as (data & Hamount & Hdata).
  exists data. split; [exact Hamount|].
  assert (Hsvc : forall db0,
             Service.create_refund env (rc_payment_id refund_data)
               (rc_amount refund_data) (rc_notes refund_data) db0
             = (payment_refund (client env) (rc_payment_id refund_data) data,
                db0, [SdkPaymentRefund (rc_payment_id refund_data) data])).
  { intros db0. unfold Service.create_refund. unfold_monad.
    rewrite Ha, Ht, Hp. subst data. reflexivity. }
  unfold Routes.create_refund, Routes.HTTP_400_BAD_REQUEST.
  unfold try_except, bind, effects_of, db_of. rewrite Hsvc.
  destruct (payment_refund (client env) (rc_payment_id refund_data) data)
    as [refund|e] eqn:Hcall.
  - split.
    + unfold_monad.
      destruct (scan_update _ _ db) as [db'|e']; cbn;
        [destruct (int_truediv (refund_entity_amount refund) 100)|];
        reflexivity.
    + split; [intros e He; discriminate|].
      intros refund' refund_amount pre k r post Hr Hdiv Hdb Hpre Hhit.
      apply Ok_inj in Hr. subst refund' db.
      unfold_monad. unfold carries_payment in *.
      rewrite (scan_update_first_match _ _ pre k r post
                 (dict_update r (refund_fields refund refund_amount)));
        [ | exact Hpre | exact Hhit | rewrite Hdiv; reflexivity ].
      cbn. rewrite Hdiv. reflexivity.
  - split; [reflexivity|].
    split; [|intros; discriminate].
    intros e' He'. inversion He'; subst. reflexivity.
Qed.

Lemma refund_is_forwarded_witness :
  exists data,
    dict_get data "amount" = Some (PInt 50000) /\
    effects_of (Routes.create_refund Demo.env Demo.refund_request Demo.db_paid)
      = [SdkPaymentRefund (rc_payment_id Demo.refund_request) data] /\
    (forall e,
        payment_refund (client Demo.env) (rc_payment_id Demo.refund_request) data
          = Raise e ->
        Routes.create_refund Demo.env Demo.refund_request Demo.db_paid
        = (Raise (HTTPException 400 (DetailOf "Refund failed: " e)),
           Demo.db_paid,
           [SdkPaymentRefund (rc_payment_id Demo.refund_request) data])) /\
    (forall refund refund_amount pre k r post,
        payment_refund (client Demo.env) (rc_payment_id Demo.refund_request) data
          = Ok refund ->
        int_truediv (refund_entity_amount refund) 100 = Ok refund_amount ->
        Demo.db_paid = pre ++ (k, r) :: post ->
        (forall k0 r0, In (k0, r0) pre ->
                       carries_payment (rc_payment_id Demo.refund_request) r0
                       = false) ->
        carries_payment (rc_payment_id Demo.refund_request) r = true ->
        db_of (Routes.create_refund Demo.env Demo.refund_request Demo.db_paid)
        = pre ++ (k, dict_update r (refund_fields refund refund_amount)) :: post).
Proof.
  apply (refund_is_forwarded_to_the_gateway
           Demo.env Demo.refund_request Demo.db_paid (float_lit 500) 50000).
  - reflexivity.
  - reflexivity.
  - reflexivity.
Defined.

(* ================================================================== *)
(** * The signature verifiers on malformed input *)
(* ================================================================== *)

(** C6. The verifiers are not total.  On a body that is not valid UTF-8 (the
    single byte 0xFF) [RazorpayService.verify_webhook_signature] raises
    [UnicodeDecodeError] before the SDK is called, whatever the SDK and the
    signature; on a signature with a non-ASCII character (U+00E9) the manual
    [verify_webhook_signature] raises [TypeError], whatever the payload, the
    secret and the digest. *)
Theorem verifier_raises_on_malformed_input :
  (forall env signature db,
      Service.verify_webhook_signature env [xff] signature db
      = (Raise UnicodeDecodeError, db, []))
  /\
  (forall hmac_sha256_hexdigest payload secret,
      Security.verify_webhook_signature hmac_sha256_hexdigest payload
        Demo.non_ascii_signature secret
      = Raise TypeError).
Proof.
  split.
  - intros env signature db. reflexivity.
  - intros h payload secret.
    unfold Security.verify_webhook_signature, Security.compare_digest.
    change (Codec.is_ascii_str Demo.non_ascii_signature) with false.
    now rewrite andb_false_r.
Qed.

(** On well-formed input the service verifier does return a boolean: the body
    decodes and the SDK either accepts or raises its verification error. *)
Lemma service_verifier_boolean_on_wellformed env body signature db decoded :
  Codec.utf8_decode body = Some decoded ->
  (utility_verify_webhook_signature (client env) decoded signature
     (webhook_secret (settings env)) = Ok tt
   \/ utility_verify_webhook_signature (client env) decoded signature
        (webhook_secret (settings env)) = Raise SignatureVerificationError) ->
  exists b,
    response_of (Service.verify_webhook_signature env body signature db) = Ok b.
Proof.
  intros Hd [Hv|Hv]; unfold Service.verify_webhook_signature; unfold_monad;
    rewrite Hd; cbn; rewrite Hv; cbn; eauto.
Qed.

(* ================================================================== *)
(** * Monetary amounts *)
(* ================================================================== *)

(** C7 (as stated) fails: the amount 0.29 arrives as the nearest binary64;
    the order sent to the gateway is for 28 minor units, not 29, and the
    ledger stores the binary64 major-unit value itself. *)
Lemma amount_is_a_float_and_scaling_is_inexact :
  int_truediv 29 100 = Ok Demo.f_0_29 /\
  effects_of (Routes.create_order Demo.env (Demo.order_request Demo.f_0_29) [])
    = [SdkOrderCreate
         [("amount", PInt 28);
          ("currency", PStr "INR");
          ("payment_capture", PInt 1);
          ("notes", PDict [("customer_name", PStr "Test User");
                           ("customer_email", PStr "test@example.com");
                           ("customer_phone", PNone);
                           ("description", PStr "Test payment")])]] /\
  option_map (fun r => record_get r "amount")
    (dict_get (db_of (Routes.create_order Demo.env
                        (Demo.order_request Demo.f_0_29) []))
              "order_1")
    = Some (PFloat Demo.f_0_29).
Proof.
  repeat split; vm_compute; reflexivity.
Qed.

(** C7 (amended). Only what is sent to the Gateway Client is a whole number of
    minor units.  At the transport edge and in the ledger amounts are binary64
    major-unit values: a created order's amount is stored and returned exactly
    as received, and a refund's amount is returned as the gateway's minor-unit
    integer divided by 100. *)
Theorem amounts_are_floats_inside_integers_at_gateway :
  (forall env payment_data db resp,
      response_of (Routes.create_order env payment_data db) = Ok resp ->
      exists paise data order r,
        effects_of (Routes.create_order env payment_data db)
          = [SdkOrderCreate data] /\
        dict_get data "amount" = Some (PInt paise) /\
        order_create (client env) data = Ok order /\
        dict_get (db_of (Routes.create_order env payment_data db))
                 (order_entity_id order) = Some r /\
        record_get r "amount" = PFloat (pc_amount payment_data) /\
        ocr_amount resp = pc_amount payment_data)
  /\
  (forall env refund_data db resp,
      response_of (Routes.create_refund env refund_data db) = Ok resp ->
      exists data refund,
        effects_of (Routes.create_refund env refund_data db)
          = [SdkPaymentRefund (rc_payment_id refund_data) data] /\
        (dict_get data "amount" = None
         \/ exists paise, dict_get data "amount" = Some (PInt paise)) /\
        payment_refund (client env) (rc_payment_id refund_data) data
          = Ok refund /\
        int_truediv (refund_entity_amount refund) 100 = Ok (rr_amount resp)).
Proof.
  split.
  - intros env pd db resp.
    unfold Routes.create_order, Service.create_order, Service.to_paise.
    unfold_monad.
    destruct (int_of_float (float_mul (pc_amount pd) (float_lit 100)))
      as [paise|e]; cbn; [|discriminate].
    match goal with
    | |- context [order_create (client env) ?d] =>
        destruct (order_create (client env) d) as [order|e] eqn:Hcreate
    end; cbn; [|discriminate].
    intros H. apply Ok_inj in H. subst resp.
    do 4 eexists. split; [reflexivity|]. split; [reflexivity|].
    split; [exact Hcreate|]. rewrite dict_get_set_same.
    repeat split; reflexivity.
  - intros env rd db resp.
    unfold Routes.create_refund, Service.create_refund, Service.to_paise.
    unfold_monad.
    assert (Hdata : forall base : dict pyval,
               dict_get base "amount" = None
               \/ (exists paise, dict_get base "amount" = Some (PInt paise)) ->
               dict_get (match rc_notes rd with
                         | Some d => if dict_truthy d
                                     then dict_set base "notes" (PDict d)
                                     else base
                         | None => base
                         end) "amount" = None
               \/ (exists paise,
                      dict_get (match rc_notes rd with
                                | Some d => if dict_truthy d
                                            then dict_set base "notes" (PDict d)
                                            else base
                                | None => base
                                end) "amount" = Some (PInt paise))).
    { intros base Hb.
      destruct (rc_notes rd) as [d|]; [destruct (dict_truthy d)|]; auto.
      rewrite dict_get_set_other by discriminate. exact Hb. }
    destruct (rc_amount rd) as [a|];
      [destruct (float_truthy a);
       [destruct (int_of_float (float_mul a (float_lit 100))) as [paise|e]|]|];
      cbn -[float_lit int_truediv].
    + match goal with
      | |- context [payment_refund (client env) _ ?d] =>
          destruct (payment_refund (client env) (rc_payment_id rd) d)
            as [refund|e] eqn:Hcall
      end; cbn -[float_lit int_truediv]; [|discriminate].
      destruct (scan_update _ _ db) as [db'|e]; cbn -[float_lit int_truediv];
        [|discriminate].
      destruct (int_truediv (refund_entity_amount refund) 100) as [amt|e] eqn:Hdiv;
        cbn; [|discriminate].
      intros H. apply Ok_inj in H. subst resp.
      do 2 eexists. split; [reflexivity|]. split; [|split; [exact Hcall|exact Hdiv]].
      apply (Hdata [("amount", PInt paise)]). right. exists paise. reflexivity.
    + discriminate.
    + match goal with
      | |- context [payment_refund (client env) _ ?d] =>
          destruct (payment_refund (client env) (rc_payment_id rd) d)
            as [refund|e] eqn:Hcall
      end; cbn -[float_lit int_truediv]; [|discriminate].
      destruct (scan_update _ _ db) as [db'|e]; cbn -[float_lit int_truediv];
        [|discriminate].
      destruct (int_truediv (refund_entity_amount refund) 100) as [amt|e] eqn:Hdiv;
        cbn; [|discriminate].
      intros H. apply Ok_inj in H. subst resp.
      do 2 eexists. split; [reflexivity|]. split; [|split; [exact Hcall|exact Hdiv]].
      apply (Hdata []). left. reflexivity.
    + match goal with
      | |- context [payment_refund (client env) _ ?d] =>
          destruct (payment_refund (client env) (rc_payment_id rd) d)
            as [refund|e] eqn:Hcall
      end; cbn -[float_lit int_truediv]; [|discriminate].
      destruct (scan_update _ _ db) as [db'|e]; cbn -[float_lit int_truediv];
        [|discriminate].
      destruct (int_truediv (refund_entity_amount refund) 100) as [amt|e] eqn:Hdiv;
        cbn; [|discriminate].
      intros H. apply Ok_inj in H. subst resp.
      do 2 eexists. split; [reflexivity|]. split; [|split; [exact Hcall|exact Hdiv]].
      apply (Hdata []). left. reflexivity.
Qed.

Lemma amounts_are_floats_inside_witness :
  (exists resp paise data order r,
      effects_of (Routes.create_order Demo.env
                    (Demo.order_request Demo.f_0_29) [])
        = [SdkOrderCreate data] /\
      dict_get data "amount" = Some (PInt paise) /\
      order_create (client Demo.env) data = Ok order /\
      dict_get (db_of (Routes.create_order Demo.env
                         (Demo.order_request Demo.f_0_29) []))
               (order_entity_id order) = Some r /\
      record_get r "amount" = PFloat (pc_amount (Demo.order_request Demo.f_0_29)) /\
      ocr_amount resp = pc_amount (Demo.order_request Demo.f_0_29))
  /\
  (exists resp data refund,
      effects_of (Routes.create_refund Demo.env_granting Demo.refund_request
                    Demo.db_paid)
        = [SdkPaymentRefund (rc_payment_id Demo.refund_request) data] /\
      (dict_get data "amount" = None
       \/ exists paise, dict_get data "amount" = Some (PInt paise)) /\
      payment_refund (client Demo.env_granting)
        (rc_payment_id Demo.refund_request) data = Ok refund /\
      int_truediv (refund_entity_amount refund) 100 = Ok (rr_amount resp)).
Proof.
  split.
  - eexists.
    apply (proj1 amounts_are_floats_inside_integers_at_gateway
                 Demo.env (Demo.order_request Demo.f_0_29) []).
    reflexivity.
  - eexists.
    apply (proj2 amounts_are_floats_inside_integers_at_gateway
                 Demo.env_granting Demo.refund_request Demo.db_paid).
    reflexivity.
Defined.

(* ================================================================== *)
(** * Lookup by payment identifier *)
(* ================================================================== *)

Lemma py_eq_str v s : py_eq v (PStr s) = true <-> v = PStr s.
Proof.
  destruct v; cbn; try (split; [discriminate | congruence]).
  split.
  - intros H. apply String.eqb_eq in H. now subst.
  - intros H. inversion H. apply String.eqb_refl.
Qed.

Lemma in_dict_values {V} (d : dict V) v :
  In v (dict_values d) <-> exists k, In (k, v) d.
Proof.
  unfold dict_values. rewrite in_map_iff. split.
  - intros ([k v'] & Heq & Hin). cbn in Heq. subst. eauto.
  - intros (k & Hin). exists (k, v). auto.
Qed.

Lemma carries_payment_truthy payment_id r :
  carries_payment payment_id r = true -> dict_truthy r = true.
Proof.
  unfold carries_payment. intros H. apply py_eq_str in H.
  destruct r; [discriminate | reflexivity].
Qed.

(** What [get_payment] answers: the first record carrying the identifier, or
    404; it is a pure read. *)
Lemma get_payment_spec payment_id db :
  Routes.get_payment payment_id db
  = (match find (carries_payment payment_id) (dict_values db) with
     | Some data => Ok data
     | None => Raise (HTTPException 404 (Detail "Payment not found"))
     end, db, []).
Proof.
  unfold Routes.get_payment, Routes.HTTP_404_NOT_FOUND. unfold_monad.
  change (fun data : record =>
            py_eq (record_get data "razorpay_payment_id") (PStr payment_id))
    with (carries_payment payment_id).
  destruct (find (carries_payment payment_id) (dict_values db)) as [data|] eqn:Hf;
    cbn; [|reflexivity].
  apply find_some in Hf as [_ Hc].
  now rewrite (carries_payment_truthy _ _ Hc).
Qed.

Lemma in_dict_set {V} (d : dict V) k v k' v' :
  In (k', v') (dict_set d k v) -> In (k', v') d \/ (k' = k /\ v' = v).
Proof.
  induction d as [|[k0 v0] d IH]; cbn.
  - intros [H|[]]. inversion H. auto.
  - destruct (String.eqb k0 k) eqn:E; cbn.
    + apply String.eqb_eq in E. subst k0.
      intros [H|H]; [inversion H|]; auto.
    + intros [H|H]; auto. destruct (IH H); auto.
Qed.

Lemma in_scan_update p upd db db' k r :
  scan_update p upd db = Ok db' ->
  In (k, r) db' ->
  In (k, r) db \/ exists r0, In (k, r0) db /\ p r0 = true /\ upd r0 = Ok r.
Proof.
  revert db'. induction db as [|[k0 r0] db IH]; intros db' H Hin; cbn in H.
  - inversion H; subst. contradiction.
  - destruct (p r0) eqn:Hp.
    + destruct (upd r0) as [r'|e] eqn:Hu; inversion H; subst; clear H.
      destruct Hin as [Hin|Hin].
      * inversion Hin; subst. right. exists r0. cbn. auto.
      * left. now right.
    + destruct (scan_update p upd db) as [rest|e]; inversion H; subst; clear H.
      destruct Hin as [Hin|Hin].
      * inversion Hin; subst. left. now left.
      * destruct (IH rest eq_refl Hin) as [H|(r1 & H1 & H2 & H3)].
        -- left. now right.
        -- right. exists r1. cbn. auto.
Qed.

(** A scan keeps the records of order [k] unpaid as long as its update keeps
    an unpaid record unpaid. *)
Lemma unpaid_scan k p upd db :
  unpaid k db ->
  (forall r0 r,
      record_get r0 "order_id" = PStr k ->
      dict_get r0 "razorpay_payment_id" = None ->
      p r0 = true -> upd r0 = Ok r ->
      record_get r "order_id" = PStr k /\
      dict_get r "razorpay_payment_id" = None) ->
  unpaid k (scan_db p upd db).
Proof.
  intros Hun Hupd. unfold scan_db.
  destruct (scan_update p upd db) as [db'|e] eqn:Hs; [|exact Hun].
  intros r Hin.
  destruct (in_scan_update _ _ _ _ _ _ Hs Hin) as [H|(r0 & H0 & Hp & Hu)].
  - now apply Hun.
  - destruct (Hun r0 H0) as [Ho Hn]. eapply Hupd; eauto.
Qed.

Lemma unpaid_dict_set k db k' r' :
  unpaid k db ->
  (k' = k -> record_get r' "order_id" = PStr k /\
             dict_get r' "razorpay_payment_id" = None) ->
  unpaid k (dict_set db k' r').
Proof.
  intros Hun Hnew r Hin.
  destruct (in_dict_set _ _ _ _ _ Hin) as [H|[Hk Hr]].
  - now apply Hun.
  - subst. now apply Hnew.
Qed.

Lemma dict_get_update_other (r : record) k other :
  ~ In k (dict_keys other) ->
  dict_get (dict_update r other) k = dict_get r k.
Proof. apply dict_get_update_notin. Qed.

(** A webhook event that is not a capture of order [k] leaves the records of
    order [k] unpaid. *)
Lemma process_webhook_event_unpaid k event payload db :
  captures k event payload = false ->
  unpaid k db ->
  unpaid k (db_of (Routes.process_webhook_event event payload db)).
Proof.
  unfold captures, event_order_id. intros Hcap Hun.
  unfold Routes.process_webhook_event.
  destruct (py_eq event (PStr "payment.captured")) eqn:Ecap.
  { destruct (Routes.entity_of payload "payment") as [ent|e] eqn:Eent;
      [|run_handler; exact Hun].
    destruct (py_get ent "id" PNone) as [pid|e] eqn:Epid;
      [|run_handler; exact Hun].
    destruct (py_get ent "order_id" PNone) as [oid|e] eqn:Eoid;
      [|run_handler; exact Hun].
    unfold bind_res in Hcap. cbv beta iota in Hcap. rewrite Eoid in Hcap.
    cbn [andb] in Hcap.
    run_handler.
    match goal with
    | |- context [scan_update ?p ?upd db] =>
        assert (Hs : unpaid k (scan_db p upd db));
        [|unfold scan_db in Hs; destruct (scan_update p upd db); exact Hs]
    end.
    apply unpaid_scan; [exact Hun|].
    intros r0 r Ho Hn Hp Hu. cbv beta in Hp. rewrite Ho in Hp. congruence. }
  destruct (py_eq event (PStr "payment.failed")) eqn:Efail.
  { destruct (Routes.entity_of payload "payment") as [ent|e] eqn:Eent;
      [|run_handler; exact Hun].
    destruct (py_get ent "order_id" PNone) as [oid|e] eqn:Eoid;
      [|run_handler; exact Hun].
    run_handler.
    match goal with
    | |- context [scan_update ?p ?upd db] =>
        assert (Hs : unpaid k (scan_db p upd db));
        [|unfold scan_db in Hs; destruct (scan_update p upd db); exact Hs]
    end.
    apply unpaid_scan; [exact Hun|].
    intros r0 r Ho Hn Hp Hu. apply Ok_inj in Hu. subst r. split.
    - now rewrite record_get_set_other by discriminate.
    - now rewrite dict_get_set_other by discriminate. }
  destruct (py_eq event (PStr "refund.created")) eqn:Eref.
  { destruct (Routes.entity_of payload "refund") as [ent|e] eqn:Eent;
      [|run_handler; exact Hun].
    destruct (py_get ent "payment_id" PNone) as [pid|e] eqn:Epid;
      [|run_handler; exact Hun].
    run_handler.
    match goal with
    | |- context [scan_update ?p ?upd db] =>
        assert (Hs : unpaid k (scan_db p upd db));
        [|unfold scan_db in Hs; destruct (scan_update p upd db); exact Hs]
    end.
    apply unpaid_scan; [exact Hun|].
    intros r0 r Ho Hn Hp Hu. cbv beta in Hu. unfold bind_res in Hu.
    destruct (py_get ent "id" PNone) as [rid|e]; [|discriminate].
    destruct (py_get ent "amount" (PInt 0)) as [amt|e]; [|discriminate].
    destruct (py_truediv_100 amt) as [ra|e]; [|discriminate].
    apply Ok_inj in Hu. subst r. split.
    - now rewrite record_get_update_notin by key_notin.
    - now rewrite dict_get_update_other by key_notin. }
  exact Hun.
Qed.

(** The webhook handler answers and registers tasks independently of the
    store, which it leaves alone. *)
Lemma razorpay_webhook_store_independent env request db :
  Routes.razorpay_webhook env request db
  = (response_of (Routes.razorpay_webhook env request []), db,
     effects_of (Routes.razorpay_webhook env request [])).
Proof.
  unfold Routes.razorpay_webhook, Service.verify_webhook_signature.
  unfold_monad.
  destruct (x_razorpay_signature request) as [s|]; cbn; [|reflexivity].
  destruct (String.eqb s EmptyString); cbn; [reflexivity|].
  destruct (Codec.utf8_decode (request_body request)) as [decoded|]; cbn;
    [|reflexivity].
  destruct (utility_verify_webhook_signature (client env) decoded s
              (webhook_secret (settings env))) as [[]|e]; cbn.
  2:{ destruct e; reflexivity. }
  destruct (json_loads env (request_body request)) as [payload|e]; cbn;
    [|reflexivity].
  destruct (py_get payload "event" PNone) as [event|e]; cbn; reflexivity.
Qed.

Lemma serve_webhook_db env request db :
  db_of (Routes.serve_webhook env request db) = db
  \/ exists event payload,
      In (AddTask event payload)
         (effects_of (Routes.razorpay_webhook env request [])) /\
      db_of (Routes.serve_webhook env request db)
      = db_of (Routes.process_webhook_event event payload db).
Proof.
  unfold Routes.serve_webhook.
  rewrite (razorpay_webhook_store_independent env request db).
  destruct (razorpay_webhook_outcome env request [])
    as [(s & decoded & payload & event & _ & _ & _ & _ & _ & Hout)
       |(d & t & Hout & _)];
    rewrite Hout; unfold response_of, effects_of; cbn [fst snd].
  - right. exists event, payload. split; [cbn; auto 10|].
    cbn -[Routes.process_webhook_event]. unfold_monad.
    destruct (Routes.process_webhook_event event payload db) as [[[[]|e] db2] t2];
      reflexivity.
  - left. reflexivity.
Qed.

Lemma create_order_unpaid k env payment_data db :
  unpaid k db ->
  unpaid k (db_of (Routes.create_order env payment_data db)).
Proof.
  intros Hun.
  unfold Routes.create_order, Service.create_order, Service.to_paise.
  unfold_monad.
  destruct (int_of_float (float_mul (pc_amount payment_data) (float_lit 100)))
    as [paise|e]; cbn; [|exact Hun].
  match goal with
  | |- context [order_create (client env) ?d] =>
      destruct (order_create (client env) d) as [order|e]
  end; cbn; [|exact Hun].
  apply unpaid_dict_set; [exact Hun|].
  intros ->. split; reflexivity.
Qed.

Lemma verify_payment_unpaid k env order_id payment_id signature db :
  verifies_or_captures k (env, VerifyPayment order_id payment_id signature)
    = false ->
  unpaid k db ->
  unpaid k (db_of (Routes.verify_payment env order_id payment_id signature db)).
Proof.
  cbn. intros Hno Hun. rewrite verify_payment_db.
  destruct (utility_verify_payment_signature (client env)
              order_id payment_id signature) as [[]|e]; [|exact Hun].
  destruct (dict_get db order_id) as [data|]; [|exact Hun].
  cbn in Hno. rewrite andb_true_r in Hno.
  apply unpaid_dict_set; [exact Hun|].
  intros ->. now rewrite String.eqb_refl in Hno.
Qed.

Lemma service_create_refund_db env payment_id amount notes db :
  db_of (Service.create_refund env payment_id amount notes db) = db.
Proof.
  unfold Service.create_refund. unfold_monad.
  destruct amount as [a|];
    [destruct (float_truthy a); [destruct (Service.to_paise a)|]|];
    reflexivity.
Qed.

Lemma create_refund_unpaid k env refund_data db :
  unpaid k db ->
  unpaid k (db_of (Routes.create_refund env refund_data db)).
Proof.
  intros Hun.
  unfold Routes.create_refund.
  unfold try_except, bind, db_of.
  destruct (Service.create_refund env (rc_payment_id refund_data)
              (rc_amount refund_data) (rc_notes refund_data) db)
    as [[[refund|e] db1] t1] eqn:Hsvc.
  - assert (Hdb1 : db1 = db).
    { pose proof (service_create_refund_db env (rc_payment_id refund_data)
                    (rc_amount refund_data) (rc_notes refund_data) db) as H.
      now rewrite Hsvc in H. }
    subst db1. unfold_monad.
    match goal with
    | |- context [scan_update ?p ?upd db] =>
        assert (Hs : unpaid k (scan_db p upd db));
        [|unfold scan_db in Hs; destruct (scan_update p upd db); cbn;
          [destruct (int_truediv (refund_entity_amount refund) 100)|];
          exact Hs]
    end.
    apply unpaid_scan; [exact Hun|].
    intros r0 r Ho Hn Hp Hu. cbv beta in Hu. unfold bind_res in Hu.
    destruct (int_truediv (refund_entity_amount refund) 100) as [amt|e];
      [|discriminate].
    apply Ok_inj in Hu. subst r. split.
    + now rewrite record_get_update_notin by key_notin.
    + now rewrite dict_get_update_other by key_notin.
  - assert (Hdb1 : db1 = db).
    { pose proof (service_create_refund_db env (rc_payment_id refund_data)
                    (rc_amount refund_data) (rc_notes refund_data) db) as H.
      now rewrite Hsvc in H. }
    subst db1. unfold_monad. exact Hun.
Qed.

Lemma step_unpaid k env o db :
  verifies_or_captures k (env, o) = false ->
  unpaid k db ->
  unpaid k (step env o db).
Proof.
  intros Hno Hun. destruct o as [pd|oid pid sig|request|rd|pid|]; cbn [step].
  - now apply create_order_unpaid.
  - now apply verify_payment_unpaid.
  - destruct (serve_webhook_db env request db)
      as [Heq|(event & payload & Hin & Heq)]; rewrite Heq; [exact Hun|].
    apply process_webhook_event_unpaid; [|exact Hun].
    cbn in Hno.
    destruct (captures k event payload) eqn:Hc; [|reflexivity].
    rewrite <- Hno. symmetry. apply existsb_exists.
    exists (AddTask event payload). auto.
  - now apply create_refund_unpaid.
  - rewrite get_payment_spec. exact Hun.
  - exact Hun.
Qed.

Lemma run_unpaid k history db :
  Forall (fun s => verifies_or_captures k s = false) history ->
  unpaid k db ->
  unpaid k (run history db).
Proof.
  revert db. induction history as [|[env o] history IH]; intros db Hall Hun.
  - exact Hun.
  - inversion Hall as [|? ? Hhd Htl]; subst. cbn [run].
    apply IH; [exact Htl|]. now apply step_unpaid.
Qed.

(** C10. Lookup by payment identifier succeeds exactly when some stored
    record carries that identifier under ["razorpay_payment_id"], answers 404
    "Payment not found" otherwise, and never changes the store.  Starting from
    the empty store, after any history of requests in which order [k] was
    neither successfully verified nor named by a registered
    [payment.captured] task, no record filed under [k] carries a payment
    identifier, and no lookup returns such a record. *)
Theorem payment_lookup_needs_recorded_identifier :
  (forall payment_id db,
      ((exists data, response_of (Routes.get_payment payment_id db) = Ok data)
       <-> (exists k r, In (k, r) db /\
                        record_get r "razorpay_payment_id" = PStr payment_id))
      /\ (response_of (Routes.get_payment payment_id db)
          = Raise (HTTPException 404 (Detail "Payment not found"))
          \/ exists data, response_of (Routes.get_payment payment_id db) = Ok data)
      /\ db_of (Routes.get_payment payment_id db) = db)
  /\
  (forall history k,
      Forall (fun s => verifies_or_captures k s = false) history ->
      unpaid k (run history [])
      /\ forall payment_id data,
          response_of (Routes.get_payment payment_id (run history [])) = Ok data ->
          ~ In (k, data) (run history [])).
Proof.
  split.
  - intros payment_id db. rewrite get_payment_spec.
    unfold response_of, db_of. cbn [fst snd].
    split; [|split; [|reflexivity]].
    + split.
      * intros [data Hd].
        destruct (find (carries_payment payment_id) (dict_values db))
          as [r|] eqn:Hf; [|discriminate].
        apply find_some in Hf as [Hin Hc].
        apply in_dict_values in Hin as [k Hin].
        exists k, r. split; [exact Hin|]. now apply py_eq_str.
      * intros (k & r & Hin & Hr).
        destruct (find (carries_payment payment_id) (dict_values db))
          as [r'|] eqn:Hf; [eauto|].
        exfalso.
        assert (Hc : carries_payment payment_id r = false).
        { apply (find_none _ _ Hf). apply in_dict_values. eauto. }
        unfold carries_payment in Hc. rewrite Hr in Hc. cbn in Hc.
        now rewrite String.eqb_refl in Hc.
    + destruct (find (carries_payment payment_id) (dict_values db)); eauto.
  - intros history k Hall.
    assert (Hun : unpaid k (run history [])).
    { apply run_unpaid; [exact Hall|]. intros r []. }
    split; [exact Hun|].
    intros payment_id data Hok Hin.
    rewrite get_payment_spec in Hok. unfold response_of in Hok. cbn in Hok.
    destruct (find (carries_payment payment_id) (dict_values (run history [])))
      as [r|] eqn:Hf; [|discriminate].
    apply Ok_inj in Hok. subst r.
    apply find_some in Hf as [_ Hc].
    unfold carries_payment in Hc. apply py_eq_str in Hc.
    destruct (Hun data Hin) as [_ Hnone].
    unfold record_get in Hc. rewrite Hnone in Hc. discriminate.
Qed.

Lemma payment_lookup_witness :
  unpaid "order_1" (run Demo.history_never_paid [])
  /\ forall payment_id data,
      response_of (Routes.get_payment payment_id
                     (run Demo.history_never_paid [])) = Ok data ->
      ~ In ("order_1", data) (run Demo.history_never_paid []).
Proof.
  apply (proj2 payment_lookup_needs_recorded_identifier
               Demo.history_never_paid "order_1").
  repeat (constructor; [vm_compute; reflexivity|]). constructor.
Defined.

(* ================================================================== *)
(** * Further properties: creating an order *)
(* ================================================================== *)

(** The three ways [create_order] can go. *)
Lemma create_order_spec env payment_data db :
  Routes.create_order env payment_data db =
  match Service.to_paise (pc_amount payment_data) with
  | Raise e =>
      (Raise (HTTPException 400 (DetailOf "Failed to create order: " e)),
       db, [])
  | Ok paise =>
      match order_create (client env) (order_data paise payment_data) with
      | Ok order =>
          (Ok {| ocr_order_id := order_entity_id order;
                 ocr_amount := pc_amount payment_data;
                 ocr_currency := pc_currency payment_data;
                 ocr_key_id := razorpay_key_id (settings env);
                 ocr_customer_name := pc_customer_name payment_data;
                 ocr_customer_email := pc_customer_email payment_data |},
           dict_set db (order_entity_id order)
                    (order_record (order_entity_id order) payment_data),
           [SdkOrderCreate (order_data paise payment_data)])
      | Raise e =>
          (Raise (HTTPException 400 (DetailOf "Failed to create order: " e)),
           db, [SdkOrderCreate (order_data paise payment_data)])
      end
  end.
Proof.
  unfold Routes.create_order, Service.create_order, Routes.HTTP_400_BAD_REQUEST.
  unfold_monad.
  destruct (Service.to_paise (pc_amount payment_data)) as [paise|e];
    [|reflexivity].
  cbn -[Service.to_paise].
  fold (order_notes payment_data).
  change [("amount", PInt paise);
          ("currency", PStr (pc_currency payment_data));
          ("payment_capture", PInt 1);
          ("notes", PDict (order_notes payment_data))]
    with (order_data paise payment_data).
  destruct (order_create (client env) (order_data paise payment_data))
    as [order|e]; reflexivity.
Qed.

(** X1. An order whose amount is NaN or infinite is rejected with status 400
    before the processor is contacted: no outside call is made and the ledger
    is unchanged. *)
Theorem create_order_rejects_non_finite_amount env payment_data db :
  pc_amount payment_data = S754_nan
  \/ (exists s, pc_amount payment_data = S754_infinity s) ->
  exists cause,
    Routes.create_order env payment_data db
    = (Raise (HTTPException 400 (DetailOf "Failed to create order: " cause)),
       db, []).
Proof.
  intros H. rewrite create_order_spec. unfold Service.to_paise.
  destruct H as [H|[s H]]; rewrite H.
  - exists ValueError. reflexivity.
  - exists OverflowError. destruct s; reflexivity.
Qed.

Lemma create_order_rejects_non_finite_amount_witness :
  exists cause,
    Routes.create_order Demo.env Demo.order_request_nan Demo.db_created
    = (Raise (HTTPException 400 (DetailOf "Failed to create order: " cause)),
       Demo.db_created, []).
Proof.
  apply (create_order_rejects_non_finite_amount
           Demo.env Demo.order_request_nan Demo.db_created).
  left. reflexivity.
Defined.

(** X2. A create-order request that fails, for whatever reason, answers with
    status 400 and leaves the ledger exactly as it was. *)
Theorem create_order_failure_leaves_ledger env payment_data db e :
  response_of (Routes.create_order env payment_data db) = Raise e ->
  db_of (Routes.create_order env payment_data db) = db /\
  exists cause,
    e = HTTPException 400 (DetailOf "Failed to create order: " cause).
Proof.
  rewrite create_order_spec.
  destruct (Service.to_paise (pc_amount payment_data)) as [paise|e0]; cbn.
  - destruct (order_create (client env) (order_data paise payment_data))
      as [order|e1]; cbn; intros H; [discriminate|].
    inversion H. eauto.
  - intros H. inversion H. eauto.
Qed.

Lemma create_order_failure_leaves_ledger_witness :
  db_of (Routes.create_order Demo.env_down
           (Demo.order_request (float_lit 100)) Demo.db_created)
    = Demo.db_created /\
  exists cause,
    HTTPException 400
      (DetailOf "Failed to create order: " (SdkError "connection refused"))
    = HTTPException 400 (DetailOf "Failed to create order: " cause).
Proof.
  apply (create_order_failure_leaves_ledger
           Demo.env_down (Demo.order_request (float_lit 100)) Demo.db_created).
  vm_compute. reflexivity.
Defined.

(** X3. After a successful create-order the new record is filed under the
    processor's order identifier with status [created] and without a payment
    identifier, replacing whatever was filed there; every other order is
    looked up as before; the response carries that identifier, the amount as
    received and the configured key id. *)
Theorem create_order_files_the_order env payment_data db resp :
  response_of (Routes.create_order env payment_data db) = Ok resp ->
  dict_get (db_of (Routes.create_order env payment_data db)) (ocr_order_id resp)
    = Some (order_record (ocr_order_id resp) payment_data) /\
  record_get (order_record (ocr_order_id resp) payment_data) "status"
    = PStr "created" /\
  dict_get (order_record (ocr_order_id resp) payment_data) "razorpay_payment_id"
    = None /\
  (forall k, k <> ocr_order_id resp ->
             dict_get (db_of (Routes.create_order env payment_data db)) k
             = dict_get db k) /\
  ocr_amount resp = pc_amount payment_data /\
  ocr_key_id resp = razorpay_key_id (settings env).
Proof.
  rewrite create_order_spec.
  destruct (Service.to_paise (pc_amount payment_data)) as [paise|e0]; cbn;
    [|discriminate].
  destruct (order_create (client env) (order_data paise payment_data))
    as [order|e1]; cbn; [|discriminate].
  intros H. apply Ok_inj in H. subst resp. cbn.
  split; [apply dict_get_set_same|].
  split; [reflexivity|]. split; [reflexivity|].
  split; [|split; reflexivity].
  intros k Hk. apply dict_get_set_other. congruence.
Qed.

Lemma create_order_files_the_order_witness :
  exists resp,
    dict_get (db_of (Routes.create_order Demo.env
                       (Demo.order_request (float_lit 100)) []))
             (ocr_order_id resp)
      = Some (order_record (ocr_order_id resp)
                           (Demo.order_request (float_lit 100))) /\
    record_get (order_record (ocr_order_id resp)
                             (Demo.order_request (float_lit 100))) "status"
      = PStr "created" /\
    dict_get (order_record (ocr_order_id resp)
                           (Demo.order_request (float_lit 100)))
             "razorpay_payment_id" = None /\
    (forall k, k <> ocr_order_id resp ->
               dict_get (db_of (Routes.create_order Demo.env
                                  (Demo.order_request (float_lit 100)) [])) k
               = dict_get [] k) /\
    ocr_amount resp = pc_amount (Demo.order_request (float_lit 100)) /\
    ocr_key_id resp = razorpay_key_id (settings Demo.env).
Proof.
  eexists.
  apply (create_order_files_the_order
           Demo.env (Demo.order_request (float_lit 100)) []).
  vm_compute. reflexivity.
Defined.

(** X4. Whatever the request, the order sent to the processor asks for
    automatic capture, carries the request's currency and the four customer
    notes, and never a receipt; it is the only outside call of the request. *)
Theorem create_order_gateway_request env payment_data db data :
  In (SdkOrderCreate data)
     (effects_of (Routes.create_order env payment_data db)) ->
  effects_of (Routes.create_order env payment_data db) = [SdkOrderCreate data] /\
  dict_get data "payment_capture" = Some (PInt 1) /\
  dict_get data "currency" = Some (PStr (pc_currency payment_data)) /\
  dict_get data "notes" = Some (PDict (order_notes payment_data)) /\
  dict_get data "receipt" = None /\
  exists paise,
    Service.to_paise (pc_amount payment_data) = Ok paise /\
    dict_get data "amount" = Some (PInt paise).
Proof.
  rewrite create_order_spec.
  destruct (Service.to_paise (pc_amount payment_data)) as [paise|e0] eqn:Hp;
    cbn; [|intros []].
  assert (Heff : forall x,
             effects_of
               (match order_create (client env) (order_data paise payment_data)
                with
                | Ok order =>
                    (Ok {| ocr_order_id := order_entity_id order;
                           ocr_amount := pc_amount payment_data;
                           ocr_currency := pc_currency payment_data;
                           ocr_key_id := razorpay_key_id (settings env);
                           ocr_customer_name := pc_customer_name payment_data;
                           ocr_customer_email := pc_customer_email payment_data |},
                     dict_set db (order_entity_id order)
                       (order_record (order_entity_id order) payment_data),
                     [SdkOrderCreate (order_data paise payment_data)])
                | Raise e =>
                    (Raise (HTTPException 400
                              (DetailOf "Failed to create order: " e)),
                     db, [SdkOrderCreate (order_data paise payment_data)])
                end) = x ->
             x = [SdkOrderCreate (order_data paise payment_data)]).
  { intros x <-.
    destruct (order_create (client env) (order_data paise payment_data));
      reflexivity. }
  rewrite (Heff _ eq_refl).
  intros [H|[]]. inversion H; subst data.
  repeat split; try reflexivity. eauto.
Qed.

Lemma create_order_gateway_request_witness :
  effects_of (Routes.create_order Demo.env
                (Demo.order_request (float_lit 100)) [])
    = [SdkOrderCreate (order_data 10000 (Demo.order_request (float_lit 100)))] /\
  dict_get (order_data 10000 (Demo.order_request (float_lit 100)))
           "payment_capture" = Some (PInt 1) /\
  dict_get (order_data 10000 (Demo.order_request (float_lit 100))) "currency"
    = Some (PStr (pc_currency (Demo.order_request (float_lit 100)))) /\
  dict_get (order_data 10000 (Demo.order_request (float_lit 100))) "notes"
    = Some (PDict (order_notes (Demo.order_request (float_lit 100)))) /\
  dict_get (order_data 10000 (Demo.order_request (float_lit 100))) "receipt"
    = None /\
  exists paise,
    Service.to_paise (pc_amount (Demo.order_request (float_lit 100)))
      = Ok paise /\
    dict_get (order_data 10000 (Demo.order_request (float_lit 100))) "amount"
      = Some (PInt paise).
Proof.
  apply (create_order_gateway_request
           Demo.env (Demo.order_request (float_lit 100)) []
           (order_data 10000 (Demo.order_request (float_lit 100)))).
  vm_compute. left. reflexivity.
Defined.

(* ================================================================== *)
(** * Further properties: confirming a payment *)
(* ================================================================== *)

Lemma verify_payment_spec env order_id payment_id signature db :
  Routes.verify_payment env order_id payment_id signature db =
  match utility_verify_payment_signature (client env)
          order_id payment_id signature with
  | Ok _ =>
      match payment_fetch (client env) payment_id with
      | Ok details =>
          (Ok (verify_response order_id payment_id details),
           confirmed_db order_id payment_id signature db,
           [SdkVerifyPaymentSignature order_id payment_id signature;
            SdkPaymentFetch payment_id])
      | Raise e =>
          (Raise (HTTPException 400
                    (DetailOf "Payment verification failed: " e)),
           confirmed_db order_id payment_id signature db,
           [SdkVerifyPaymentSignature order_id payment_id signature;
            SdkPaymentFetch payment_id])
      end
  | Raise SignatureVerificationError =>
      (Raise (HTTPException 400
                (DetailOf "Payment verification failed: "
                   (HTTPException 400 (Detail "Invalid payment signature")))),
       db, [SdkVerifyPaymentSignature order_id payment_id signature])
  | Raise e =>
      (Raise (HTTPException 400 (DetailOf "Payment verification failed: " e)),
       db, [SdkVerifyPaymentSignature order_id payment_id signature])
  end.
Proof.
  unfold Routes.verify_payment, Service.verify_payment_signature,
    Service.fetch_payment, Routes.HTTP_400_BAD_REQUEST, confirmed_db,
    verify_response, verified_fields.
  unfold_monad.
  destruct (utility_verify_payment_signature (client env)
              order_id payment_id signature) as [[]|e]; cbn.
  - destruct (dict_get db order_id) as [data|]; cbn;
      destruct (payment_fetch (client env) payment_id); reflexivity.
  - destruct e; reflexivity.
Qed.

Lemma dict_keys_set_present {V} (d : dict V) k v old :
  dict_get d k = Some old -> dict_keys (dict_set d k v) = dict_keys d.
Proof.
  induction d as [|[k0 v0] d IH]; cbn; [discriminate|].
  destruct (String.eqb k0 k) eqn:E; cbn; intros H.
  - reflexivity.
  - f_equal. now apply IH.
Qed.

Lemma dict_keys_set_absent {V} (d : dict V) k v :
  dict_get d k = None -> dict_keys (dict_set d k v) = dict_keys d ++ [k].
Proof.
  induction d as [|[k0 v0] d IH]; cbn; [reflexivity|].
  destruct (String.eqb k0 k) eqn:E; cbn; intros H; [discriminate|].
  f_equal. now apply IH.
Qed.

(** Replacing the record of a stored order by one that the predicate selects,
    when no record was selected before, makes it the first one selected. *)
Lemma find_after_dict_set (f : record -> bool) (db : payments_db) k v old :
  (forall k0 r0, In (k0, r0) db -> f r0 = false) ->
  f v = true ->
  dict_get db k = Some old ->
  find f (dict_values (dict_set db k v)) = Some v.
Proof.
  intros Hnone Hv.
  induction db as [|[k0 r0] db IH]; cbn; [discriminate|].
  destruct (String.eqb k0 k) eqn:E; cbn; intros Hget.
  - now rewrite Hv.
  - rewrite (Hnone k0 r0) by now left.
    apply IH; [|exact Hget].
    intros k1 r1 Hin. apply (Hnone k1 r1). now right.
Qed.

Lemma carries_payment_verified order_id payment_id signature (data : record) :
  carries_payment payment_id
    (dict_update data (verified_fields order_id payment_id signature)) = true.
Proof.
  unfold carries_payment, record_get.
  rewrite (dict_get_update_in data "razorpay_payment_id" (PStr payment_id)).
  - cbn. apply String.eqb_refl.
  - unfold verified_fields. keys_nodup.
  - unfold verified_fields. cbn. auto.
Qed.

(** X5. Confirming, with a valid signature, an order the ledger does not hold
    answers success with the fetched payment and records nothing: no record
    is created for the unknown order. *)
Theorem verify_payment_unknown_order_records_nothing
        env order_id payment_id signature db details :
  utility_verify_payment_signature (client env) order_id payment_id signature
    = Ok tt ->
  dict_get db order_id = None ->
  payment_fetch (client env) payment_id = Ok details ->
  Routes.verify_payment env order_id payment_id signature db
  = (Ok (verify_response order_id payment_id details), db,
     [SdkVerifyPaymentSignature order_id payment_id signature;
      SdkPaymentFetch payment_id]).
Proof.
  intros Hv Hnone Hf. rewrite verify_payment_spec, Hv, Hf.
  unfold confirmed_db. now rewrite Hnone.
Qed.

Lemma verify_payment_unknown_order_witness :
  Routes.verify_payment Demo.env "order_7" "pay_1" "good" Demo.db_created
  = (Ok (verify_response "order_7" "pay_1"
           (Demo.payment_entity "order_1" "captured")),
     Demo.db_created,
     [SdkVerifyPaymentSignature "order_7" "pay_1" "good";
      SdkPaymentFetch "pay_1"]).
Proof.
  apply (verify_payment_unknown_order_records_nothing
           Demo.env "order_7" "pay_1" "good" Demo.db_created
           (Demo.payment_entity "order_1" "captured")); reflexivity.
Defined.

(** X6. The order is marked paid before the processor is asked for the
    payment: when the signature is valid and the fetch then fails, the caller
    gets status 400 while the ledger already records the order as [paid] with
    the payment identifier. *)
Theorem verify_payment_fetch_failure_keeps_paid
        env order_id payment_id signature db data e :
  utility_verify_payment_signature (client env) order_id payment_id signature
    = Ok tt ->
  dict_get db order_id = Some data ->
  payment_fetch (client env) payment_id = Raise e ->
  response_of (Routes.verify_payment env order_id payment_id signature db)
    = Raise (HTTPException 400 (DetailOf "Payment verification failed: " e)) /\
  exists data',
    dict_get (db_of (Routes.verify_payment env order_id payment_id signature db))
             order_id = Some data' /\
    record_get data' "status" = PStr "paid" /\
    record_get data' "razorpay_payment_id" = PStr payment_id.
Proof.
  intros Hv Hin Hf. rewrite verify_payment_spec, Hv, Hf.
  unfold confirmed_db, response_of, db_of. cbn [fst snd]. rewrite Hin.
  split; [reflexivity|].
  exists (dict_update data (verified_fields order_id payment_id signature)).
  split; [apply dict_get_set_same|].
  unfold record_get. split.
  - rewrite (dict_get_update_in data "status" (PStr "paid")); auto.
    + unfold verified_fields; keys_nodup.
    + unfold verified_fields; cbn; auto.
  - rewrite (dict_get_update_in data "razorpay_payment_id" (PStr payment_id));
      auto.
    + unfold verified_fields; keys_nodup.
    + unfold verified_fields; cbn; auto.
Qed.

Lemma verify_payment_fetch_failure_witness :
  response_of (Routes.verify_payment Demo.env_down "order_1" "pay_1" "good"
                 Demo.db_created)
    = Raise (HTTPException 400
               (DetailOf "Payment verification failed: "
                  (SdkError "connection refused"))) /\
  exists data',
    dict_get (db_of (Routes.verify_payment Demo.env_down
                       "order_1" "pay_1" "good" Demo.db_created))
             "order_1" = Some data' /\
    record_get data' "status" = PStr "paid" /\
    record_get data' "razorpay_payment_id" = PStr "pay_1".
Proof.
  eapply (verify_payment_fetch_failure_keeps_paid
            Demo.env_down "order_1" "pay_1" "good" Demo.db_created);
    reflexivity.
Defined.

(** X7. A confirmation changes nothing but four fields of one record: the set
    and order of stored orders is the same, every other order's record is the
    same, and in the confirmed record every field other than [status],
    [razorpay_payment_id], [razorpay_order_id] and [razorpay_signature]
    (amount, currency, customer data, refund data) keeps its value. *)
Theorem verify_payment_frame env order_id payment_id signature db :
  dict_keys (db_of (Routes.verify_payment env order_id payment_id signature db))
    = dict_keys db /\
  (forall k, k <> order_id ->
             dict_get (db_of (Routes.verify_payment env
                                order_id payment_id signature db)) k
             = dict_get db k) /\
  (forall data data' field,
      dict_get db order_id = Some data ->
      dict_get (db_of (Routes.verify_payment env
                         order_id payment_id signature db)) order_id
        = Some data' ->
      ~ In field ["status"; "razorpay_payment_id";
                  "razorpay_order_id"; "razorpay_signature"] ->
      dict_get data' field = dict_get data field).
Proof.
  rewrite verify_payment_db.
  destruct (utility_verify_payment_signature (client env)
              order_id payment_id signature) as [[]|e].
  2:{ repeat split; auto. intros data data' field H H'. congruence. }
  destruct (dict_get db order_id) as [data|] eqn:Hin.
  2:{ repeat split; auto. intros data data' field H H'. congruence. }
  split; [now apply dict_keys_set_present with (old := data)|].
  split.
  - intros k Hk. apply dict_get_set_other. congruence.
  - intros data0 data' field H0 H' Hf.
    rewrite dict_get_set_same in H'.
    assert (E0 : data0 = data) by congruence.
    assert (E' : data' = dict_update data
                           (verified_fields order_id payment_id signature))
      by congruence.
    subst data0 data'.
    apply (dict_get_update_notin data field
             (verified_fields order_id payment_id signature)).
    exact Hf.
Qed.

(** X8. Round trip: once an order held by the ledger has been confirmed with a
    valid signature under a payment identifier no record carried before,
    looking that identifier up returns this order's record, now [paid]. *)
Theorem confirmed_payment_can_be_looked_up
        env order_id payment_id signature db data :
  utility_verify_payment_signature (client env) order_id payment_id signature
    = Ok tt ->
  dict_get db order_id = Some data ->
  fresh_payment payment_id db ->
  response_of
    (Routes.get_payment payment_id
       (db_of (Routes.verify_payment env order_id payment_id signature db)))
  = Ok (dict_update data (verified_fields order_id payment_id signature)).
Proof.
  intros Hv Hin Hfresh.
  rewrite verify_payment_db, Hv, Hin, get_payment_spec.
  unfold response_of. cbn [fst].
  rewrite (find_after_dict_set _ db order_id _ data); auto.
  apply carries_payment_verified.
Qed.

Lemma confirmed_payment_can_be_looked_up_witness :
  response_of
    (Routes.get_payment "pay_1"
       (db_of (Routes.verify_payment Demo.env "order_1" "pay_1" "good"
                 Demo.db_created)))
  = Ok (dict_update (order_record "order_1" (Demo.order_request (float_lit 100)))
                    (verified_fields "order_1" "pay_1" "good")).
Proof.
  apply (confirmed_payment_can_be_looked_up
           Demo.env "order_1" "pay_1" "good" Demo.db_created
           (order_record "order_1" (Demo.order_request (float_lit 100)))).
  - reflexivity.
  - reflexivity.
  - intros k r Hin. vm_compute in Hin.
    destruct Hin as [Hin|[]]. inversion Hin. reflexivity.
Defined.

(** X9. Unless the SDK accepts the signature, the confirmation stops there:
    whatever the SDK raised (a verification error or anything else), the
    caller gets status 400, the processor is not asked for the payment and
    the ledger is unchanged. *)
Theorem verify_payment_stops_unless_accepted
        env order_id payment_id signature db e :
  utility_verify_payment_signature (client env) order_id payment_id signature
    = Raise e ->
  exists detail,
    Routes.verify_payment env order_id payment_id signature db
    = (Raise (HTTPException 400 detail), db,
       [SdkVerifyPaymentSignature order_id payment_id signature]).
Proof.
  intros Hv. rewrite verify_payment_spec, Hv.
  destruct e; eexists; reflexivity.
Qed.

Lemma verify_payment_stops_unless_accepted_witness :
  exists detail,
    Routes.verify_payment Demo.env "order_1" "pay_1" "forged" Demo.db_created
    = (Raise (HTTPException 400 detail), Demo.db_created,
       [SdkVerifyPaymentSignature "order_1" "pay_1" "forged"]).
Proof.
  apply (verify_payment_stops_unless_accepted
           Demo.env "order_1" "pay_1" "forged" Demo.db_created
           SignatureVerificationError).
  reflexivity.
Defined.

(* ================================================================== *)
(** * Further properties: processing webhook events *)
(* ================================================================== *)

Lemma scan_update_raising p upd e db :
  (forall r, upd r = Raise e) ->
  scan_update p upd db = Ok db \/ scan_update p upd db = Raise e.
Proof.
  intros Hupd. induction db as [|[k r] db IH]; cbn; [auto|].
  destruct (p r).
  - rewrite Hupd. auto.
  - destruct IH as [-> | ->]; auto.
Qed.

Lemma scan_update_first_match_raise p upd pre k r post e :
  (forall k0 r0, In (k0, r0) pre -> p r0 = false) ->
  p r = true -> upd r = Raise e ->
  scan_update p upd (pre ++ (k, r) :: post) = Raise e.
Proof.
  intros Hpre Hp Hu.
  induction pre as [|[k0 r0] pre IH]; cbn.
  - now rewrite Hp, Hu.
  - rewrite (Hpre k0 r0) by now left.
    rewrite IH; auto. intros k1 r1 Hin. apply (Hpre k1 r1). now right.
Qed.

(** A [payment.captured] event hitting a stored order. *)
Lemma captured_hit payload ent pid oid method pre k r post :
  Routes.entity_of payload "payment" = Ok ent ->
  py_get ent "id" PNone = Ok pid ->
  py_get ent "order_id" PNone = Ok oid ->
  py_get ent "method" PNone = Ok method ->
  (forall k0 r0, In (k0, r0) pre -> names_order oid r0 = false) ->
  names_order oid r = true ->
  Routes.process_webhook_event (PStr "payment.captured") payload
    (pre ++ (k, r) :: post)
  = (Ok tt, pre ++ (k, dict_update r (captured_fields pid method)) :: post,
     [Print (Processed (PStr "payment.captured"))]).
Proof.
  intros Hent Hpid Hoid Hm Hpre Hr.
  unfold Routes.process_webhook_event.
  change (py_eq (PStr "payment.captured") (PStr "payment.captured")) with true.
  cbv iota. run_handler.
  rewrite (scan_update_first_match _ _ pre k r post
             (dict_update r (captured_fields pid method)));
    [reflexivity | exact Hpre | exact Hr | reflexivity].
Qed.

(** A [refund.created] event hitting a stored payment. *)
Lemma refund_created_hit payload ent pid rid amount pre k r post :
  Routes.entity_of payload "refund" = Ok ent ->
  py_get ent "payment_id" PNone = Ok pid ->
  py_get ent "id" PNone = Ok rid ->
  py_get ent "amount" (PInt 0) = Ok amount ->
  (forall k0 r0, In (k0, r0) pre -> has_payment_id pid r0 = false) ->
  has_payment_id pid r = true ->
  Routes.process_webhook_event (PStr "refund.created") payload
    (pre ++ (k, r) :: post)
  = match py_truediv_100 amount with
    | Ok refund_amount =>
        (Ok tt,
         pre ++ (k, dict_update r (refund_created_fields rid refund_amount))
             :: post,
         [Print (Processed (PStr "refund.created"))])
    | Raise e =>
        (Ok tt, pre ++ (k, r) :: post, [Print (ErrorProcessing e)])
    end.
Proof.
  intros Hent Hpid Hrid Hamt Hpre Hr.
  unfold Routes.process_webhook_event.
  change (py_eq (PStr "refund.created") (PStr "payment.captured")) with false.
  change (py_eq (PStr "refund.created") (PStr "payment.failed")) with false.
  change (py_eq (PStr "refund.created") (PStr "refund.created")) with true.
  cbv iota. run_handler.
  destruct (py_truediv_100 amount) as [ra|e] eqn:Hdiv.
  - rewrite (scan_update_first_match _ _ pre k r post
               (dict_update r (refund_created_fields rid ra)));
      [reflexivity | exact Hpre | exact Hr
      | unfold bind_res; rewrite Hdiv; reflexivity].
  - rewrite (scan_update_first_match_raise _ _ pre k r post e);
      [reflexivity | exact Hpre | exact Hr
      | unfold bind_res; rewrite Hdiv; reflexivity].
Qed.

Lemma find_first_in_app (f : record -> bool) pre k r (post : payments_db) :
  (forall k0 r0, In (k0, r0) pre -> f r0 = false) ->
  f r = true ->
  find f (dict_values (pre ++ (k, r) :: post)) = Some r.
Proof.
  intros Hpre Hr. induction pre as [|[k0 r0] pre IH]; cbn.
  - now rewrite Hr.
  - rewrite (Hpre k0 r0) by now left.
    apply IH. intros k1 r1 Hin. apply (Hpre k1 r1). now right.
Qed.

(** Processing an event always ends normally with exactly one log line, and
    an error line means the store was not touched. *)
Lemma process_webhook_event_outcome event payload db :
  exists db' line,
    Routes.process_webhook_event event payload db
    = (Ok tt, db', [Print line]) /\
    (line = Processed event
     \/ exists e, line = ErrorProcessing e /\ db' = db).
Proof.
  unfold Routes.process_webhook_event.
  destruct (py_eq event (PStr "payment.captured")) eqn:Ecap.
  { destruct (Routes.entity_of payload "payment") as [ent|e] eqn:Eent;
      [|run_handler; do 2 eexists; split; [reflexivity|right; eauto]].
    destruct (py_get ent "id" PNone) as [pid|e] eqn:Epid;
      [|run_handler; do 2 eexists; split; [reflexivity|right; eauto]].
    destruct (py_get ent "order_id" PNone) as [oid|e] eqn:Eoid;
      [|run_handler; do 2 eexists; split; [reflexivity|right; eauto]].
    run_handler.
    destruct (scan_update _ _ db) as [db'|e]; cbn;
      do 2 eexists; (split; [reflexivity|]); [left|right]; eauto. }
  destruct (py_eq event (PStr "payment.failed")) eqn:Efail.
  { destruct (Routes.entity_of payload "payment") as [ent|e] eqn:Eent;
      [|run_handler; do 2 eexists; split; [reflexivity|right; eauto]].
    destruct (py_get ent "order_id" PNone) as [oid|e] eqn:Eoid;
      [|run_handler; do 2 eexists; split; [reflexivity|right; eauto]].
    run_handler.
    destruct (scan_update _ _ db) as [db'|e]; cbn;
      do 2 eexists; (split; [reflexivity|]); [left|right]; eauto. }
  destruct (py_eq event (PStr "refund.created")) eqn:Eref.
  { destruct (Routes.entity_of payload "refund") as [ent|e] eqn:Eent;
      [|run_handler; do 2 eexists; split; [reflexivity|right; eauto]].
    destruct (py_get ent "payment_id" PNone) as [pid|e] eqn:Epid;
      [|run_handler; do 2 eexists; split; [reflexivity|right; eauto]].
    run_handler.
    destruct (scan_update _ _ db) as [db'|e]; cbn;
      do 2 eexists; (split; [reflexivity|]); [left|right]; eauto. }
  do 2 eexists. split; [reflexivity|]. left. reflexivity.
Qed.

(** X10. [process_webhook_event] never raises: whatever the event and the
    payload (unknown type, missing or ill-typed parts), it ends normally after
    printing exactly one line, either the normal completion line or an error
    line, and when it prints the error line the ledger is unchanged. *)
Theorem process_webhook_event_never_raises event payload db :
  response_of (Routes.process_webhook_event event payload db) = Ok tt /\
  exists line,
    effects_of (Routes.process_webhook_event event payload db) = [Print line] /\
    (line = Processed event
     \/ exists e,
         line = ErrorProcessing e /\
         db_of (Routes.process_webhook_event event payload db) = db).
Proof.
  destruct (process_webhook_event_outcome event payload db)
    as (db' & line & Heq & Hline).
  rewrite Heq. split; [reflexivity|].
  exists line. split; [reflexivity|exact Hline].
Qed.

(** X11. A [payment.captured] event that names a stored order writes exactly
    three fields of the first record naming it: the status [paid], the
    event's payment identifier and its method.  Every other field of that
    record (amount, currency, customer data, [razorpay_order_id],
    [razorpay_signature], refund data) and every other record stay as they
    were. *)
Theorem captured_event_writes_three_fields
        payload ent pid oid method pre k r post :
  Routes.entity_of payload "payment" = Ok ent ->
  py_get ent "id" PNone = Ok pid ->
  py_get ent "order_id" PNone = Ok oid ->
  py_get ent "method" PNone = Ok method ->
  (forall k0 r0, In (k0, r0) pre -> names_order oid r0 = false) ->
  names_order oid r = true ->
  exists r',
    db_of (Routes.process_webhook_event (PStr "payment.captured") payload
             (pre ++ (k, r) :: post))
    = pre ++ (k, r') :: post /\
    record_get r' "status" = PStr "paid" /\
    record_get r' "razorpay_payment_id" = pid /\
    record_get r' "method" = method /\
    forall field,
      ~ In field ["status"; "razorpay_payment_id"; "method"] ->
      dict_get r' field = dict_get r field.
Proof.
  intros Hent Hpid Hoid Hm Hpre Hr.
  rewrite (captured_hit payload ent pid oid method pre k r post); auto.
  exists (dict_update r (captured_fields pid method)).
  split; [reflexivity|].
  unfold record_get.
  rewrite (dict_get_update_in r "status" (PStr "paid"));
    [|unfold captured_fields; keys_nodup|unfold captured_fields; cbn; auto].
  rewrite (dict_get_update_in r "razorpay_payment_id" pid);
    [|unfold captured_fields; keys_nodup|unfold captured_fields; cbn; auto].
  rewrite (dict_get_update_in r "method" method);
    [|unfold captured_fields; keys_nodup|unfold captured_fields; cbn; auto].
  repeat split.
  intros field Hf.
  apply (dict_get_update_notin r field (captured_fields pid method)). exact Hf.
Qed.

Lemma captured_event_writes_three_fields_witness :
  exists r',
    db_of (Routes.process_webhook_event (PStr "payment.captured")
             (Demo.payment_event "payment.captured" "order_1")
             ([] ++ ("order_1", order_record "order_1"
                                  (Demo.order_request (float_lit 100))) :: []))
    = [] ++ ("order_1", r') :: [] /\
    record_get r' "status" = PStr "paid" /\
    record_get r' "razorpay_payment_id" = PStr "pay_1" /\
    record_get r' "method" = PStr "card" /\
    forall field,
      ~ In field ["status"; "razorpay_payment_id"; "method"] ->
      dict_get r' field
      = dict_get (order_record "order_1" (Demo.order_request (float_lit 100)))
                 field.
Proof.
  apply (captured_event_writes_three_fields
           (Demo.payment_event "payment.captured" "order_1")
           (Demo.payment_entity "order_1" "captured")
           (PStr "pay_1") (PStr "order_1") (PStr "card")
           [] "order_1"
           (order_record "order_1" (Demo.order_request (float_lit 100))) []);
    try reflexivity.
  intros k0 r0 [].
Defined.

(** X12. Round trip through the webhook: after a [payment.captured] event
    whose payment identifier is a string no earlier record carries, looking
    that identifier up returns the captured order's record, with status
    [paid]. *)
Theorem captured_payment_can_be_looked_up
        payload ent payment_id oid method pre k r post :
  Routes.entity_of payload "payment" = Ok ent ->
  py_get ent "id" PNone = Ok (PStr payment_id) ->
  py_get ent "order_id" PNone = Ok oid ->
  py_get ent "method" PNone = Ok method ->
  (forall k0 r0, In (k0, r0) pre ->
                 names_order oid r0 = false /\
                 carries_payment payment_id r0 = false) ->
  names_order oid r = true ->
  exists r',
    response_of
      (Routes.get_payment payment_id
         (db_of (Routes.process_webhook_event (PStr "payment.captured") payload
                   (pre ++ (k, r) :: post))))
    = Ok r' /\
    record_get r' "status" = PStr "paid" /\
    forall field,
      ~ In field ["status"; "razorpay_payment_id"; "method"] ->
      dict_get r' field = dict_get r field.
Proof.
  intros Hent Hpid Hoid Hm Hpre Hr.
  rewrite (captured_hit payload ent (PStr payment_id) oid method pre k r post);
    auto; [|intros k0 r0 Hin; now apply (Hpre k0 r0)].
  exists (dict_update r (captured_fields (PStr payment_id) method)).
  rewrite get_payment_spec. unfold response_of, db_of. cbn [fst snd].
  rewrite find_first_in_app.
  - split; [reflexivity|]. split.
    + unfold record_get.
      rewrite (dict_get_update_in r "status" (PStr "paid")); auto.
      * unfold captured_fields; keys_nodup.
      * unfold captured_fields; cbn; auto.
    + intros field Hf.
      apply (dict_get_update_notin r field
               (captured_fields (PStr payment_id) method)). exact Hf.
  - intros k0 r0 Hin. now apply (Hpre k0 r0).
  - unfold carries_payment, record_get.
    rewrite (dict_get_update_in r "razorpay_payment_id" (PStr payment_id)).
    + cbn. apply String.eqb_refl.
    + unfold captured_fields; keys_nodup.
    + unfold captured_fields; cbn; auto.
Qed.

Lemma captured_payment_can_be_looked_up_witness :
  exists r',
    response_of
      (Routes.get_payment "pay_1"
         (db_of (Routes.process_webhook_event (PStr "payment.captured")
                   (Demo.payment_event "payment.captured" "order_1")
                   ([] ++ ("order_1", order_record "order_1"
                                        (Demo.order_request (float_lit 100)))
                       :: []))))
    = Ok r' /\
    record_get r' "status" = PStr "paid" /\
    forall field,
      ~ In field ["status"; "razorpay_payment_id"; "method"] ->
      dict_get r' field
      = dict_get (order_record "order_1" (Demo.order_request (float_lit 100)))
                 field.
Proof.
  apply (captured_payment_can_be_looked_up
           (Demo.payment_event "payment.captured" "order_1")
           (Demo.payment_entity "order_1" "captured")
           "pay_1" (PStr "order_1") (PStr "card")
           [] "order_1"
           (order_record "order_1" (Demo.order_request (float_lit 100))) []);
    try reflexivity.
  intros k0 r0 [].
Defined.

(** X13. A [refund.created] event for a stored payment records the refund's
    identifier, its amount divided by 100 and the refund status [created] on
    the first record carrying the payment identifier, and nothing else: the
    payment's own status and all its other fields stay as they were (only the
    refund endpoint sets [refunded]). *)
Theorem refund_created_event_keeps_status
        payload ent pid rid amount refund_amount pre k r post :
  Routes.entity_of payload "refund" = Ok ent ->
  py_get ent "payment_id" PNone = Ok pid ->
  py_get ent "id" PNone = Ok rid ->
  py_get ent "amount" (PInt 0) = Ok amount ->
  py_truediv_100 amount = Ok refund_amount ->
  (forall k0 r0, In (k0, r0) pre -> has_payment_id pid r0 = false) ->
  has_payment_id pid r = true ->
  exists r',
    Routes.process_webhook_event (PStr "refund.created") payload
      (pre ++ (k, r) :: post)
    = (Ok tt, pre ++ (k, r') :: post,
       [Print (Processed (PStr "refund.created"))]) /\
    record_get r' "refund_id" = rid /\
    record_get r' "refund_amount" = PFloat refund_amount /\
    record_get r' "refund_status" = PStr "created" /\
    forall field,
      ~ In field ["refund_id"; "refund_amount"; "refund_status"] ->
      dict_get r' field = dict_get r field.
Proof.
  intros Hent Hpid Hrid Hamt Hdiv Hpre Hr.
  rewrite (refund_created_hit payload ent pid rid amount pre k r post); auto.
  rewrite Hdiv.
  exists (dict_update r (refund_created_fields rid refund_amount)).
  split; [reflexivity|].
  unfold record_get.
  rewrite (dict_get_update_in r "refund_id" rid);
    [|unfold refund_created_fields; keys_nodup
     |unfold refund_created_fields; cbn; auto].
  rewrite (dict_get_update_in r "refund_amount" (PFloat refund_amount));
    [|unfold refund_created_fields; keys_nodup
     |unfold refund_created_fields; cbn; auto].
  rewrite (dict_get_update_in r "refund_status" (PStr "created"));
    [|unfold refund_created_fields; keys_nodup
     |unfold refund_created_fields; cbn; auto].
  repeat split.
  intros field Hf.
  apply (dict_get_update_notin r field
           (refund_created_fields rid refund_amount)). exact Hf.
Qed.

Lemma refund_created_event_keeps_status_witness :
  exists r',
    Routes.process_webhook_event (PStr "refund.created")
      (Demo.refund_event [("id", PStr "rfnd_1");
                          ("payment_id", PStr "pay_1");
                          ("amount", PInt 2500)])
      ([] ++ ("order_1",
              dict_update (order_record "order_1"
                             (Demo.order_request (float_lit 100)))
                          (verified_fields "order_1" "pay_1" "good")) :: [])
    = (Ok tt, [] ++ ("order_1", r') :: [],
       [Print (Processed (PStr "refund.created"))]) /\
    record_get r' "refund_id" = PStr "rfnd_1" /\
    record_get r' "refund_amount" = PFloat (float_lit 25) /\
    record_get r' "refund_status" = PStr "created" /\
    forall field,
      ~ In field ["refund_id"; "refund_amount"; "refund_status"] ->
      dict_get r' field
      = dict_get (dict_update (order_record "order_1"
                                 (Demo.order_request (float_lit 100)))
                              (verified_fields "order_1" "pay_1" "good"))
                 field.
Proof.
  apply (refund_created_event_keeps_status
           (Demo.refund_event [("id", PStr "rfnd_1");
                               ("payment_id", PStr "pay_1");
                               ("amount", PInt 2500)])
           (PDict [("id", PStr "rfnd_1");
                   ("payment_id", PStr "pay_1");
                   ("amount", PInt 2500)])
           (PStr "pay_1") (PStr "rfnd_1") (PInt 2500) (float_lit 25)
           [] "order_1"
           (dict_update (order_record "order_1"
                           (Demo.order_request (float_lit 100)))
                        (verified_fields "order_1" "pay_1" "good")) []);
    try reflexivity.
  intros k0 r0 [].
Defined.



(** X15. A [refund.created] event that carries no payment identifier is
    booked on the first record that has no payment identifier either (the
    comparison is [None == None]): an order that was never paid receives the
    refund fields. *)
Theorem refund_created_without_payment_id_hits_unpaid_order
        payload entity rid amount refund_amount
        (pre : payments_db) k (r : record) (post : payments_db) :
  Routes.entity_of payload "refund" = Ok (PDict entity) ->
  dict_get entity "payment_id" = None ->
  py_get (PDict entity) "id" PNone = Ok rid ->
  py_get (PDict entity) "amount" (PInt 0) = Ok amount ->
  py_truediv_100 amount = Ok refund_amount ->
  (forall k0 r0, In (k0, r0) pre ->
                 has_payment_id PNone r0 = false) ->
  dict_get r "razorpay_payment_id" = None ->
  Routes.process_webhook_event (PStr "refund.created") payload
    (pre ++ (k, r) :: post)
  = (Ok tt,
     pre ++ (k, dict_update r (refund_created_fields rid refund_amount)) :: post,
     [Print (Processed (PStr "refund.created"))]).
Proof.
  intros Hent Hnone Hrid Hamt Hdiv Hpre Hr.
  rewrite (refund_created_hit payload (PDict entity) PNone rid amount
             pre k r post); auto.
  - now rewrite Hdiv.
  - cbn. now rewrite Hnone.
  - unfold has_payment_id, record_get. now rewrite Hr.
Qed.

Lemma refund_created_without_payment_id_witness :
  Routes.process_webhook_event (PStr "refund.created")
    (Demo.refund_event [("id", PStr "rfnd_1"); ("amount", PInt 2500)])
    ([] ++ ("order_1", order_record "order_1"
                         (Demo.order_request (float_lit 100))) :: [])
  = (Ok tt,
     [] ++ ("order_1",
            dict_update (order_record "order_1"
                           (Demo.order_request (float_lit 100)))
                        (refund_created_fields (PStr "rfnd_1") (float_lit 25)))
        :: [],
     [Print (Processed (PStr "refund.created"))]).
Proof.
  apply (refund_created_without_payment_id_hits_unpaid_order
           (Demo.refund_event [("id", PStr "rfnd_1"); ("amount", PInt 2500)])
           [("id", PStr "rfnd_1"); ("amount", PInt 2500)]
           (PStr "rfnd_1") (PInt 2500) (float_lit 25)
           [] "order_1"
           (order_record "order_1" (Demo.order_request (float_lit 100))) []);
    try reflexivity.
  intros k0 r0 [].
Defined.

(** X16. A [refund.created] event without an amount is recorded with the
    refund amount 0.0 (the default of the lookup is 0). *)
Theorem refund_created_without_amount_records_zero
        payload entity pid rid
        (pre : payments_db) k (r : record) (post : payments_db) :
  Routes.entity_of payload "refund" = Ok (PDict entity) ->
  dict_get entity "amount" = None ->
  py_get (PDict entity) "payment_id" PNone = Ok pid ->
  py_get (PDict entity) "id" PNone = Ok rid ->
  (forall k0 r0, In (k0, r0) pre -> has_payment_id pid r0 = false) ->
  has_payment_id pid r = true ->
  Routes.process_webhook_event (PStr "refund.created") payload
    (pre ++ (k, r) :: post)
  = (Ok tt,
     pre ++ (k, dict_update r (refund_created_fields rid (S754_zero false)))
         :: post,
     [Print (Processed (PStr "refund.created"))]).
Proof.
  intros Hent Hnone Hpid Hrid Hpre Hr.
  rewrite (refund_created_hit payload (PDict entity) pid rid (PInt 0)
             pre k r post); auto.
  cbn. now rewrite Hnone.
Qed.

Lemma refund_created_without_amount_witness :
  Routes.process_webhook_event (PStr "refund.created")
    (Demo.refund_event [("id", PStr "rfnd_1"); ("payment_id", PStr "pay_1")])
    ([] ++ ("order_1",
            dict_update (order_record "order_1"
                           (Demo.order_request (float_lit 100)))
                        (verified_fields "order_1" "pay_1" "good")) :: [])
  = (Ok tt,
     [] ++ ("order_1",
            dict_update
              (dict_update (order_record "order_1"
                              (Demo.order_request (float_lit 100)))
                           (verified_fields "order_1" "pay_1" "good"))
              (refund_created_fields (PStr "rfnd_1") (S754_zero false)))
        :: [],
     [Print (Processed (PStr "refund.created"))]).
Proof.
  apply (refund_created_without_amount_records_zero
           (Demo.refund_event [("id", PStr "rfnd_1");
                               ("payment_id", PStr "pay_1")])
           [("id", PStr "rfnd_1"); ("payment_id", PStr "pay_1")]
           (PStr "pay_1") (PStr "rfnd_1")
           [] "order_1"
           (dict_update (order_record "order_1"
                           (Demo.order_request (float_lit 100)))
                        (verified_fields "order_1" "pay_1" "good")) []);
    try reflexivity.
  intros k0 r0 [].
Defined.

(* ================================================================== *)
(** * Further properties: refunds *)
(* ================================================================== *)

Lemma scan_update_total p upd db :
  (forall r, exists r', upd r = Ok r') ->
  exists db', scan_update p upd db = Ok db'.
Proof.
  intros Hupd. induction db as [|[k r] db [rest IH]]; cbn; [eauto|].
  destruct (p r).
  - destruct (Hupd r) as [r' ->]. eauto.
  - rewrite IH. eauto.
Qed.

Lemma service_create_refund_spec env payment_id amount notes db :
  Service.create_refund env payment_id amount notes db =
  match refund_call_data amount notes with
  | Ok data =>
      (payment_refund (client env) payment_id data, db,
       [SdkPaymentRefund payment_id data])
  | Raise e => (Raise e, db, [])
  end.
Proof.
  unfold Service.create_refund, refund_call_data. unfold_monad.
  destruct amount as [a|];
    [destruct (float_truthy a); [destruct (Service.to_paise a)|]|];
    reflexivity.
Qed.

(** The ways [create_refund] can go. *)
Lemma create_refund_spec env refund_data db :
  Routes.create_refund env refund_data db =
  match refund_call_data (rc_amount refund_data) (rc_notes refund_data) with
  | Raise e =>
      (Raise (HTTPException 400 (DetailOf "Refund failed: " e)), db, [])
  | Ok data =>
      match payment_refund (client env) (rc_payment_id refund_data) data with
      | Raise e =>
          (Raise (HTTPException 400 (DetailOf "Refund failed: " e)), db,
           [SdkPaymentRefund (rc_payment_id refund_data) data])
      | Ok refund =>
          match int_truediv (refund_entity_amount refund) 100 with
          | Raise e =>
              (Raise (HTTPException 400 (DetailOf "Refund failed: " e)), db,
               [SdkPaymentRefund (rc_payment_id refund_data) data])
          | Ok amount =>
              (Ok (refund_response refund_data refund amount),
               scan_db (carries_payment (rc_payment_id refund_data))
                       (fun r => Ok (dict_update r (refund_fields refund amount)))
                       db,
               [SdkPaymentRefund (rc_payment_id refund_data) data])
          end
      end
  end.
Proof.
  unfold Routes.create_refund, Routes.HTTP_400_BAD_REQUEST.
  unfold try_except, bind. rewrite service_create_refund_spec.
  destruct (refund_call_data (rc_amount refund_data) (rc_notes refund_data))
    as [data|e]; [|reflexivity].
  destruct (payment_refund (client env) (rc_payment_id refund_data) data)
    as [refund|e]; [|reflexivity].
  unfold for_first_match, lift, ret, raise.
  destruct (int_truediv (refund_entity_amount refund) 100) as [amount|e].
  - unfold bind_res, scan_db, carries_payment, refund_fields, refund_response.
    match goal with
    | |- context [scan_update ?p ?upd db] =>
        destruct (scan_update_total p upd db) as [db' Hs];
        [intros r; eexists; reflexivity|rewrite Hs]
    end.
    reflexivity.
  - match goal with
    | |- context [scan_update ?p ?upd db] =>
        destruct (scan_update_raising p upd e db) as [Hs|Hs];
        [intros r; reflexivity | rewrite Hs | rewrite Hs]
    end; reflexivity.
Qed.

(** X17. A refund for a payment the ledger does not know is still made at the
    processor and answered with success, and leaves no trace: the ledger is
    unchanged. *)
Theorem refund_of_unknown_payment_records_nothing
        env refund_data db data refund amount :
  refund_call_data (rc_amount refund_data) (rc_notes refund_data) = Ok data ->
  payment_refund (client env) (rc_payment_id refund_data) data = Ok refund ->
  int_truediv (refund_entity_amount refund) 100 = Ok amount ->
  fresh_payment (rc_payment_id refund_data) db ->
  Routes.create_refund env refund_data db
  = (Ok (refund_response refund_data refund amount), db,
     [SdkPaymentRefund (rc_payment_id refund_data) data]).
Proof.
  intros Hdata Hcall Hdiv Hfresh.
  rewrite create_refund_spec, Hdata, Hcall, Hdiv.
  unfold scan_db. rewrite scan_update_no_match; [reflexivity|exact Hfresh].
Qed.

Lemma refund_of_unknown_payment_witness :
  Routes.create_refund Demo.env_granting Demo.refund_request Demo.db_created
  = (Ok (refund_response Demo.refund_request
           {| refund_entity_id := "rfnd_1";
              refund_entity_amount := 50000;
              refund_entity_status := "processed";
              refund_entity_speed := None;
              refund_entity_created_at := 1700000000 |}
           (float_lit 500)),
     Demo.db_created,
     [SdkPaymentRefund (rc_payment_id Demo.refund_request)
                       [("amount", PInt 50000)]]).
Proof.
  apply (refund_of_unknown_payment_records_nothing
           Demo.env_granting Demo.refund_request Demo.db_created
           [("amount", PInt 50000)]); try reflexivity.
  intros k r Hin. vm_compute in Hin.
  destruct Hin as [Hin|[]]. inversion Hin. reflexivity.
Defined.

(** X18. A refund request without an amount, or with the amount zero, is sent
    to the processor without an [amount]: it asks for a full refund. *)
Theorem refund_without_amount_is_a_full_refund env refund_data db :
  rc_amount refund_data = None
  \/ (exists s, rc_amount refund_data = Some (S754_zero s)) ->
  exists data,
    effects_of (Routes.create_refund env refund_data db)
      = [SdkPaymentRefund (rc_payment_id refund_data) data] /\
    dict_get data "amount" = None.
Proof.
  intros H. rewrite create_refund_spec.
  assert (Hd : exists data,
             refund_call_data (rc_amount refund_data) (rc_notes refund_data)
               = Ok data /\ dict_get data "amount" = None).
  { unfold refund_call_data.
    destruct H as [->|[s ->]]; cbn;
      (destruct (rc_notes refund_data) as [d|];
       [destruct (dict_truthy d)|]; eexists; split; reflexivity). }
  destruct Hd as (data & -> & Hnone).
  exists data. split; [|exact Hnone].
  destruct (payment_refund (client env) (rc_payment_id refund_data) data)
    as [refund|e]; [|reflexivity].
  destruct (int_truediv (refund_entity_amount refund) 100); reflexivity.
Qed.

Lemma refund_without_amount_witness :
  exists data,
    effects_of (Routes.create_refund Demo.env_granting
                  (Demo.refund_request_of (Some (S754_zero false)))
                  Demo.db_paid)
      = [SdkPaymentRefund
           (rc_payment_id (Demo.refund_request_of (Some (S754_zero false))))
           data] /\
    dict_get data "amount" = None.
Proof.
  apply (refund_without_amount_is_a_full_refund
           Demo.env_granting (Demo.refund_request_of (Some (S754_zero false)))
           Demo.db_paid).
  right. exists false. reflexivity.
Defined.

Lemma carries_payment_refunded payment_id (r : record) refund amount :
  carries_payment payment_id (dict_update r (refund_fields refund amount))
  = carries_payment payment_id r.
Proof.
  unfold carries_payment.
  now rewrite record_get_update_notin by (unfold refund_fields; key_notin).
Qed.

(** X19. Round trip through a refund: once the processor has granted a refund
    for a payment the ledger knows, looking the payment up returns its record
    with the status [refunded], the refund's identifier and status and the
    granted amount divided by 100; the record still carries the payment
    identifier and all fields the refund does not write. *)
Theorem refunded_payment_can_be_looked_up
        env refund_data data refund amount
        (pre : payments_db) k (r : record) (post : payments_db) :
  refund_call_data (rc_amount refund_data) (rc_notes refund_data) = Ok data ->
  payment_refund (client env) (rc_payment_id refund_data) data = Ok refund ->
  int_truediv (refund_entity_amount refund) 100 = Ok amount ->
  (forall k0 r0, In (k0, r0) pre ->
                 carries_payment (rc_payment_id refund_data) r0 = false) ->
  carries_payment (rc_payment_id refund_data) r = true ->
  exists r',
    response_of
      (Routes.get_payment (rc_payment_id refund_data)
         (db_of (Routes.create_refund env refund_data (pre ++ (k, r) :: post))))
    = Ok r' /\
    record_get r' "status" = PStr "refunded" /\
    record_get r' "refund_id" = PStr (refund_entity_id refund) /\
    record_get r' "refund_amount" = PFloat amount /\
    record_get r' "refund_status" = PStr (refund_entity_status refund) /\
    forall field,
      ~ In field ["refund_id"; "refund_amount"; "refund_status"; "status"] ->
      dict_get r' field = dict_get r field.
Proof.
  intros Hdata Hcall Hdiv Hpre Hr.
  rewrite create_refund_spec, Hdata, Hcall, Hdiv.
  unfold db_of, scan_db. cbn [fst snd].
  rewrite (scan_update_first_match _ _ pre k r post
             (dict_update r (refund_fields refund amount)));
    [ | exact Hpre | exact Hr | reflexivity ].
  exists (dict_update r (refund_fields refund amount)).
  rewrite get_payment_spec. unfold response_of. cbn [fst].
  rewrite find_first_in_app;
    [ | exact Hpre | now rewrite carries_payment_refunded ].
  split; [reflexivity|].
  unfold record_get.
  rewrite (dict_get_update_in r "status" (PStr "refunded"));
    [|unfold refund_fields; keys_nodup|unfold refund_fields; cbn; auto].
  rewrite (dict_get_update_in r "refund_id" (PStr (refund_entity_id refund)));
    [|unfold refund_fields; keys_nodup|unfold refund_fields; cbn; auto].
  rewrite (dict_get_update_in r "refund_amount" (PFloat amount));
    [|unfold refund_fields; keys_nodup|unfold refund_fields; cbn; auto].
  rewrite (dict_get_update_in r "refund_status"
             (PStr (refund_entity_status refund)));
    [|unfold refund_fields; keys_nodup|unfold refund_fields; cbn; auto 6].
  repeat split.
  intros field Hf.
  apply (dict_get_update_notin r field (refund_fields refund amount)).
  exact Hf.
Qed.

Lemma refunded_payment_can_be_looked_up_witness :
  exists r',
    response_of
      (Routes.get_payment (rc_payment_id Demo.refund_request)
         (db_of (Routes.create_refund Demo.env_granting Demo.refund_request
                   ([] ++ ("order_1",
                           dict_update
                             (order_record "order_1"
                                (Demo.order_request (float_lit 100)))
                             (verified_fields "order_1" "pay_1" "good"))
                       :: []))))
    = Ok r' /\
    record_get r' "status" = PStr "refunded" /\
    record_get r' "refund_id" = PStr "rfnd_1" /\
    record_get r' "refund_amount" = PFloat (float_lit 500) /\
    record_get r' "refund_status" = PStr "processed" /\
    forall field,
      ~ In field ["refund_id"; "refund_amount"; "refund_status"; "status"] ->
      dict_get r' field
      = dict_get (dict_update
                    (order_record "order_1" (Demo.order_request (float_lit 100)))
                    (verified_fields "order_1" "pay_1" "good"))
                 field.
Proof.
  apply (refunded_payment_can_be_looked_up
           Demo.env_granting Demo.refund_request [("amount", PInt 50000)]
           {| refund_entity_id := "rfnd_1";
              refund_entity_amount := 50000;
              refund_entity_status := "processed";
              refund_entity_speed := None;
              refund_entity_created_at := 1700000000 |}
           (float_lit 500)
           [] "order_1"
           (dict_update
              (order_record "order_1" (Demo.order_request (float_lit 100)))
              (verified_fields "order_1" "pay_1" "good")) []);
    try reflexivity.
  intros k0 r0 [].
Defined.

(** X20. A refund request whose amount is NaN or infinite is rejected with
    status 400 before the processor is contacted; the ledger is unchanged. *)
Theorem refund_rejects_non_finite_amount env refund_data db :
  rc_amount refund_data = Some S754_nan
  \/ (exists s, rc_amount refund_data = Some (S754_infinity s)) ->
  exists cause,
    Routes.create_refund env refund_data db
    = (Raise (HTTPException 400 (DetailOf "Refund failed: " cause)), db, []).
Proof.
  intros H. rewrite create_refund_spec. unfold refund_call_data.
  destruct H as [->|[s ->]].
  - exists ValueError. reflexivity.
  - exists OverflowError. destruct s; reflexivity.
Qed.

Lemma refund_rejects_non_finite_amount_witness :
  exists cause,
    Routes.create_refund Demo.env_granting
      (Demo.refund_request_of (Some S754_nan)) Demo.db_paid
    = (Raise (HTTPException 400 (DetailOf "Refund failed: " cause)),
       Demo.db_paid, []).
Proof.
  apply (refund_rejects_non_finite_amount
           Demo.env_granting (Demo.refund_request_of (Some S754_nan))
           Demo.db_paid).
  left. reflexivity.
Defined.

(* ================================================================== *)
(** * Further properties: the webhook endpoint *)
(* ================================================================== *)

(** X21. A webhook without the signature header, or with an empty one, is
    rejected with status 400 "Missing signature" before anything else
    happens: the body is not read, no verification is attempted and the
    ledger is unchanged. *)
Theorem webhook_without_signature_is_rejected_first env request db :
  x_razorpay_signature request = None
  \/ x_razorpay_signature request = Some EmptyString ->
  Routes.serve_webhook env request db
  = (Raise (HTTPException 400
              (DetailOf "Webhook processing failed: "
                 (HTTPException 400 (Detail "Missing signature")))),
     db, []).
Proof.
  intros H. unfold Routes.serve_webhook, Routes.razorpay_webhook.
  unfold_monad. destruct H as [-> | ->]; reflexivity.
Qed.

Lemma webhook_without_signature_witness :
  Routes.serve_webhook Demo.env Demo.webhook_request_unsigned Demo.db_created
  = (Raise (HTTPException 400
              (DetailOf "Webhook processing failed: "
                 (HTTPException 400 (Detail "Missing signature")))),
     Demo.db_created, []).
Proof.
  apply (webhook_without_signature_is_rejected_first
           Demo.env Demo.webhook_request_unsigned Demo.db_created).
  left. reflexivity.
Defined.

(** X22. A webhook with a valid signature whose body does not parse, or
    parses to something that is not a JSON object, is rejected with status
    400 after the parse attempt: no task is registered and the ledger is
    unchanged. *)
Theorem verified_webhook_with_bad_body_is_rejected env request db s :
  x_razorpay_signature request = Some s ->
  s <> EmptyString ->
  response_of (Service.verify_webhook_signature env (request_body request) s db)
    = Ok true ->
  (exists e, json_loads env (request_body request) = Raise e)
  \/ (exists payload,
         json_loads env (request_body request) = Ok payload /\
         forall d, payload <> PDict d) ->
  exists cause verify_call,
    Routes.serve_webhook env request db
    = (Raise (HTTPException 400
                (DetailOf "Webhook processing failed: " cause)),
       db, [RequestBody; verify_call; RequestJson]).
Proof.
  intros Hsig Hne Hver Hbody.
  apply service_verify_webhook_true in Hver as (decoded & Hdec & Hok).
  unfold Routes.serve_webhook, Routes.razorpay_webhook,
    Service.verify_webhook_signature.
  unfold_monad. rewrite Hsig. cbn.
  destruct (String.eqb s EmptyString) eqn:E;
    [apply String.eqb_eq in E; contradiction|].
  cbn. rewrite Hdec. cbn. rewrite Hok. cbn.
  destruct Hbody as [[e He]|(payload & Hp & Hnd)].
  - rewrite He. cbn. eauto.
  - rewrite Hp. cbn.
    destruct payload; try (cbn; eauto).
    exfalso. now apply (Hnd d).
Qed.

Lemma verified_webhook_with_bad_body_witness :
  exists cause verify_call,
    Routes.serve_webhook Demo.env_parsing_array (Demo.webhook_request "good")
      Demo.db_created
    = (Raise (HTTPException 400
                (DetailOf "Webhook processing failed: " cause)),
       Demo.db_created, [RequestBody; verify_call; RequestJson]).
Proof.
  apply (verified_webhook_with_bad_body_is_rejected
           Demo.env_parsing_array (Demo.webhook_request "good")
           Demo.db_created "good").
  - reflexivity.
  - discriminate.
  - reflexivity.
  - right. eexists. split; [reflexivity|]. discriminate.
Defined.

(** X23. The acknowledgement does not depend on how processing goes: a
    webhook with a valid signature whose body parses to an object is always
    answered with the acknowledgement, exactly one task is registered and run,
    and it prints one line; when that line is the error line (a payload the
    dispatcher could not read) the ledger is unchanged. *)
Theorem verified_webhook_is_acknowledged env request db s payload event :
  x_razorpay_signature request = Some s ->
  s <> EmptyString ->
  response_of (Service.verify_webhook_signature env (request_body request) s db)
    = Ok true ->
  json_loads env (request_body request) = Ok payload ->
  py_get payload "event" PNone = Ok event ->
  response_of (Routes.serve_webhook env request db) = Ok webhook_ack /\
  exists verify_call line,
    effects_of (Routes.serve_webhook env request db)
    = [RequestBody; verify_call; RequestJson; AddTask event payload;
       Print line] /\
    (line = Processed event
     \/ exists e,
         line = ErrorProcessing e /\
         db_of (Routes.serve_webhook env request db) = db).
Proof.
  intros Hsig Hne Hver Hjson Hev.
  apply service_verify_webhook_true in Hver as (decoded & Hdec & Hok).
  destruct (process_webhook_event_outcome event payload db)
    as (db' & line & Hrun & Hline).
  assert (Hhandler :
            Routes.razorpay_webhook env request db
            = (Ok webhook_ack, db,
               [RequestBody;
                SdkVerifyWebhookSignature decoded s
                  (webhook_secret (settings env));
                RequestJson; AddTask event payload])).
  { unfold Routes.razorpay_webhook, Service.verify_webhook_signature.
    unfold_monad. rewrite Hsig. cbn.
    destruct (String.eqb s EmptyString) eqn:E;
      [apply String.eqb_eq in E; contradiction|].
    cbn. rewrite Hdec. cbn. rewrite Hok. cbn. rewrite Hjson. cbn.
    rewrite Hev. reflexivity. }
  unfold Routes.serve_webhook. rewrite Hhandler.
  cbn -[Routes.process_webhook_event]. unfold bind. rewrite Hrun.
  cbn. split; [reflexivity|].
  do 2 eexists. split; [reflexivity|exact Hline].
Qed.

Lemma verified_webhook_is_acknowledged_witness :
  response_of (Routes.serve_webhook (Demo.env_parsing Demo.malformed_event)
                 (Demo.webhook_request "good") Demo.db_created)
    = Ok webhook_ack /\
  exists verify_call line,
    effects_of (Routes.serve_webhook (Demo.env_parsing Demo.malformed_event)
                  (Demo.webhook_request "good") Demo.db_created)
    = [RequestBody; verify_call; RequestJson;
       AddTask (PStr "payment.captured") Demo.malformed_event;
       Print line] /\
    (line = Processed (PStr "payment.captured")
     \/ exists e,
         line = ErrorProcessing e /\
         db_of (Routes.serve_webhook (Demo.env_parsing Demo.malformed_event)
                  (Demo.webhook_request "good") Demo.db_created)
         = Demo.db_created).
Proof.
  apply (verified_webhook_is_acknowledged
           (Demo.env_parsing Demo.malformed_event)
           (Demo.webhook_request "good") Demo.db_created "good"
           Demo.malformed_event (PStr "payment.captured")).
  - reflexivity.
  - discriminate.
  - reflexivity.
  - reflexivity.
  - reflexivity.
Defined.

(* ================================================================== *)
(** * Further properties: what any request can do to the store *)
(* ================================================================== *)

Lemma dict_set_split {V} (d : dict V) k v old :
  dict_get d k = Some old ->
  exists pre post,
    d = pre ++ (k, old) :: post /\
    dict_set d k v = pre ++ (k, v) :: post.
Proof.
  induction d as [|[k0 v0] d IH]; cbn; [discriminate|].
  destruct (String.eqb k0 k) eqn:E; intros H.
  - apply String.eqb_eq in E. subst k0. inversion H; subst.
    exists [], d. split; reflexivity.
  - destruct (IH H) as (pre & post & -> & Hs).
    exists ((k0, v0) :: pre), post. cbn. rewrite Hs. split; reflexivity.
Qed.

Lemma scan_update_shape p upd db db' :
  scan_update p upd db = Ok db' ->
  db' = db
  \/ exists pre k r post r',
      db = pre ++ (k, r) :: post /\
      db' = pre ++ (k, r') :: post /\
      p r = true /\ upd r = Ok r'.
Proof.
  revert db'. induction db as [|[k r] db IH]; intros db' H; cbn in H.
  - inversion H. now left.
  - destruct (p r) eqn:Hp.
    + destruct (upd r) as [r'|e] eqn:Hu; inversion H; subst.
      right. exists [], k, r, db, r'. repeat split; auto.
    + destruct (scan_update p upd db) as [rest|e]; inversion H; subst.
      destruct (IH rest eq_refl) as [->|(pre & k1 & r1 & post & r' & -> & -> & H1 & H2)].
      * now left.
      * right. exists ((k, r) :: pre), k1, r1, post, r'. repeat split; auto.
Qed.

(** A scan whose updates write only writable fields, and only statuses the
    code writes, leaves the store alone or touches one record. *)
Lemma scan_db_touched p upd db :
  (forall r r', upd r = Ok r' ->
                exists other,
                  r' = dict_update r other /\
                  (forall key, In key (dict_keys other) -> In key writable) /\
                  (forall v, In ("status", v) other -> written_status v)) ->
  scan_db p upd db = db \/ touched db (scan_db p upd db).
Proof.
  intros Hupd. unfold scan_db.
  destruct (scan_update p upd db) as [db'|e] eqn:Hs; [|now left].
  destruct (scan_update_shape _ _ _ _ Hs)
    as [->|(pre & k & r & post & r' & -> & -> & Hp & Hu)]; [now left|].
  right. destruct (Hupd r r' Hu) as (other & -> & Hk & Hst).
  exists pre, k, r, post, other. auto.
Qed.

Lemma process_webhook_event_touched event payload db :
  db_of (Routes.process_webhook_event event payload db) = db
  \/ touched db (db_of (Routes.process_webhook_event event payload db)).
Proof.
  unfold Routes.process_webhook_event.
  destruct (py_eq event (PStr "payment.captured")) eqn:Ecap.
  { destruct (Routes.entity_of payload "payment") as [ent|e] eqn:Eent;
      [|left; run_handler; reflexivity].
    destruct (py_get ent "id" PNone) as [pid|e] eqn:Epid;
      [|left; run_handler; reflexivity].
    destruct (py_get ent "order_id" PNone) as [oid|e] eqn:Eoid;
      [|left; run_handler; reflexivity].
    run_handler.
    match goal with
    | |- context [scan_update ?p ?upd db] =>
        assert (Hs : scan_db p upd db = db \/ touched db (scan_db p upd db));
        [|unfold scan_db in Hs; destruct (scan_update p upd db); exact Hs]
    end.
    apply scan_db_touched. intros r r' Hu. cbv beta in Hu.
    unfold bind_res in Hu.
    destruct (py_get ent "method" PNone) as [m|e]; [|discriminate].
    apply Ok_inj in Hu. subst r'.
    eexists. split; [reflexivity|]. split; [writable_keys|status_written]. }
  destruct (py_eq event (PStr "payment.failed")) eqn:Efail.
  { destruct (Routes.entity_of payload "payment") as [ent|e] eqn:Eent;
      [|left; run_handler; reflexivity].
    destruct (py_get ent "order_id" PNone) as [oid|e] eqn:Eoid;
      [|left; run_handler; reflexivity].
    run_handler.
    match goal with
    | |- context [scan_update ?p ?upd db] =>
        assert (Hs : scan_db p upd db = db \/ touched db (scan_db p upd db));
        [|unfold scan_db in Hs; destruct (scan_update p upd db); exact Hs]
    end.
    apply scan_db_touched. intros r r' Hu. apply Ok_inj in Hu. subst r'.
    exists [("status", PStr "failed")].
    split; [reflexivity|]. split; [writable_keys|status_written]. }
  destruct (py_eq event (PStr "refund.created")) eqn:Eref.
  { destruct (Routes.entity_of payload "refund") as [ent|e] eqn:Eent;
      [|left; run_handler; reflexivity].
    destruct (py_get ent "payment_id" PNone) as [pid|e] eqn:Epid;
      [|left; run_handler; reflexivity].
    run_handler.
    match goal with
    | |- context [scan_update ?p ?upd db] =>
        assert (Hs : scan_db p upd db = db \/ touched db (scan_db p upd db));
        [|unfold scan_db in Hs; destruct (scan_update p upd db); exact Hs]
    end.
    apply scan_db_touched. intros r r' Hu. cbv beta in Hu.
    unfold bind_res in Hu.
    destruct (py_get ent "id" PNone) as [rid|e]; [|discriminate].
    destruct (py_get ent "amount" (PInt 0)) as [amt|e]; [|discriminate].
    destruct (py_truediv_100 amt) as [ra|e]; [|discriminate].
    apply Ok_inj in Hu. subst r'.
    eexists. split; [reflexivity|]. split; [writable_keys|status_written]. }
  left. reflexivity.
Qed.

(** What one request can do to the store: nothing, file a fresh record under
    the identifier the processor issued (create-order only), or update
    writable fields of one record. *)
Lemma step_shape env o db :
  step env o db = db
  \/ (exists payment_data k,
         o = CreateOrder payment_data /\
         step env o db = dict_set db k (order_record k payment_data))
  \/ ((forall payment_data, o <> CreateOrder payment_data) /\
      touched db (step env o db)).
Proof.
  destruct o as [pd|oid pid sig|request|rd|pid|]; cbn [step].
  - rewrite create_order_spec.
    destruct (Service.to_paise (pc_amount pd)) as [paise|e]; [|now left].
    destruct (order_create (client env) (order_data paise pd)) as [order|e];
      [|now left].
    right. left. exists pd, (order_entity_id order). auto.
  - rewrite verify_payment_db.
    destruct (utility_verify_payment_signature (client env) oid pid sig)
      as [[]|e]; [|now left].
    destruct (dict_get db oid) as [data|] eqn:Hin; [|now left].
    right. right. split; [discriminate|].
    destruct (dict_set_split db oid
                (dict_update data (verified_fields oid pid sig)) data Hin)
      as (pre & post & Hdb & Hset).
    exists pre, oid, data, post, (verified_fields oid pid sig).
    split; [exact Hdb|]. split; [exact Hset|].
    split; [unfold verified_fields; writable_keys
           |unfold verified_fields; status_written].
  - destruct (serve_webhook_db env request db)
      as [Heq|(event & payload & _ & Heq)]; rewrite Heq; [now left|].
    destruct (process_webhook_event_touched event payload db) as [H|H].
    + left. exact H.
    + right. right. split; [discriminate|exact H].
  - rewrite create_refund_spec.
    destruct (refund_call_data (rc_amount rd) (rc_notes rd)) as [data|e];
      [|now left].
    destruct (payment_refund (client env) (rc_payment_id rd) data)
      as [refund|e]; [|now left].
    destruct (int_truediv (refund_entity_amount refund) 100) as [amount|e];
      [|now left].
    unfold db_of. cbn [fst snd].
    match goal with
    | |- context [scan_db ?p ?upd db] =>
        destruct (scan_db_touched p upd db) as [H|H]
    end.
    + intros r r' Hu. apply Ok_inj in Hu. subst r'.
      eexists. split; [reflexivity|].
      split; [unfold refund_fields; writable_keys
             |unfold refund_fields; status_written].
    + left. exact H.
    + right. right. split; [discriminate|exact H].
  - left. now rewrite get_payment_spec.
  - left. reflexivity.
Qed.

Lemma touched_keys db db' : touched db db' -> dict_keys db' = dict_keys db.
Proof.
  intros (pre & k & r & post & other & -> & -> & _).
  unfold dict_keys. rewrite !map_app. reflexivity.
Qed.

Lemma touched_column field db db' :
  touched db db' -> ~ In field writable -> column field db' = column field db.
Proof.
  intros (pre & k & r & post & other & -> & -> & Hk & _) Hf.
  unfold column. rewrite !map_app. cbn.
  rewrite dict_get_update_notin; [reflexivity|].
  intros Hin. apply Hf. now apply Hk.
Qed.

Lemma dict_get_update_cases {V} (r : dict V) (other : dict V) k v :
  dict_get (dict_update r other) k = Some v ->
  In (k, v) other \/ dict_get r k = Some v.
Proof.
  unfold dict_update. revert r.
  induction other as [|[k0 v0] other IH]; intros r H; cbn in *; [now right|].
  destruct (IH _ H) as [Hin|Hget]; [left; now right|].
  destruct (String.eqb k0 k) eqn:E.
  - apply String.eqb_eq in E. subst k0.
    rewrite dict_get_set_same in Hget. inversion Hget. left. now left.
  - right. rewrite dict_get_set_other in Hget; [exact Hget|].
    intros ->. now rewrite String.eqb_refl in E.
Qed.

Lemma dict_get_update_present {V} (r : dict V) (other : dict V) k v0 :
  dict_get r k = Some v0 -> exists v, dict_get (dict_update r other) k = Some v.
Proof.
  unfold dict_update. revert r v0.
  induction other as [|[k1 v1] other IH]; intros r v0 H; cbn; [eauto|].
  destruct (String.eqb k1 k) eqn:E.
  - apply String.eqb_eq in E. subst k1.
    apply (IH _ v1). apply dict_get_set_same.
  - apply (IH _ v0). rewrite dict_get_set_other; [exact H|].
    intros ->. now rewrite String.eqb_refl in E.
Qed.

Lemma well_formed_touched db db' :
  well_formed db -> touched db db' -> well_formed db'.
Proof.
  intros [Hnd Hrec] Ht. split.
  - rewrite (touched_keys _ _ Ht). exact Hnd.
  - destruct Ht as (pre & k & r & post & other & -> & -> & Hk & Hst).
    intros k' r' Hin.
    apply in_app_or in Hin as [Hin|[Hin|Hin]].
    + apply Hrec. apply in_or_app. now left.
    + inversion Hin; subst k' r'.
      destruct (Hrec k r) as (Ho & [a Ha] & (v & Hv & Hlegal)).
      { apply in_or_app. right. now left. }
      split; [|split].
      * rewrite dict_get_update_notin; [exact Ho|].
        intros H. apply Hk in H. unfold writable in H. cbn in H.
        intuition discriminate.
      * exists a. rewrite dict_get_update_notin; [exact Ha|].
        intros H. apply Hk in H. unfold writable in H. cbn in H.
        intuition discriminate.
      * destruct (dict_get_update_present r other "status" v Hv) as [v' Hv'].
        exists v'. split; [exact Hv'|].
        destruct (dict_get_update_cases _ _ _ _ Hv') as [Hin'|Hold].
        -- right. now apply Hst.
        -- rewrite Hv in Hold. inversion Hold; subst. exact Hlegal.
    + apply Hrec. apply in_or_app. right. now right.
Qed.

Lemma dict_get_in {V} (d : dict V) k v : dict_get d k = Some v -> In (k, v) d.
Proof.
  induction d as [|[k0 v0] d IH]; cbn; [discriminate|].
  destruct (String.eqb k0 k) eqn:E; intros H.
  - apply String.eqb_eq in E. inversion H. subst. now left.
  - right. now apply IH.
Qed.

Lemma dict_get_none_notin {V} (d : dict V) k :
  dict_get d k = None -> ~ In k (dict_keys d).
Proof.
  induction d as [|[k0 v0] d IH]; cbn; [tauto|].
  destruct (String.eqb k0 k) eqn:E; intros H; [discriminate|].
  intros [Heq|Hin]; [subst; now rewrite String.eqb_refl in E|].
  now apply IH.
Qed.

Lemma well_formed_create db k payment_data :
  well_formed db -> well_formed (dict_set db k (order_record k payment_data)).
Proof.
  intros [Hnd Hrec]. split.
  - destruct (dict_get db k) as [old|] eqn:Hget.
    + now rewrite (dict_keys_set_present db k _ old Hget).
    + rewrite (dict_keys_set_absent db k _ Hget).
      apply NoDup_app; [exact Hnd|repeat constructor; intros []|].
      intros x Hx [Hk|[]]. subst x.
      now apply (dict_get_none_notin db k Hget).
  - intros k' r' Hin.
    destruct (in_dict_set _ _ _ _ _ Hin) as [Hold|[-> ->]];
      [now apply Hrec|].
    split; [reflexivity|]. split; [eexists; reflexivity|].
    exists (PStr "created"). split; [reflexivity|now left].
Qed.

Lemma well_formed_step env o db : well_formed db -> well_formed (step env o db).
Proof.
  intros Hwf.
  destruct (step_shape env o db)
    as [->|[(pd & k & _ & ->)|(_ & Ht)]].
  - exact Hwf.
  - now apply well_formed_create.
  - now apply (well_formed_touched db).
Qed.

Lemma well_formed_run history db :
  well_formed db -> well_formed (run history db).
Proof.
  revert db. induction history as [|[env o] history IH]; intros db Hwf.
  - exact Hwf.
  - cbn [run]. apply IH. now apply well_formed_step.
Qed.

(** X24. Whatever requests the service has answered since it started with an
    empty store, the store is a proper dictionary and its records are well
    formed: no order identifier occurs twice, every record names the order it
    is filed under, holds the amount as a float, and has one of the statuses
    [created], [paid], [failed] or [refunded] (the status [attempted] is
    never written). *)
Theorem reachable_store_is_well_formed history :
  well_formed (run history []).
Proof.
  apply well_formed_run. split; [constructor|intros k r []].
Qed.

(** X25. No request removes or reorders stored orders: after any request the
    order identifiers are the ones before, in the same order, except that a
    successful create-order for an identifier not yet stored appends it. *)
Theorem no_request_deletes_an_order env o db :
  dict_keys (step env o db) = dict_keys db
  \/ exists payment_data k,
      o = CreateOrder payment_data /\
      dict_get db k = None /\
      dict_keys (step env o db) = dict_keys db ++ [k].
Proof.
  destruct (step_shape env o db)
    as [->|[(pd & k & Ho & ->)|(_ & Ht)]].
  - now left.
  - destruct (dict_get db k) as [old|] eqn:Hget.
    + left. now apply (dict_keys_set_present db k _ old).
    + right. exists pd, k. split; [exact Ho|]. split; [exact Hget|].
      now apply dict_keys_set_absent.
  - left. now apply touched_keys.
Qed.

(** X26. Only create-order writes the core fields of a record: a request of
    any other kind leaves, for every stored order, every field outside
    [status], the three [razorpay_*] fields, [method] and the three
    [refund_*] fields exactly as it was (so the amount, the currency, the
    order identifier and the customer data never change after creation). *)
Theorem only_create_order_writes_core_fields env o db field :
  (forall payment_data, o <> CreateOrder payment_data) ->
  ~ In field writable ->
  column field (step env o db) = column field db.
Proof.
  intros Hno Hf.
  destruct (step_shape env o db)
    as [->|[(pd & k & Ho & _)|(_ & Ht)]].
  - reflexivity.
  - exfalso. now apply (Hno pd).
  - now apply touched_column.
Qed.

Lemma only_create_order_writes_core_fields_witness :
  column "amount" (step Demo.env_granting (Refund Demo.refund_request)
                     Demo.db_paid)
  = column "amount" Demo.db_paid.
Proof.
  apply (only_create_order_writes_core_fields
           Demo.env_granting (Refund Demo.refund_request) Demo.db_paid "amount").
  - discriminate.
  - unfold writable. cbn. intuition discriminate.
Defined.

(* ================================================================== *)
(** * Further properties: the verifiers and the order service *)
(* ================================================================== *)

(** X27. On an ASCII signature the manual verifier does return a boolean (the
    hexadecimal digest being ASCII), and it accepts exactly the digest of the
    payload under the UTF-8 encoded secret: any other signature, including
    the same digits in another letter case, is refused. *)
Theorem manual_verifier_accepts_exactly_the_digest
        hmac_sha256_hexdigest payload signature secret :
  Codec.is_ascii_str
    (hmac_sha256_hexdigest (Codec.utf8_encode secret) payload) = true ->
  Codec.is_ascii_str signature = true ->
  exists b,
    Security.verify_webhook_signature hmac_sha256_hexdigest
      payload signature secret = Ok b /\
    (b = true <->
     signature = hmac_sha256_hexdigest (Codec.utf8_encode secret) payload).
Proof.
  intros Hd Hs.
  unfold Security.verify_webhook_signature, Security.compare_digest.
  rewrite Hd, Hs. cbn.
  eexists. split; [reflexivity|].
  rewrite String.eqb_eq. split; congruence.
Qed.

Lemma manual_verifier_witness :
  exists b,
    Security.verify_webhook_signature Demo.constant_digest
      [x7b; x7d] "9F86D081884C7D65" "webhook_secret" = Ok b /\
    (b = true <->
     "9F86D081884C7D65"
     = Demo.constant_digest (Codec.utf8_encode "webhook_secret") [x7b; x7d]).
Proof.
  apply (manual_verifier_accepts_exactly_the_digest
           Demo.constant_digest [x7b; x7d] "9F86D081884C7D65" "webhook_secret");
    reflexivity.
Defined.

Lemma utf8_decode_encoded_char c bs :
  Codec.utf8_decode (Codec.utf8_encode (String c EmptyString) ++ bs)
  = option_map (cons (N_of_ascii c)) (Codec.utf8_decode bs).
Proof.
  destruct c as [[] [] [] [] [] [] [] []]; reflexivity.
Qed.

Lemma utf8_encode_cons c s :
  Codec.utf8_encode (String c s)
  = Codec.utf8_encode (String c EmptyString) ++ Codec.utf8_encode s.
Proof.
  cbn. destruct (N_of_ascii c <? 128)%N; reflexivity.
Qed.

Lemma utf8_decode_encode s :
  Codec.utf8_decode (Codec.utf8_encode s) = Some (code_points s).
Proof.
  induction s as [|c s IH]; [reflexivity|].
  rewrite utf8_encode_cons, utf8_decode_encoded_char, IH. reflexivity.
Qed.

(** X28. A body that is the UTF-8 encoding of a text always decodes: the
    service verifier hands the SDK exactly that text, the signature and the
    configured webhook secret, in one call, and answers [True] when the SDK
    accepts and [False] when it reports a verification error; any other SDK
    exception propagates.  The ledger is not involved. *)
Theorem service_verifier_on_encoded_text env s signature db :
  Service.verify_webhook_signature env (Codec.utf8_encode s) signature db
  = (verification_result
       (utility_verify_webhook_signature (client env) (code_points s)
          signature (webhook_secret (settings env))),
     db,
     [SdkVerifyWebhookSignature (code_points s) signature
        (webhook_secret (settings env))]).
Proof.
  unfold Service.verify_webhook_signature, verification_result.
  rewrite utf8_decode_encode. unfold_monad.
  destruct (utility_verify_webhook_signature (client env) (code_points s)
              signature (webhook_secret (settings env))) as [[]|e];
    [reflexivity|destruct e; reflexivity].
Qed.

(** X29. The order service sends optional fields only when they are
    non-empty: a [receipt] that is absent or the empty string and [notes]
    that are absent or the empty dictionary are left out of the order; the
    currency and automatic capture are always sent. *)
Theorem service_create_order_optional_fields
        env amount currency receipt notes db data :
  In (SdkOrderCreate data)
     (effects_of (Service.create_order env amount currency receipt notes db)) ->
  dict_get data "receipt"
    = (if str_truthy receipt then Some (opt_str receipt) else None) /\
  dict_get data "notes"
    = match notes with
      | Some d => if dict_truthy d then Some (PDict d) else None
      | None => None
      end /\
  dict_get data "currency" = Some (PStr currency) /\
  dict_get data "payment_capture" = Some (PInt 1).
Proof.
  unfold Service.create_order. unfold_monad.
  destruct (Service.to_paise amount) as [paise|e]; cbn -[str_truthy];
    [|intros []].
  intros [H|[]]. inversion H; subst data; clear H.
  destruct (str_truthy receipt);
    (destruct notes as [d|]; [destruct (dict_truthy d)|]);
    repeat split; reflexivity.
Qed.

Lemma service_create_order_optional_fields_witness :
  dict_get [("amount", PInt 10000); ("currency", PStr "INR");
            ("payment_capture", PInt 1)] "receipt"
    = (if str_truthy (Some EmptyString)
       then Some (opt_str (Some EmptyString)) else None) /\
  dict_get [("amount", PInt 10000); ("currency", PStr "INR");
            ("payment_capture", PInt 1)] "notes"
    = match Some [] with
      | Some d => if dict_truthy d then Some (PDict d) else None
      | None => None
      end /\
  dict_get [("amount", PInt 10000); ("currency", PStr "INR");
            ("payment_capture", PInt 1)] "currency" = Some (PStr "INR") /\
  dict_get [("amount", PInt 10000); ("currency", PStr "INR");
            ("payment_capture", PInt 1)] "payment_capture" = Some (PInt 1).
Proof.
  apply (service_create_order_optional_fields
           Demo.env (float_lit 100) "INR" (Some EmptyString) (Some []) []
           [("amount", PInt 10000); ("currency", PStr "INR");
            ("payment_capture", PInt 1)]).
  vm_compute. left. reflexivity.
Defined.

(* ================================================================== *)
(** * Further properties: conversion to minor units *)
(* ================================================================== *)

Lemma shifted_value M t : Zpos (shifted M t) = Zpos M * 2 ^ Z.of_nat t.
Proof.
  induction t as [|t IH].
  - cbn. lia.
  - change (shifted M (S t)) with (xO (shifted M t)).
    rewrite Pos2Z.inj_xO, IH, Nat2Z.inj_succ, Z.pow_succ_r by lia. lia.
Qed.

Lemma shifted_digits M t :
  Zpos (digits2_pos (shifted M t)) = Zpos (digits2_pos M) + Z.of_nat t.
Proof.
  induction t as [|t IH].
  - cbn. lia.
  - change (shifted M (S t)) with (xO (shifted M t)).
    cbn [digits2_pos]. rewrite Pos2Z.inj_succ, IH. lia.
Qed.

Lemma iter_pos_nat {A} (f : A -> A) p x :
  iter_pos f p x = Nat.iter (Pos.to_nat p) f x.
Proof.
  revert x. induction p as [p IH|p IH|]; intros x; cbn [iter_pos].
  - rewrite !IH, Pos2Nat.inj_xI.
    replace (S (2 * Pos.to_nat p)) with (Pos.to_nat p + (Pos.to_nat p + 1))%nat by lia.
    rewrite !Nat.iter_add. cbn. reflexivity.
  - rewrite !IH, Pos2Nat.inj_xO.
    replace (2 * Pos.to_nat p)%nat with (Pos.to_nat p + Pos.to_nat p)%nat by lia.
    rewrite Nat.iter_add. reflexivity.
  - reflexivity.
Qed.

Lemma shr_exact M k j :
  Nat.iter k shr_1 {| shr_m := Zpos (shifted M (k + j)); shr_r := false; shr_s := false |}
  = {| shr_m := Zpos (shifted M j); shr_r := false; shr_s := false |}.
Proof.
  induction k as [|k IH].
  - reflexivity.
  - rewrite Nat.iter_succ_r.
    change (shifted M (S k + j)) with (xO (shifted M (k + j))).
    cbn [shr_1 orb]. exact IH.
Qed.

Lemma shr_fexp_exact M t :
  Zpos (digits2_pos M) <= 53 ->
  shr_fexp prec emax (Zpos (shifted M t)) (- Z.of_nat t) loc_Exact
  = ({| shr_m := Zpos (shifted M (Nat.min t (room M)));
        shr_r := false; shr_s := false |},
     - Z.of_nat (Nat.min t (room M))).
Proof.
  intros HD. unfold shr_fexp, shr, fexp, emin, prec, emax, room.
  cbn [Zdigits2 shr_record_of_loc]. rewrite shifted_digits.
  set (D := Zpos (digits2_pos M)) in *.
  assert (HD1 : 1 <= D) by (unfold D; lia).
  replace (Z.max (D + Z.of_nat t + - Z.of_nat t - 53) (3 - 1024 - 53)
           - - Z.of_nat t) with (D - 53 + Z.of_nat t) by lia.
  destruct (D - 53 + Z.of_nat t) as [|p|p] eqn:Hn.
  - replace (Nat.min t (Z.to_nat (53 - D))) with t by lia. reflexivity.
  - rewrite iter_pos_nat.
    replace t with (Pos.to_nat p + Z.to_nat (53 - D))%nat at 1 by lia.
    rewrite shr_exact.
    replace (Nat.min t (Z.to_nat (53 - D))) with (Z.to_nat (53 - D)) by lia.
    f_equal. lia.
  - replace (Nat.min t (Z.to_nat (53 - D))) with t by lia. reflexivity.
Qed.

Lemma binary_round_aux_exact sx M t :
  Zpos (digits2_pos M) <= 53 ->
  binary_round_aux prec emax sx (Zpos (shifted M t)) (- Z.of_nat t) loc_Exact
  = S754_finite sx (shifted M (Nat.min t (room M)))
                (- Z.of_nat (Nat.min t (room M))).
Proof.
  intros HD. unfold binary_round_aux.
  rewrite (shr_fexp_exact M t HD).
  cbn [shr_m loc_of_shr_record round_nearest_even].
  rewrite (shr_fexp_exact M _ HD).
  replace (Nat.min (Nat.min t (room M)) (room M)) with (Nat.min t (room M))
    by lia.
  cbn [shr_m].
  destruct (Z.leb_spec (- Z.of_nat (Nat.min t (room M))) (emax - prec))
    as [_|Hgt]; [reflexivity|].
  unfold emax, prec in Hgt. lia.
Qed.

Lemma int_of_float_shifted X t :
  int_of_float (S754_finite false (shifted X t) (- Z.of_nat t)) = Ok (Zpos X).
Proof.
  unfold int_of_float. cbn [cond_Zopp]. f_equal.
  destruct t as [|t].
  - reflexivity.
  - destruct (- Z.of_nat (S t)) as [|p|p] eqn:Hn; try lia.
    rewrite Z.shiftr_div_pow2 by lia.
    rewrite shifted_value.
    replace (Zpos p) with (Z.of_nat (S t)) by lia.
    apply Z.div_mul. apply Z.pow_nonzero; lia.
Qed.

Lemma digits2_pos_size p : digits2_pos p = Pos.size p.
Proof. induction p; cbn; congruence. Qed.

Lemma digits_bound M : Zpos M < 2 ^ 53 -> Zpos (digits2_pos M) <= 53.
Proof.
  intros H. rewrite digits2_pos_size.
  destruct (Z_le_gt_dec (Zpos (Pos.size M)) 53) as [Hle|Hgt]; [exact Hle|].
  exfalso.
  pose proof (Pos.size_le M) as Hs.
  apply Pos2Z.pos_le_pos in Hs. rewrite Pos2Z.inj_pow, (Pos2Z.inj_xO M) in Hs.
  assert (2 ^ 54 <= 2 ^ Zpos (Pos.size M)) by (apply Z.pow_le_mono_r; lia).
  change (2 ^ 54) with (2 * 2 ^ 53) in H0. lia.
Qed.

Lemma float_lit_pos M :
  Zpos (digits2_pos M) <= 53 ->
  float_lit (Zpos M) = S754_finite false (shifted M (room M)) (- Z.of_nat (room M)).
Proof.
  intros HD. unfold float_lit, binary_normalize, binary_round, shl_align.
  unfold fexp, emin.
  assert (HD1 : 1 <= Zpos (digits2_pos M)) by lia.
  replace (Z.max (Zpos (digits2_pos M) + 0 - prec) (3 - emax - prec))
    with (Zpos (digits2_pos M) - 53) by (unfold prec, emax; lia).
  replace (Zpos (digits2_pos M) - 53 - 0)
    with (Zpos (digits2_pos M) - 53) by lia.
  destruct (Zpos (digits2_pos M) - 53) as [|p|p] eqn:Hn; try lia.
  - assert (Hr : room M = 0%nat) by (unfold room; lia).
    pose proof (binary_round_aux_exact false M 0 HD) as H.
    change (shifted M 0) with M in H. cbn [Z.of_nat Z.opp] in H.
    rewrite H, Hr. reflexivity.
  - assert (Hr : room M = Pos.to_nat p) by (unfold room; lia).
    rewrite Pos2Nat.inj_iter.
    change (nat_rect (fun _ : nat => positive) M (fun _ : nat => xO)
                     (Pos.to_nat p))
      with (shifted M (Pos.to_nat p)).
    replace (Zneg p) with (- Z.of_nat (Pos.to_nat p)) by lia.
    rewrite (binary_round_aux_exact false M (Pos.to_nat p) HD).
    rewrite Hr, Nat.min_id. reflexivity.
Qed.

Lemma shifted_mul M t X u :
  (shifted M t * shifted X u)%positive = shifted (M * X) (t + u).
Proof.
  apply Pos2Z.inj. rewrite Pos2Z.inj_mul, !shifted_value, Pos2Z.inj_mul.
  rewrite Nat2Z.inj_add, Z.pow_add_r by lia. ring.
Qed.

Lemma float_lit_100 : float_lit 100 = S754_finite false (shifted 100 46) (-46).
Proof. vm_compute. reflexivity. Qed.

(** X30. Whole major-unit amounts convert exactly: for every whole number [n]
    of major units with [100 n] below 2^53, the amount arriving as the float
    [n] is sent to the processor as exactly [100 n] minor units (the float
    product is exact, so truncation loses nothing). *)
Theorem whole_amounts_convert_exactly n :
  0 <= n -> n * 100 < 2 ^ 53 ->
  Service.to_paise (float_lit n) = Ok (n * 100).
Proof.
  intros Hn Hb. unfold Service.to_paise, float_mul.
  destruct n as [|M|M]; [reflexivity| |lia].
  assert (HM : Zpos (digits2_pos M) <= 53) by (apply digits_bound; lia).
  assert (HM' : Zpos (digits2_pos (M * 100)) <= 53).
  { apply digits_bound. rewrite Pos2Z.inj_mul. exact Hb. }
  rewrite (float_lit_pos M HM), float_lit_100.
  cbn [SFmul xorb]. rewrite shifted_mul.
  replace (- Z.of_nat (room M) + -46) with (- Z.of_nat (room M + 46)) by lia.
  rewrite (binary_round_aux_exact false (M * 100) _ HM').
  rewrite int_of_float_shifted. reflexivity.
Qed.

Lemma whole_amounts_convert_exactly_witness :
  Service.to_paise (float_lit 19999) = Ok (19999 * 100).
Proof.
  apply (whole_amounts_convert_exactly 19999).
  - lia.
  - reflexivity.
Defined.
